(** * ai_summaraizer_airflow: tool server, tool registry and orchestrator

    A shallow embedding of

    - [src/mcp_server.py]  (the HTTP tool provider: [/news], [/weather]),
    - [src/dags/news_tool.py], [src/dags/weather_tool.py] (the tool
      descriptors, their registration and their dispatch),
    - [src/dags/bitcoin_news_summary_dag.py] (the GigaChat orchestration),

    followed by the properties stated about them.

    Python values are an inductive type, dictionaries are association
    lists in insertion order, exceptions are values carried by a result
    type, and every effect (an upstream HTTP request, a request to the
    model, an XCom push) is recorded in an explicit world that the code
    threads through a small state-and-exception monad.

    What is left out: logging; the bytes [_send_json_response] writes
    (a reply is its status and the value it serialises); failures of
    the socket.  The [gigachat] package is no part of the repository:
    of its models the embedding keeps what the orchestrator touches, the
    members of [MessagesRole] and the fields of [Messages] and [Chat]
    that it sets, and the constructors [GigaChat(...)], [Chat(...)] and
    [Messages(...)] are taken to build their value without raising.
    The answers of the network, of the model and of the environment are
    oracles of the environment [Env]; library functions are the fields
    of [PyLib]. *)

From Stdlib Require Import ZArith List String Ascii Bool Lia Floats.
From Stdlib Require Import Strings.Byte DecimalString.
Import ListNotations.
Set Warnings "-register-all".
Local Open Scope string_scope.
Local Open Scope Z_scope.

(* ================================================================== *)
(** * Python values *)
(* ================================================================== *)

(** What [json.loads] and [response.json()] produce, and what the
    handlers build with dictionary displays. *)
Inductive value : Type :=
| PNone
| PBool (b : bool)
| PInt (z : Z)
| PFloat (f : float)
| PStr (s : string)
| PList (l : list value)
| PDict (d : list (string * value)).

Definition dict := list (string * value).

(** [key in d] for a dictionary. *)
Fixpoint dict_mem (key : string) (d : dict) : bool :=
  match d with
  | [] => false
  | (k, _) :: rest => if String.eqb k key then true else dict_mem key rest
  end.

(** The binding of [key], when there is one. *)
Fixpoint dict_lookup (key : string) (d : dict) : option value :=
  match d with
  | [] => None
  | (k, v) :: rest => if String.eqb k key then Some v else dict_lookup key rest
  end.

(** Python truthiness, as used by [if not fact], [if body], [if not titles]. *)
Definition truthy (v : value) : bool :=
  match v with
  | PNone => false
  | PBool b => b
  | PInt z => negb (z =? 0)
  | PFloat f => negb (PrimFloat.eqb f 0%float)
  | PStr s => negb (String.eqb s "")
  | PList l => match l with [] => false | _ => true end
  | PDict d => match d with [] => false | _ => true end
  end.

Definition is_none (v : value) : bool :=
  match v with PNone => true | _ => false end.

Definition type_name (v : value) : string :=
  match v with
  | PNone => "NoneType"
  | PBool _ => "bool"
  | PInt _ => "int"
  | PFloat _ => "float"
  | PStr _ => "str"
  | PList _ => "list"
  | PDict _ => "dict"
  end.

(** [needle in haystack] on strings: substring test. *)
Fixpoint is_prefix (p s : string) : bool :=
  match p, s with
  | EmptyString, _ => true
  | String a p', String b s' => if Ascii.eqb a b then is_prefix p' s' else false
  | String _ _, EmptyString => false
  end.

Fixpoint is_substring (needle hay : string) : bool :=
  if is_prefix needle hay then true
  else match hay with
       | EmptyString => false
       | String _ hay' => is_substring needle hay'
       end.

(** [str(n)] for an integer. *)
Definition str_int (z : Z) : string := NilZero.string_of_int (Z.to_int z).

(* ================================================================== *)
(** * Exceptions *)
(* ================================================================== *)

Inductive exn_class : Type :=
| Exception_
| ValueError | TypeError | KeyError | IndexError | AttributeError
| OverflowError | ImportError | RecursionError | UnicodeDecodeError
| JSONDecodeError                (* json.JSONDecodeError *)
| RequestException | Timeout | ConnectionError | ConnectTimeout
| HTTPError | RequestsJSONDecodeError.  (* requests.exceptions.* *)

(** An exception: its class and [str(e)]. *)
Record exn : Type := Exn { exn_cls : exn_class; exn_str : string }.

Definition exn_class_eqb (a b : exn_class) : bool :=
  match a, b with
  | Exception_, Exception_ | ValueError, ValueError | TypeError, TypeError
  | KeyError, KeyError | IndexError, IndexError
  | AttributeError, AttributeError | OverflowError, OverflowError
  | ImportError, ImportError | RecursionError, RecursionError
  | UnicodeDecodeError, UnicodeDecodeError
  | JSONDecodeError, JSONDecodeError
  | RequestException, RequestException | Timeout, Timeout
  | ConnectionError, ConnectionError | ConnectTimeout, ConnectTimeout
  | HTTPError, HTTPError
  | RequestsJSONDecodeError, RequestsJSONDecodeError => true
  | _, _ => false
  end.

(** The proper ancestors of a class below [Exception]. *)
Definition ancestors (c : exn_class) : list exn_class :=
  match c with
  | JSONDecodeError => [ValueError]
  | UnicodeDecodeError => [ValueError]
  | Timeout => [RequestException]
  | ConnectionError => [RequestException]
  | ConnectTimeout => [ConnectionError; Timeout; RequestException]
  | HTTPError => [RequestException]
  | RequestsJSONDecodeError => [RequestException; JSONDecodeError; ValueError]
  | _ => []
  end.

(** Whether an [except c] clause catches an exception of class [e]. *)
Definition issubclass (e c : exn_class) : bool :=
  exn_class_eqb c Exception_ || exn_class_eqb e c
  || existsb (exn_class_eqb c) (ancestors e).

Definition caught_by (e : exn) (cs : list exn_class) : bool :=
  existsb (issubclass (exn_cls e)) cs.

Inductive result (A : Type) : Type :=
| Ok (a : A)
| Raise (e : exn).
Arguments Ok {A} a.
Arguments Raise {A} e.

Definition rbind {A B} (r : result A) (k : A -> result B) : result B :=
  match r with
  | Ok a => k a
  | Raise e => Raise e
  end.

Notation "'let?' x ':=' e 'in' k" := (rbind e (fun x => k))
  (at level 10, x name, e at level 100, k at level 200).

(* ================================================================== *)
(** * The Python runtime and the libraries the code calls *)
(* ================================================================== *)

(** The faults the interpreter raises on the operations used below. *)
Inductive fault : Type :=
| NoAttribute (attr : string)   (* AttributeError: v.attr *)
| NotContainer                  (* TypeError: x in v *)
| NotSubscriptable              (* TypeError: v[i] *)
| BadSubscript                  (* TypeError: v["k"] on a str or a list *)
| IndexRange                    (* IndexError: v[0] *)
| MissingKey (key : string)     (* KeyError: d[k] *)
| NotIterable.                  (* TypeError: for x in v *)

Definition fault_class (f : fault) : exn_class :=
  match f with
  | NoAttribute _ => AttributeError
  | NotContainer | NotSubscriptable | BadSubscript | NotIterable => TypeError
  | IndexRange => IndexError
  | MissingKey _ => KeyError
  end.

(** Library functions whose definitions are not part of the repository.
    Everything below is stated for an arbitrary implementation of them. *)
Class PyLib : Type := {
  (* json *)
  json_dumps : value -> string;
  json_loads : string -> result value;
  (* builtins *)
  py_float : value -> result float;          (* float(x) *)
  py_int : value -> result Z;                (* int(x) *)
  py_repr : value -> string;                 (* str(x) for x not a str *)
  fault_text : fault -> value -> string;     (* str(e) of an interpreter fault *)
  member_fault : string -> string -> string; (* str(e) of the AttributeError of
                                                [C.name] on an Enum class [C] *)
  (* str methods *)
  py_strip : string -> string;               (* s.strip() *)
  py_split : string -> list string;          (* s.split() *)
  py_lower : string -> string;               (* s.lower() *)
  py_slice_to : nat -> string -> string;     (* s[:n] *)
  str_chars : string -> list string;         (* the characters of s *)
  (* bytes *)
  decode_utf8 : list byte -> result string;  (* b.decode('utf-8') *)
  (* urllib.parse *)
  urlparse : string -> result (string * string);        (* (path, query) *)
  parse_qs : string -> list (string * list string)
}.

Section PythonOps.
Context {L : PyLib}.

Definition raise_fault {A} (f : fault) (v : value) : result A :=
  Raise (Exn (fault_class f) (fault_text f v)).

(** [str(v)], as an f-string field formats it. *)
Definition py_str (v : value) : string :=
  match v with
  | PStr s => s
  | _ => py_repr v
  end.

(** [v.get(key, default)]. *)
Definition get_method (v : value) (key : string) (default : value) : result value :=
  match v with
  | PDict d => Ok (match dict_lookup key d with Some x => x | None => default end)
  | _ => raise_fault (NoAttribute "get") v
  end.

(** [key in v] for a string [key]. *)
Definition contains_op (key : string) (v : value) : result bool :=
  match v with
  | PDict d => Ok (dict_mem key d)
  | PStr s => Ok (is_substring key s)
  | PList l => Ok (existsb (fun x => match x with
                                      | PStr s => String.eqb s key
                                      | _ => false
                                      end) l)
  | _ => raise_fault NotContainer v
  end.

(** [v[key]] for a string [key]. *)
Definition getitem_str (v : value) (key : string) : result value :=
  match v with
  | PDict d => match dict_lookup key d with
               | Some x => Ok x
               | None => raise_fault (MissingKey key) v
               end
  | PStr _ | PList _ => raise_fault BadSubscript v
  | _ => raise_fault NotSubscriptable v
  end.

(** [v[0]]. *)
Definition getitem_0 (v : value) : result value :=
  match v with
  | PList (x :: _) => Ok x
  | PList [] => raise_fault IndexRange v
  | PStr s => match str_chars s with
              | c :: _ => Ok (PStr c)
              | [] => raise_fault IndexRange v
              end
  | PDict _ => raise_fault (MissingKey "0") v
  | _ => raise_fault NotSubscriptable v
  end.

(** The elements a [for] loop visits. *)
Definition py_iter (v : value) : result (list value) :=
  match v with
  | PList l => Ok l
  | PDict d => Ok (map (fun kv => PStr (fst kv)) d)
  | PStr s => Ok (map PStr (str_chars s))
  | _ => raise_fault NotIterable v
  end.

End PythonOps.

(* ================================================================== *)
(** * Effects: the world and the monad *)
(* ================================================================== *)

(** A call of [requests.get]. *)
Record http_request : Type := HttpRequest {
  req_url : string;
  req_headers : list (string * string);
  req_params : list (string * value);
  req_timeout : Z
}.

(** What [requests.get] hands back when it does not raise. *)
Record response : Type := Response {
  status_code : Z;
  text : string;
  json_ : result value;        (* response.json() *)
  status_error : string        (* str(e) of the HTTPError of raise_for_status() *)
}.

(** gigachat.models.MessagesRole: the members of the enumeration.  There
    is no member [TOOL]; the role of a function result is [FUNCTION]. *)
Inductive role : Type :=
| ASSISTANT | SYSTEM | USER | FUNCTION | SEARCH_RESULT | FUNCTION_IN_PROGRESS.

(** The member of [MessagesRole] of a given name, when there is one. *)
Definition role_member (name : string) : option role :=
  if String.eqb name "ASSISTANT" then Some ASSISTANT
  else if String.eqb name "SYSTEM" then Some SYSTEM
  else if String.eqb name "USER" then Some USER
  else if String.eqb name "FUNCTION" then Some FUNCTION
  else if String.eqb name "SEARCH_RESULT" then Some SEARCH_RESULT
  else if String.eqb name "FUNCTION_IN_PROGRESS" then Some FUNCTION_IN_PROGRESS
  else None.

(** gigachat.models.Messages *)
Record Messages : Type := mkMessages {
  msg_role : role;
  msg_content : string;
  msg_name : option string
}.

(** gigachat.models.Chat, of which the orchestrator sets [messages],
    [model] and [temperature].  The model has no field [tools] (its
    field for function descriptors is [functions]). *)
Record Chat : Type := mkChat {
  chat_messages : list Messages;
  chat_model : string;
  chat_temperature : float
}.

(** [Chat(messages=..., model=..., tools=..., temperature=...)]: the
    model ignores a keyword that names none of its fields, so [tools]
    is dropped and the request carries no descriptor. *)
Definition new_Chat (messages : list Messages) (model : string) (tools : list value)
  (temperature : float) : Chat :=
  mkChat messages model temperature.

(** Everything a run leaves behind. *)
Record world : Type := World {
  http_log : list http_request;      (* requests sent by requests.get, oldest first *)
  chat_log : list Chat;              (* requests sent by client.chat, oldest first *)
  xcom : list (string * value)       (* context['ti'].xcom_push, oldest first *)
}.

Definition empty_world : world := World [] [] [].

Definition M (A : Type) : Type := world -> result A * world.

Definition ret {A} (a : A) : M A := fun w => (Ok a, w).

Definition throw {A} (e : exn) : M A := fun w => (Raise e, w).

Definition bind {A B} (m : M A) (k : A -> M B) : M B :=
  fun w => match m w with
           | (Ok a, w') => k a w'
           | (Raise e, w') => (Raise e, w')
           end.

Definition lift {A} (r : result A) : M A := fun w => (r, w).

(** [try: body  except ...: handler]: [handler e = None] when no clause
    matches [e], which then propagates. *)
Definition try_except {A} (body : M A) (handler : exn -> option (M A)) : M A :=
  fun w => match body w with
           | (Ok a, w') => (Ok a, w')
           | (Raise e, w') => match handler e with
                              | Some h => h w'
                              | None => (Raise e, w')
                              end
           end.

Notation "'let*' x ':=' e 'in' k" := (bind e (fun x => k))
  (at level 10, x name, e at level 100, k at level 200).

(** ** What the model returns

    The orchestrator probes the reply with [hasattr]/[getattr]; an
    attribute that may be missing is an [option]. *)

(** [tool_call.function] *)
Record function_obj : Type := mkFunction {
  fn_name : option string;         (* None: no attribute [name] *)
  fn_arguments : option value      (* None: no attribute [arguments] *)
}.

Record tool_call_obj : Type := mkToolCall {
  tc_function : option function_obj   (* None: no attribute [function] *)
}.

(** [response.choices[0].message] *)
Record message_obj : Type := mkMessage {
  m_content : option value;                 (* None: no attribute [content] *)
  m_tool_calls : option (list tool_call_obj);
  m_repr : string                           (* str(message) *)
}.

(** The value of [client.chat(chat)] *)
Record completion : Type := mkCompletion {
  c_choices : option (list message_obj);    (* the message of each choice *)
  c_repr : string                           (* str(response) *)
}.

(** The world outside the process. *)
Record Env : Type := mkEnv {
  (* the n-th call of requests.get (n calls were made before it) *)
  requests_get : nat -> http_request -> result response;
  os_getenv : string -> option string;
  (* the n-th call of client.chat *)
  client_chat : nat -> Chat -> result completion;
  (* whether [from gigachat import GigaChat] succeeds *)
  import_gigachat : bool;
  GIGACHAT_CREDENTIALS : string;
  GIGACHAT_MODEL : string;
  (* module constants read from the environment at import *)
  NEWS_SERVER_URL : string;
  WEATHER_SERVER_URL : string;
  (* context['ti'].xcom_pull(key, task_ids); PNone when there is none *)
  xcom_pull : string -> string -> value
}.

Definition http_get (E : Env) (rq : http_request) : M response :=
  fun w => (requests_get E (List.length (http_log w)) rq,
            World (http_log w ++ [rq]) (chat_log w) (xcom w)).

Definition chat_send (E : Env) (c : Chat) : M completion :=
  fun w => (client_chat E (List.length (chat_log w)) c,
            World (http_log w) (chat_log w ++ [c]) (xcom w)).

Definition xcom_push (key : string) (v : value) : M unit :=
  fun w => (Ok tt, World (http_log w) (chat_log w) (xcom w ++ [(key, v)])).

(* ================================================================== *)
(** * src/mcp_server.py *)
(* ================================================================== *)

Definition NEWS_API_URL : string :=
  "https://newsdata.io/api/1/latest?apikey=pub_9e46781355424a7b98d14269cebceb8d&q=bitcoin".

Definition YANDEX_WEATHER_API_URL : string :=
  "https://api.weather.yandex.ru/v2/forecast".

(** What [_send_json_response(data, status_code)] puts on the wire. *)
Record http_reply : Type := Reply { reply_status : Z; reply_body : value }.

(** An incoming POST: the request target, the [Content-Length] header
    and the bytes available on [rfile]. *)
Record post_request : Type := PostRequest {
  post_target : string;
  post_content_length : option string;
  post_rfile : list byte
}.

Definition error_payload (msg : string) : value := PDict [("error", PStr msg)].

Definition error_details (msg details : string) : value :=
  PDict [("error", PStr msg); ("details", PStr details)].

Definition error_raw (msg : string) (raw : value) : value :=
  PDict [("error", PStr msg); ("raw_response", raw)].

(** [error_text if error_text else fallback] *)
Definition text_or (error_text fallback : string) : string :=
  if String.eqb error_text "" then fallback else error_text.

(** The three ways a guarded [json.loads] can end
    ([try: json.loads(s)  except json.JSONDecodeError as e: ...]). *)
Inductive loads_outcome : Type :=
| Parsed (v : value)     (* nothing to decode, or json.loads returned *)
| BadJson (e : exn)      (* json.JSONDecodeError, handled on the spot *)
| Escapes (e : exn).     (* any other exception: it propagates *)

Section McpServer.
Context {L : PyLib} (E : Env).

(** The loop of lines 167-169: [titles] is the list built so far. *)
Fixpoint collect_titles (articles titles : list value) : result (list value) :=
  match articles with
  | [] => Ok titles
  | article :: rest =>
      let? has_title := contains_op "title" article in
      if has_title then
        let? t := getitem_str article "title" in
        collect_titles rest (titles ++ [t])
      else collect_titles rest titles
  end.

(** Lines 165-177, the body of the inner [try]. *)
Definition extract_titles (news_data : value) : result value :=
  let? has_results := contains_op "results" news_data in
  let? titles :=
    (if has_results then
       let? results := getitem_str news_data "results" in
       match results with
       | PList articles => collect_titles articles []
       | _ => Ok []
       end
     else Ok []) in
  Ok (PDict [("titles", PList titles);
             ("total_count", PInt (Z.of_nat (List.length titles)))]).

(** The four outer [except] clauses shared by both handlers, in order. *)
Definition upstream_failure (timeout_msg : string) (e : exn) : option (M value) :=
  if caught_by e [Timeout] then Some (ret (error_payload timeout_msg))
  else if caught_by e [ConnectionError] then
    Some (ret (error_payload ("Ошибка соединения с API: " ++ exn_str e)))
  else if caught_by e [RequestException] then
    Some (ret (error_payload ("Ошибка сети: " ++ exn_str e)))
  else if caught_by e [Exception_] then
    Some (ret (error_payload ("Неожиданная ошибка: " ++ exn_str e)))
  else None.

Definition _handle_news_request : M value :=
  try_except
    (let* response := http_get E (HttpRequest NEWS_API_URL [] [] 10) in
     if negb (status_code response =? 200) then
       ret (error_details
              ("Ошибка API новостей: статус " ++ str_int (status_code response))
              (text_or (text response) "Unknown error"))
     else
       let* news_data := lift (json_ response) in
       let* _ := lift (get_method news_data "totalResults" (PInt 0)) in
       try_except
         (lift (extract_titles news_data))
         (fun e =>
            if caught_by e [KeyError; AttributeError; TypeError] then
              Some (ret (error_raw
                           ("Неожиданный формат ответа от API: " ++ exn_str e)
                           news_data))
            else None))
    (upstream_failure "Таймаут при запросе к API новостей").

(** Lines 293-298: the [fact] object, else [forecasts[0].parts.day]. *)
Definition select_fact (weather_data : value) : result value :=
  let? fact := get_method weather_data "fact" (PDict []) in
  if negb (truthy fact) then
    let? forecasts := get_method weather_data "forecasts" PNone in
    if truthy forecasts then
      let? fs := get_method weather_data "forecasts" (PList [PDict []]) in
      let? first := getitem_0 fs in
      let? parts := get_method first "parts" (PDict []) in
      get_method parts "day" (PDict [])
    else Ok (PDict [])
  else Ok fact.

(** Lines 293-313, the body of the inner [try]. *)
Definition extract_weather (weather_data : value) : result value :=
  let? fact := select_fact weather_data in
  let? temperature := get_method fact "temp" PNone in
  let? condition := get_method fact "condition" PNone in
  let? wind_speed := get_method fact "wind_speed" PNone in
  let? humidity := get_method fact "humidity" PNone in
  if is_none temperature && is_none condition
     && is_none wind_speed && is_none humidity
  then Ok (error_raw "Не удалось извлечь данные о погоде из ответа API" weather_data)
  else Ok (PDict [("temperature", temperature); ("condition", condition);
                  ("wind_speed", wind_speed); ("humidity", humidity)]).

(** [-90 <= latitude <= 90] and [-180 <= longitude <= 180] *)
Definition lat_in_range (latitude : float) : bool :=
  PrimFloat.leb (-90)%float latitude && PrimFloat.leb latitude 90%float.

Definition lon_in_range (longitude : float) : bool :=
  PrimFloat.leb (-180)%float longitude && PrimFloat.leb longitude 180%float.

(** Lines 260-317: the upstream request and what is made of its reply. *)
Definition weather_upstream (api_key : string) (latitude longitude : float) : M value :=
  try_except
    (let* response :=
       http_get E (HttpRequest YANDEX_WEATHER_API_URL
                     [("X-Yandex-Weather-Key", api_key)]
                     [("lat", PFloat latitude); ("lon", PFloat longitude)] 10) in
     if negb (status_code response =? 200) then
       if status_code response =? 403 then
         ret (error_details
                "Ошибка доступа (403). Проверьте правильность API ключа YANDEX_WEATHER_API_KEY"
                (text_or (text response) "Forbidden"))
       else if status_code response =? 401 then
         ret (error_details "Ошибка аутентификации (401). Неверный API ключ"
                (text_or (text response) "Unauthorized"))
       else
         ret (error_details
                ("Ошибка API Яндекс.Погоды: статус " ++ str_int (status_code response))
                (text_or (text response) "Unknown error"))
     else
       let* weather_data := lift (json_ response) in
       try_except
         (lift (extract_weather weather_data))
         (fun e =>
            if caught_by e [KeyError; AttributeError; IndexError] then
              Some (ret (error_raw
                           ("Неожиданный формат ответа от API: " ++ exn_str e)
                           weather_data))
            else None))
    (upstream_failure "Таймаут при запросе к API Яндекс.Погоды").

(** Lines 219-224: both conversions sit in one [try]. *)
Definition parse_coordinates (latitude longitude : value) : result (option (float * float)) :=
  match (let? lat := py_float latitude in
         let? lon := py_float longitude in
         Ok (lat, lon)) with
  | Ok p => Ok (Some p)
  | Raise e => if caught_by e [ValueError; TypeError] then Ok None else Raise e
  end.

Definition _handle_weather_request (latitude longitude : value) : M value :=
  if is_none latitude || is_none longitude then
    ret (error_payload "Необходимо указать latitude и longitude")
  else
    let* coords := lift (parse_coordinates latitude longitude) in
    match coords with
    | None => ret (error_payload "Координаты должны быть числами")
    | Some (lat, lon) =>
        if negb (lat_in_range lat) then
          ret (error_payload "Широта должна быть в диапазоне от -90 до 90")
        else if negb (lon_in_range lon) then
          ret (error_payload "Долгота должна быть в диапазоне от -180 до 180")
        else
          match os_getenv E "YANDEX_WEATHER_API_KEY" with
          | None =>
              ret (error_payload
                     "API ключ не настроен. Установите переменную окружения YANDEX_WEATHER_API_KEY")
          | Some api_key =>
              if String.eqb api_key "" then
                ret (error_payload
                       "API ключ не настроен. Установите переменную окружения YANDEX_WEATHER_API_KEY")
              else
                let api_key := py_strip api_key in
                if String.eqb api_key "" then
                  ret (error_payload
                         "API ключ пустой. Проверьте переменную окружения YANDEX_WEATHER_API_KEY в .env файле")
                else weather_upstream api_key lat lon
          end
    end.

Definition news_route (path : string) : bool :=
  String.eqb path "/news" || String.eqb path "/get_news".

Definition weather_route (path : string) : bool :=
  String.eqb path "/weather" || String.eqb path "/get_weather".

Definition health_route (path : string) : bool :=
  String.eqb path "/" || String.eqb path "/health".

(** [200 if 'error' not in response_data else 400], then the 404 override. *)
Definition status_of (known : list string) (path : string) (response_data : value)
  : result Z :=
  let? has_error := contains_op "error" response_data in
  let status_code := if negb has_error then 200 else 400 in
  Ok (if negb (existsb (String.eqb path) known) then 404 else status_code).

Definition internal_error (e : exn) : option (M http_reply) :=
  Some (ret (Reply 500 (error_payload ("Внутренняя ошибка сервера: " ++ exn_str e)))).

(** [query_params.get(name, [None])[0]] *)
Definition query_param (query_params : list (string * list string)) (name : string)
  : result value :=
  match find (fun kv => String.eqb (fst kv) name) query_params with
  | Some (_, v :: _) => Ok (PStr v)
  | Some (_, []) => raise_fault IndexRange (PList [])
  | None => Ok PNone
  end.

Definition health_payload : value :=
  PDict [("status", PStr "ok");
         ("server", PStr "MCP Server");
         ("tools", PList [PStr "get_news"; PStr "get_weather"]);
         ("endpoints",
          PDict [("news", PStr "/news или /get_news");
                 ("weather",
                  PStr "/weather или /get_weather (требует latitude и longitude)")])].

Definition unknown_endpoint (endpoints : list string) : value :=
  PDict [("error", PStr "Неизвестный эндпоинт");
         ("available_endpoints", PList (map PStr endpoints))].

Definition do_GET (target : string) : M http_reply :=
  try_except
    (let* parsed_path := lift (urlparse target) in
     let path := fst parsed_path in
     let query_params := parse_qs (snd parsed_path) in
     let* response_data :=
       (if news_route path then _handle_news_request
        else if weather_route path then
          let* latitude := lift (query_param query_params "latitude") in
          let* longitude := lift (query_param query_params "longitude") in
          _handle_weather_request latitude longitude
        else if health_route path then ret health_payload
        else ret (unknown_endpoint
                    ["/news"; "/get_news"; "/weather"; "/get_weather"; "/health"])) in
     let* status_code :=
       lift (status_of ["/"; "/health"; "/news"; "/get_news"; "/weather"; "/get_weather"]
               path response_data) in
     ret (Reply status_code response_data))
    internal_error.

(** [self.rfile.read(content_length)] on the buffered reader of the
    connection: the whole stream for [-1], a [ValueError] below. *)
Definition rfile_read (rfile : list byte) (content_length : Z) : result (list byte) :=
  if content_length <? -1 then
    Raise (Exn ValueError "read length must be non-negative or -1")
  else if content_length <? 0 then Ok rfile
  else Ok (firstn (Z.to_nat content_length) rfile).

(** Lines 90-91, the first two statements of every [do_POST]:
    [int(self.headers.get('Content-Length', 0))], then
    [self.rfile.read(content_length).decode('utf-8')]. *)
Definition read_body (rq : post_request) : result string :=
  let? content_length :=
    match post_content_length rq with
    | Some h => py_int (PStr h)
    | None => py_int (PInt 0)
    end in
  let? raw := rfile_read (post_rfile rq) content_length in
  decode_utf8 raw.

(** Lines 101-108: [request_data = {}], replaced by [json.loads(body)]
    when the body is not empty. *)
Definition json_loads_guard (body : string) : loads_outcome :=
  if negb (String.eqb body "") then
    match json_loads body with
    | Ok v => Parsed v
    | Raise e => if caught_by e [JSONDecodeError] then BadJson e else Escapes e
    end
  else Parsed (PDict []).

Definition do_POST (rq : post_request) : M http_reply :=
  try_except
    (let* body := lift (read_body rq) in
     let* parsed_path := lift (urlparse (post_target rq)) in
     let path := fst parsed_path in
     match json_loads_guard body with
     | BadJson e => ret (Reply 400 (error_payload ("Некорректный JSON: " ++ exn_str e)))
     | Escapes e => throw e
     | Parsed request_data =>
         let* response_data :=
           (if news_route path then _handle_news_request
            else if weather_route path then
              let* latitude := lift (get_method request_data "latitude" PNone) in
              let* longitude := lift (get_method request_data "longitude" PNone) in
              _handle_weather_request latitude longitude
            else ret (unknown_endpoint
                        ["/news"; "/get_news"; "/weather"; "/get_weather"])) in
         let* status_code :=
           lift (status_of ["/news"; "/get_news"; "/weather"; "/get_weather"]
                   path response_data) in
         ret (Reply status_code response_data)
     end)
    internal_error.

End McpServer.

(* ================================================================== *)
(** * src/dags/news_tool.py and src/dags/weather_tool.py *)
(* ================================================================== *)

Definition NEWS_TOOL_DEFINITION : value :=
  PDict [("type", PStr "function");
         ("function",
          PDict [("name", PStr "news");
                 ("description",
                  PStr ("Получает актуальные заголовки новостей о Bitcoin. "
                        ++ "Возвращает список заголовков из последних новостей."));
                 ("parameters",
                  PDict [("type", PStr "object");
                         ("properties", PDict []);
                         ("required", PList [])])])].

Definition WEATHER_TOOL_DEFINITION : value :=
  PDict [("type", PStr "function");
         ("function",
          PDict [("name", PStr "weather");
                 ("description",
                  PStr ("Получает актуальную информацию о погоде по географическим координатам. "
                        ++ "Возвращает температуру, условия, скорость ветра и влажность."));
                 ("parameters",
                  PDict [("type", PStr "object");
                         ("properties",
                          PDict [("latitude",
                                  PDict [("type", PStr "number");
                                         ("description",
                                          PStr "Широта в градусах (от -90 до 90)")]);
                                 ("longitude",
                                  PDict [("type", PStr "number");
                                         ("description",
                                          PStr "Долгота в градусах (от -180 до 180)")])]);
                         ("required", PList [PStr "latitude"; PStr "longitude"])])])].

Definition get_news_tool : value := NEWS_TOOL_DEFINITION.

Definition get_weather_tool : value := WEATHER_TOOL_DEFINITION.

(** [v == s] for a string literal [s]. *)
Definition eq_str (v : value) (s : string) : bool :=
  match v with
  | PStr t => String.eqb t s
  | _ => false
  end.

(** [response.raise_for_status()] *)
Definition raise_for_status (r : response) : result unit :=
  if (400 <=? status_code r) && (status_code r <? 600)
  then Raise (Exn HTTPError (status_error r))
  else Ok tt.

Section Tools.
Context {L : PyLib} (E : Env).

Definition get_news_titles : M value :=
  try_except
    (let* response := http_get E (HttpRequest (NEWS_SERVER_URL E) [] [] 10) in
     let* _ := lift (raise_for_status response) in
     lift (json_ response))
    (fun e =>
       if caught_by e [RequestException] then
         Some (ret (error_payload ("Ошибка при запросе новостей: " ++ exn_str e)))
       else None).

Definition get_weather (latitude longitude : value) : M value :=
  try_except
    (let* response :=
       http_get E (HttpRequest (WEATHER_SERVER_URL E) []
                     [("latitude", latitude); ("longitude", longitude)] 10) in
     let* _ := lift (raise_for_status response) in
     lift (json_ response))
    (fun e =>
       if caught_by e [RequestException] then
         Some (ret (PDict [("error", PStr ("Ошибка при запросе погоды: " ++ exn_str e));
                           ("latitude", latitude);
                           ("longitude", longitude)]))
       else None).

(** [if isinstance(arguments, str): try: arguments = json.loads(arguments) ...] *)
Definition decode_arguments (arguments : value) : loads_outcome :=
  match arguments with
  | PStr s =>
      match json_loads s with
      | Ok v => Parsed v
      | Raise e => if caught_by e [JSONDecodeError] then BadJson e else Escapes e
      end
  | _ => Parsed arguments
  end.

Definition execute_news_tool (tool_call : value) : M value :=
  let* function_name := lift (get_method tool_call "name" (PStr "")) in
  if negb (eq_str function_name "news") then
    ret (error_payload ("Неизвестная функция: " ++ py_str function_name))
  else
    let* arguments := lift (get_method tool_call "arguments" (PDict [])) in
    match decode_arguments arguments with
    | BadJson e => ret (error_payload ("Ошибка парсинга аргументов: " ++ exn_str e))
    | Escapes e => throw e
    | Parsed _ => get_news_titles
    end.

Definition execute_weather_tool (tool_call : value) : M value :=
  let* function_name := lift (get_method tool_call "name" (PStr "")) in
  if negb (eq_str function_name "weather") then
    ret (error_payload ("Неизвестная функция: " ++ py_str function_name))
  else
    let* arguments := lift (get_method tool_call "arguments" (PDict [])) in
    match decode_arguments arguments with
    | BadJson e => ret (error_payload ("Ошибка парсинга аргументов: " ++ exn_str e))
    | Escapes e => throw e
    | Parsed arguments =>
        let* latitude := lift (get_method arguments "latitude" PNone) in
        let* longitude := lift (get_method arguments "longitude" PNone) in
        if is_none latitude || is_none longitude then
          ret (error_payload "Не указаны координаты latitude и/или longitude")
        else get_weather latitude longitude
    end.

(** The scan of [register_*_tool]: whether some [tool] has
    [tool.get("function", {}).get("name") == name]; the scan stops at the
    first one. *)
Fixpoint already_registered (name : string) (tools_list : list value) : result bool :=
  match tools_list with
  | [] => Ok false
  | tool :: rest =>
      let? function := get_method tool "function" (PDict []) in
      let? n := get_method function "name" PNone in
      if eq_str n name then Ok true else already_registered name rest
  end.

Definition register_tool (name : string) (definition : value)
  (tools_list : option (list value)) : result (list value) :=
  let tools_list := match tools_list with None => [] | Some l => l end in
  let? present := already_registered name tools_list in
  if present then Ok tools_list else Ok (tools_list ++ [definition])%list.

Definition register_news_tool (tools_list : option (list value)) : result (list value) :=
  register_tool "news" get_news_tool tools_list.

Definition register_weather_tool (tools_list : option (list value)) : result (list value) :=
  register_tool "weather" get_weather_tool tools_list.

(** A run of registrations on one list, as a caller chains them. *)
Inductive registration : Type := RegisterNews | RegisterWeather.

Definition register (r : registration) (tools_list : option (list value))
  : result (list value) :=
  match r with
  | RegisterNews => register_news_tool tools_list
  | RegisterWeather => register_weather_tool tools_list
  end.

Fixpoint register_all (rs : list registration) (tools_list : list value)
  : result (list value) :=
  match rs with
  | [] => Ok tools_list
  | r :: rest =>
      let? l := register r (Some tools_list) in
      register_all rest l
  end.

Definition tool_name (r : registration) : string :=
  match r with
  | RegisterNews => "news"
  | RegisterWeather => "weather"
  end.

(** A tool on which the scan does not raise: a dictionary whose
    [function], when it has one, is a dictionary. *)
Definition is_descriptor (tool : value) : bool :=
  match tool with
  | PDict d =>
      match dict_lookup "function" d with
      | Some (PDict _) | None => true
      | Some _ => false
      end
  | _ => false
  end.

(** Whether [tool] is a descriptor named [name]. *)
Definition describes (name : string) (tool : value) : bool :=
  match (let? function := get_method tool "function" (PDict []) in
         get_method function "name" PNone) with
  | Ok n => eq_str n name
  | Raise _ => false
  end.

(** How many descriptors of [tools_list] are named [name]. *)
Definition descriptors_named (name : string) (tools_list : list value) : nat :=
  List.length (filter (describes name) tools_list).

End Tools.

(* ================================================================== *)
(** * src/dags/bitcoin_news_summary_dag.py *)
(* ================================================================== *)

Definition nl : string := String (ascii_of_nat 10) EmptyString.
Definition cr : ascii := ascii_of_nat 13.
Definition lf : ascii := ascii_of_nat 10.
Definition tab : ascii := ascii_of_nat 9.

(** [s.replace(c, '')] for a one-character [c]. *)
Fixpoint remove_char (c : ascii) (s : string) : string :=
  match s with
  | EmptyString => EmptyString
  | String a s' => if Ascii.eqb a c then remove_char c s' else String a (remove_char c s')
  end.

(** The f-string of lines 105-115 around [news_text]. *)
Definition prompt_of (news_text : string) : string :=
  "Проанализируй следующие новости о Bitcoin и создай краткое саммари на русском языке."
  ++ nl ++ nl ++ "Новости:" ++ nl ++ news_text ++ nl ++ nl
  ++ "Создай структурированное саммари, которое включает:" ++ nl
  ++ "1. Общую оценку ситуации на рынке Bitcoin" ++ nl
  ++ "2. Ключевые события и тренды" ++ nl
  ++ "3. Важные детали из новостей" ++ nl ++ nl
  ++ "Саммари должно быть информативным, но кратким (не более 500 слов).".

Definition EMPTY_SUMMARY : string :=
  "Саммари не было создано - получен пустой ответ от GigaChat".

Definition error_indicators : list string :=
  ["ошибка"; "error"; "не удалось"; "failed"; "Can't decode"; "Authorization";
   "400"; "401"; "403"; "500"].

(** The sampling temperature 0.7, as the nearest binary64 value. *)
Definition temperature_0_7 : float := 0x1.6666666666666p-1%float.

(** Where the body of [summarize_news_with_gigachat] stands at line 206:
    it has returned early, or [summary] holds the extracted text. *)
Inductive flow : Type :=
| Returned (s : value)
| Extracted (summary : value).

Section Dag.
Context {L : PyLib} (E : Env).

(** [f"{i+1}. {title}" for i, title in enumerate(titles)], from index [i]. *)
Fixpoint numbered (i : Z) (titles : list value) : list string :=
  match titles with
  | [] => []
  | title :: rest => (str_int (i + 1) ++ ". " ++ py_str title) :: numbered (i + 1) rest
  end.

(** [hasattr(response, 'choices') and response.choices], then
    [response.choices[0].message]. *)
Definition first_message (response : completion) : option message_obj :=
  match c_choices response with
  | Some (message :: _) => Some message
  | _ => None
  end.

(** Lines 178-181 *)
Definition tool_call_dict (function : function_obj) : value :=
  PDict [("name", PStr (match fn_name function with Some n => n | None => "" end));
         ("arguments", match fn_arguments function with
                       | Some a => a
                       | None => PStr "{}"
                       end)].

(** [str(getattr(message, 'content', ''))] *)
Definition content_str (message : message_obj) : string :=
  match m_content message with
  | Some v => py_str v
  | None => ""
  end.

(** [MessagesRole.<name>]: the member, or the [AttributeError] of a name
    the enumeration does not define. *)
Definition MessagesRole (name : string) : result role :=
  match role_member name with
  | Some r => Ok r
  | None => Raise (Exn AttributeError (member_fault "MessagesRole" name))
  end.

(** Line 185 *)
Definition assistant_message (message : message_obj) : result Messages :=
  let? r := MessagesRole "ASSISTANT" in
  Ok (mkMessages r (content_str message) None).

(** Lines 186-190.  The keyword arguments are evaluated in the order
    written, [MessagesRole.TOOL] first. *)
Definition tool_message (function : function_obj) (tool_result : value)
  : result Messages :=
  let? r := MessagesRole "TOOL" in
  Ok (mkMessages r (json_dumps tool_result)
        (Some (match fn_name function with Some n => n | None => "" end))).

(** The loop of lines 175-190 over [message.tool_calls]; [messages] is
    the conversation so far. *)
Fixpoint resolve_tool_calls (message : message_obj) (tool_calls : list tool_call_obj)
  (messages : list Messages) : M (list Messages) :=
  match tool_calls with
  | [] => ret messages
  | tool_call :: rest =>
      match tc_function tool_call with
      | Some function =>
          let* tool_result := execute_news_tool E (tool_call_dict function) in
          let* assistant := lift (assistant_message message) in
          let* tool := lift (tool_message function tool_result) in
          resolve_tool_calls message rest (messages ++ [assistant; tool])
      | None => resolve_tool_calls message rest messages
      end
  end.

(** Line 203 *)
Definition summary_of (message : message_obj) : value :=
  match m_content message with
  | Some content => content
  | None => PStr (m_repr message)
  end.

(** Lines 149-205: one exchange with the model, with at most one pass
    of tool resolution.  The value is that of [summary] at line 206. *)
Definition chat_exchange (prompt : string) : M value :=
  let* tools := lift (register_news_tool None) in
  let* user := lift (MessagesRole "USER") in
  let messages := [mkMessages user prompt None] in
  let* response :=
    chat_send E (new_Chat messages (GIGACHAT_MODEL E) tools temperature_0_7) in
  match first_message response with
  | Some message =>
      let* message :=
        match m_tool_calls message with
        | Some (tool_call :: rest) =>
            let* messages :=
              resolve_tool_calls message (tool_call :: rest) messages in
            let* response :=
              chat_send E (new_Chat messages (GIGACHAT_MODEL E) tools temperature_0_7) in
            ret (match first_message response with
                 | Some message' => message'
                 | None => message
                 end)
        | _ => ret message
        end in
      ret (summary_of message)
  | None => ret (PStr (c_repr response))
  end.

(** Lines 91-205 *)
Definition reach_summary : M flow :=
  let news_data := xcom_pull E "news_data" "get_news" in
  let* unusable :=
    (if negb (truthy news_data) then ret true
     else let* has_titles := lift (contains_op "titles" news_data) in
          ret (negb has_titles)) in
  if (unusable : bool) then throw (Exn Exception_ "Не удалось получить данные новостей")
  else
    let* titles := lift (get_method news_data "titles" (PList [])) in
    let* total_count := lift (get_method news_data "total_count" (PInt 0)) in
    if negb (truthy titles) then ret (Returned (PStr "Новостей не найдено."))
    else
      let* items := lift (py_iter titles) in
      let news_text := String.concat nl (numbered 0 items) in
      let prompt := prompt_of news_text in
      if negb (import_gigachat E) then
        throw (Exn ImportError
                 ("Библиотека gigachat не установлена. "
                  ++ "Установите её: pip install gigachat"))
      else if String.eqb (GIGACHAT_CREDENTIALS E) "" then
        throw (Exn Exception_
                 ("Не указаны учетные данные GigaChat. "
                  ++ "Установите Airflow Variable GIGACHAT_CREDENTIALS "
                  ++ "(Admin -> Variables) - путь к файлу с credentials или JSON строка"))
      else
        let credentials_value := py_strip (GIGACHAT_CREDENTIALS E) in
        let credentials_value :=
          remove_char tab (remove_char lf (remove_char cr credentials_value)) in
        let credentials_value := String.concat "" (py_split credentials_value) in
        if String.eqb credentials_value "" then
          throw (Exn Exception_
                   "Authorization Key пустой. Установите Airflow Variable GIGACHAT_CREDENTIALS с Authorization Key (base64 строка)")
        else
          let* summary := chat_exchange prompt in
          ret (Extracted summary).

(** Lines 208-228: the two checks on [summary]. *)
Definition check_summary (summary : value) : result unit :=
  if negb (truthy summary) then Raise (Exn Exception_ EMPTY_SUMMARY)
  else
    match summary with
    | PStr s =>
        if String.eqb (py_strip s) "" then Raise (Exn Exception_ EMPTY_SUMMARY)
        else
          let summary_lower := py_lower s in
          if existsb (fun indicator => is_substring indicator summary_lower)
               error_indicators
          then
            if is_substring "ошибка при" summary_lower
               || is_substring "error" summary_lower
               || is_substring "400" s || is_substring "401" s
            then Raise (Exn Exception_
                          ("Ошибка при создании саммари: " ++ py_slice_to 200 s))
            else Ok tt
          else Ok tt
    | _ => raise_fault (NoAttribute "strip") summary
    end.

(** Lines 208-233 *)
Definition deliver (summary : value) : M value :=
  let* _ := lift (check_summary summary) in
  let* _ := xcom_push "summary" summary in
  ret summary.

(** The body of the outer [try]. *)
Definition summarize_body : M value :=
  let* f := reach_summary in
  match f with
  | Returned s => ret s
  | Extracted summary => deliver summary
  end.

Definition summarize_news_with_gigachat : M value :=
  try_except summarize_body
    (fun e =>
       if caught_by e [ImportError] then
         Some (throw (Exn Exception_ ("Ошибка импорта: " ++ exn_str e)))
       else if caught_by e [Exception_] then
         Some (throw (Exn Exception_ ("Ошибка при создании саммари: " ++ exn_str e)))
       else None).

End Dag.

(* ================================================================== *)
(** * A reference runtime, for running the definitions *)
(* ================================================================== *)

(** The functions below implement the library interface on the fragment
    the examples use: integer literals, JSON without escapes or
    fractions, 7-bit text.  The theorems do not depend on them: they are
    stated for every [PyLib]. *)

Definition is_digit (a : ascii) : bool :=
  let n := nat_of_ascii a in (48 <=? n)%nat && (n <=? 57)%nat.

Definition is_space (a : ascii) : bool :=
  let n := nat_of_ascii a in
  ((9 <=? n)%nat && (n <=? 13)%nat) || ((28 <=? n)%nat && (n <=? 32)%nat).

Fixpoint digits_value (acc : Z) (s : string) : option Z :=
  match s with
  | EmptyString => Some acc
  | String a s' =>
      if is_digit a
      then digits_value (10 * acc + Z.of_nat (nat_of_ascii a - 48)) s'
      else None
  end.

(** A decimal integer literal with an optional sign. *)
Definition int_literal (s : string) : option Z :=
  match s with
  | EmptyString => None
  | String "-" (String a s') => option_map Z.opp (digits_value 0 (String a s'))
  | String "+" (String a s') => digits_value 0 (String a s')
  | _ => digits_value 0 s
  end.

Fixpoint lstrip (s : string) : string :=
  match s with
  | String a s' => if is_space a then lstrip s' else s
  | EmptyString => EmptyString
  end.

Fixpoint rev_string (acc s : string) : string :=
  match s with
  | EmptyString => acc
  | String a s' => rev_string (String a acc) s'
  end.

Definition ref_strip (s : string) : string :=
  rev_string "" (lstrip (rev_string "" (lstrip s))).

(** [s.split()]: the maximal runs of non-space characters. *)
Fixpoint ref_split_from (word : string) (s : string) : list string :=
  match s with
  | EmptyString => if String.eqb word "" then [] else [rev_string "" word]
  | String a s' =>
      if is_space a
      then (if String.eqb word "" then ref_split_from "" s'
            else rev_string "" word :: ref_split_from "" s')
      else ref_split_from (String a word) s'
  end.

Definition float_of_Z (z : Z) : float :=
  if z <? 0 then PrimFloat.opp (PrimFloat.of_uint63 (Uint63.of_Z (- z)))
  else PrimFloat.of_uint63 (Uint63.of_Z z).

Definition ref_float (v : value) : result float :=
  match v with
  | PInt z => Ok (float_of_Z z)
  | PFloat f => Ok f
  | PBool b => Ok (if b then 1%float else 0%float)
  | PStr s =>
      match int_literal (ref_strip s) with
      | Some z => Ok (float_of_Z z)
      | None => Raise (Exn ValueError ("could not convert string to float: " ++ s))
      end
  | _ => Raise (Exn TypeError
                  ("float() argument must be a string or a real number, not '"
                   ++ type_name v ++ "'"))
  end.

Definition ref_int (v : value) : result Z :=
  match v with
  | PInt z => Ok z
  | PBool b => Ok (if b then 1 else 0)
  | PStr s =>
      match int_literal (ref_strip s) with
      | Some z => Ok z
      | None => Raise (Exn ValueError ("invalid literal for int() with base 10: " ++ s))
      end
  | _ => Raise (Exn TypeError
                  ("int() argument must be a string, a bytes-like object or a real number, not '"
                   ++ type_name v ++ "'"))
  end.

Definition dquote : string := String (ascii_of_nat 34) EmptyString.

Definition quoted (s : string) : string := dquote ++ s ++ dquote.

(** [json.dumps] with the default separators; strings are written
    without escapes and floats are not rendered. *)
Fixpoint ref_dumps (v : value) : string :=
  match v with
  | PNone => "null"
  | PBool b => if b then "true" else "false"
  | PInt z => str_int z
  | PFloat _ => "NaN"
  | PStr s => quoted s
  | PList l =>
      "[" ++ (fix items (l : list value) : string :=
                match l with
                | [] => ""
                | [x] => ref_dumps x
                | x :: rest => ref_dumps x ++ ", " ++ items rest
                end) l ++ "]"
  | PDict d =>
      "{" ++ (fix items (d : list (string * value)) : string :=
                match d with
                | [] => ""
                | [(k, x)] => quoted k ++ ": " ++ ref_dumps x
                | (k, x) :: rest => quoted k ++ ": " ++ ref_dumps x ++ ", " ++ items rest
                end) d ++ "}"
  end.

(** [json.loads] on scalars and empty containers; anything else is
    reported as a decode error. *)
Definition ref_loads (s : string) : result value :=
  let t := ref_strip s in
  if String.eqb t "{}" then Ok (PDict [])
  else if String.eqb t "[]" then Ok (PList [])
  else if String.eqb t "null" then Ok PNone
  else if String.eqb t "true" then Ok (PBool true)
  else if String.eqb t "false" then Ok (PBool false)
  else match int_literal t with
       | Some z => Ok (PInt z)
       | None => Raise (Exn JSONDecodeError "Expecting value: line 1 column 1 (char 0)")
       end.

Definition ref_fault_text (f : fault) (v : value) : string :=
  match f with
  | NoAttribute attr =>
      "'" ++ type_name v ++ "' object has no attribute '" ++ attr ++ "'"
  | NotContainer => "argument of type '" ++ type_name v ++ "' is not iterable"
  | NotSubscriptable => "'" ++ type_name v ++ "' object is not subscriptable"
  | BadSubscript =>
      match v with
      | PStr _ => "string indices must be integers, not 'str'"
      | _ => "list indices must be integers or slices, not str"
      end
  | IndexRange =>
      match v with
      | PStr _ => "string index out of range"
      | _ => "list index out of range"
      end
  | MissingKey key => key
  | NotIterable => "'" ++ type_name v ++ "' object is not iterable"
  end.

(** The text of CPython 3.12 for a missing class attribute. *)
Definition ref_member_fault (cls name : string) : string :=
  "type object '" ++ cls ++ "' has no attribute '" ++ name ++ "'".

Definition ref_lower_char (a : ascii) : ascii :=
  let n := nat_of_ascii a in
  if (65 <=? n)%nat && (n <=? 90)%nat then ascii_of_nat (n + 32) else a.

Fixpoint ref_lower (s : string) : string :=
  match s with
  | EmptyString => EmptyString
  | String a s' => String (ref_lower_char a) (ref_lower s')
  end.

Fixpoint ref_slice_to (n : nat) (s : string) : string :=
  match n, s with
  | S n', String a s' => String a (ref_slice_to n' s')
  | _, _ => EmptyString
  end.

Fixpoint ref_chars (s : string) : list string :=
  match s with
  | EmptyString => []
  | String a s' => String a EmptyString :: ref_chars s'
  end.

Definition ref_decode (b : list byte) : result string :=
  Ok (string_of_list_byte b).

(** The target up to the first [?], and what follows it. *)
Fixpoint ref_split_target (path : string) (s : string) : string * string :=
  match s with
  | EmptyString => (rev_string "" path, "")
  | String a s' =>
      if Ascii.eqb a "?" then (rev_string "" path, s')
      else ref_split_target (String a path) s'
  end.

Definition ref_urlparse (target : string) : result (string * string) :=
  Ok (ref_split_target "" target).

(** [name=value] pairs separated by [&]. *)
Fixpoint ref_parse_qs_from (name value : string) (in_value : bool) (s : string)
  : list (string * list string) :=
  match s with
  | EmptyString =>
      if in_value && negb (String.eqb value "")
      then [(rev_string "" name, [rev_string "" value])] else []
  | String a s' =>
      if Ascii.eqb a "&" then
        (if in_value && negb (String.eqb value "")
         then [(rev_string "" name, [rev_string "" value])] else [])
        ++ ref_parse_qs_from "" "" false s'
      else if Ascii.eqb a "=" && negb in_value then ref_parse_qs_from name "" true s'
      else if in_value then ref_parse_qs_from name (String a value) true s'
      else ref_parse_qs_from (String a name) "" false s'
  end.

#[local] Instance ref_lib : PyLib := {|
  json_dumps := ref_dumps;
  json_loads := ref_loads;
  py_float := ref_float;
  py_int := ref_int;
  py_repr := ref_dumps;
  fault_text := ref_fault_text;
  member_fault := ref_member_fault;
  py_strip := ref_strip;
  py_split := ref_split_from "";
  py_lower := ref_lower;
  py_slice_to := ref_slice_to;
  str_chars := ref_chars;
  decode_utf8 := ref_decode;
  urlparse := ref_urlparse;
  parse_qs := ref_parse_qs_from "" "" false
|}.

(* ================================================================== *)
(** * Sample inputs *)
(* ================================================================== *)

Definition refused : result response :=
  Raise (Exn ConnectionError "connection refused").

Definition silent_model : nat -> Chat -> result completion :=
  fun _ _ => Raise (Exn Exception_ "no model").

(** An environment built from a network, a model and an XCom store. *)
Definition sample_env (net : nat -> http_request -> result response)
  (model : nat -> Chat -> result completion) (pulled : value) : Env :=
  mkEnv net
    (fun name => if String.eqb name "YANDEX_WEATHER_API_KEY" then Some "k-123" else None)
    model true "QWJjZGVm" "GigaChat-Pro"
    "http://host.docker.internal:8082/news"
    "http://host.docker.internal:8082/weather"
    (fun key task =>
       if String.eqb key "news_data" && String.eqb task "get_news" then pulled
       else PNone).

Definition offline_env : Env := sample_env (fun _ _ => refused) silent_model PNone.

(** An upstream that answers every request with status 200 and [body]. *)
Definition answers (body : value) : nat -> http_request -> result response :=
  fun _ _ => Ok (Response 200 (ref_dumps body) (Ok body) "").

(** The upstream body of the [/news] scenario. *)
Definition three_articles : value :=
  PDict [("results", PList [PDict [("title", PStr "A")];
                            PDict [("title", PStr "B")];
                            PDict [("other", PStr "x")]])].

(** An upstream body whose [results] holds something that is no article. *)
Definition stray_article : value := PDict [("results", PList [PInt 5])].

Definition moscow_fact : dict :=
  [("fact", PDict [("temp", PInt 15); ("condition", PStr "clear");
                   ("wind_speed", PInt 5); ("humidity", PInt 60)])].

(** A body in the secondary shape, and one with no usable field. *)
Definition moscow_forecast : dict :=
  [("forecasts",
    PList [PDict [("parts",
                   PDict [("day", PDict [("temp", PInt 12);
                                         ("condition", PStr "cloudy")])])]])].

Definition no_weather : dict := [("info", PDict [("lat", PInt 55)])].



Definition news_call (arguments : value) : value :=
  PDict [("name", PStr "news"); ("arguments", arguments)].

(** [tool_call.get("arguments", {})] *)
Definition call_arguments (d : dict) : value :=
  match dict_lookup "arguments" d with
  | Some a => a
  | None => PDict []
  end.

Definition one_title : value :=
  PDict [("titles", PList [PStr "A"]); ("total_count", PInt 1)].

(** The model of the tool-call scenario: first a request for [news],
    then the answer. *)
Definition scripted_model : nat -> Chat -> result completion :=
  fun n _ =>
    match n with
    | O => Ok (mkCompletion
                 (Some [mkMessage (Some (PStr ""))
                          (Some [mkToolCall (Some (mkFunction (Some "news")
                                                     (Some (PStr "{}"))))])
                          "message"])
                 "completion")
    | _ => Ok (mkCompletion
                 (Some [mkMessage (Some (PStr "Bitcoin is down.")) None "message"])
                 "completion")
    end.

Definition scenario_env : Env := sample_env (answers one_title) scripted_model one_title.

(** A model whose only reply has the content [content]. *)
Definition plain_model (content : value) : nat -> Chat -> result completion :=
  fun _ _ => Ok (mkCompletion (Some [mkMessage (Some content) None "message"])
                   "completion").

Definition mute_env : Env := sample_env (fun _ _ => refused) (plain_model (PStr "")) one_title.

(* ================================================================== *)
(** * The statements' vocabulary *)
(* ================================================================== *)

Definition news_request : http_request := HttpRequest NEWS_API_URL [] [] 10.

Definition is_object (v : value) : bool :=
  match v with PDict _ => true | _ => false end.

(** The titles as the specification words them: the [title] field of
    each element that has one, in order; the others are skipped. *)
Fixpoint titles_of (articles : list value) : list value :=
  match articles with
  | [] => []
  | PDict d :: rest =>
      match dict_lookup "title" d with
      | Some t => t :: titles_of rest
      | None => titles_of rest
      end
  | _ :: rest => titles_of rest
  end.

Definition titles_payload (titles : list value) : value :=
  PDict [("titles", PList titles);
         ("total_count", PInt (Z.of_nat (List.length titles)))].

(** The world after one more request went out. *)
Definition sent (rq : http_request) (w : world) : world :=
  World (http_log w ++ [rq]) (chat_log w) (xcom w).

(** The ways the upstream call of [/news] fails, [n] requests having
    been sent before it. *)
Inductive news_upstream_fails {L : PyLib} (E : Env) (n : nat) : Prop :=
| transport_fails (e : exn) :
    requests_get E n news_request = Raise e ->
    news_upstream_fails E n
| status_fails (r : response) :
    requests_get E n news_request = Ok r ->
    status_code r <> 200 ->
    news_upstream_fails E n
| body_fails (r : response) (e : exn) :
    requests_get E n news_request = Ok r ->
    status_code r = 200 ->
    json_ r = Raise e ->
    news_upstream_fails E n
| shape_fails (r : response) (news_data : value) (e : exn) :
    requests_get E n news_request = Ok r ->
    status_code r = 200 ->
    json_ r = Ok news_data ->
    get_method news_data "totalResults" (PInt 0) = Raise e ->
    news_upstream_fails E n
| extraction_fails (r : response) (news_data : value) (e : exn) :
    requests_get E n news_request = Ok r ->
    status_code r = 200 ->
    json_ r = Ok news_data ->
    extract_titles news_data = Raise e ->
    news_upstream_fails E n.

(** The request [_handle_weather_request] sends upstream. *)
Definition weather_request (api_key : string) (latitude longitude : float)
  : http_request :=
  HttpRequest YANDEX_WEATHER_API_URL [("X-Yandex-Weather-Key", api_key)]
    [("lat", PFloat latitude); ("lon", PFloat longitude)] 10.

(** [shape.get(key)] *)
Definition field (key : string) (shape : dict) : value :=
  match dict_lookup key shape with
  | Some v => v
  | None => PNone
  end.

Definition weather_fields (shape : dict) : value :=
  PDict [("temperature", field "temp" shape);
         ("condition", field "condition" shape);
         ("wind_speed", field "wind_speed" shape);
         ("humidity", field "humidity" shape)].

Definition all_null (shape : dict) : bool :=
  is_none (field "temp" shape) && is_none (field "condition" shape)
  && is_none (field "wind_speed" shape) && is_none (field "humidity" shape).

(** Whether [key] is absent from [body] or bound to an empty (falsy) value. *)
Definition absent_or_empty (key : string) (body : dict) : bool :=
  match dict_lookup key body with
  | None => true
  | Some v => negb (truthy v)
  end.

(** The primary shape: the [fact] object, when it is there and not empty. *)
Definition primary_shape (body : dict) : option dict :=
  match dict_lookup "fact" body with
  | Some (PDict (kv :: fact)) => Some (kv :: fact)
  | _ => None
  end.

(** The secondary shape: the object at [forecasts[0].parts.day]. *)
Definition secondary_shape (body : dict) : option dict :=
  match dict_lookup "forecasts" body with
  | Some (PList (PDict first :: _)) =>
      match dict_lookup "parts" first with
      | Some (PDict parts) =>
          match dict_lookup "day" parts with
          | Some (PDict day) => Some day
          | _ => None
          end
      | _ => None
      end
  | _ => None
  end.

(** Where the specification takes the four fields from: the primary
    shape; when [fact] is absent or empty, the secondary shape; when
    [forecasts] is absent or empty too, nothing at all. *)
Definition expected_shape (body : dict) : option dict :=
  match primary_shape body with
  | Some fact => Some fact
  | None =>
      if absent_or_empty "fact" body then
        match secondary_shape body with
        | Some day => Some day
        | None => if absent_or_empty "forecasts" body then Some [] else None
        end
      else None
  end.

(** The lists a chain of registrations can produce from the empty one. *)
Definition reachable (l : list value) : Prop :=
  l = [] \/ l = [NEWS_TOOL_DEFINITION] \/ l = [WEATHER_TOOL_DEFINITION]
  \/ l = [NEWS_TOOL_DEFINITION; WEATHER_TOOL_DEFINITION]
  \/ l = [WEATHER_TOOL_DEFINITION; NEWS_TOOL_DEFINITION].

(** A computation that leaves the part [f] of the world as it found it. *)
Definition preserves {A B : Type} (f : world -> B) (m : M A) : Prop :=
  forall w, f (snd (m w)) = f w.

(** The world after one more request went to the model. *)
Definition chatted (c : Chat) (w : world) : world :=
  World (http_log w) (chat_log w ++ [c]) (xcom w).

Definition user_prompt (prompt : string) : Messages := mkMessages USER prompt None.

(** The tool call object of a function. *)
Definition wrap (function : function_obj) : tool_call_obj := mkToolCall (Some function).

(** The request the orchestrator sends for a conversation. *)
Definition chat_of (E : Env) (messages : list Messages) : Chat :=
  mkChat messages (GIGACHAT_MODEL E) temperature_0_7.

Section Vocabulary.
Context {L : PyLib}.

(** A final text that is absent, empty or only whitespace. *)
Definition blank (summary : value) : bool :=
  match summary with
  | PNone => true
  | PStr s => String.eqb s "" || String.eqb (py_strip s) ""
  | _ => false
  end.

(** The exception of [MessagesRole.TOOL]. *)
Definition no_tool_role : exn :=
  Exn AttributeError (member_fault "MessagesRole" "TOOL").

End Vocabulary.

(* ================================================================== *)
(** * Vocabulary and samples for the further properties *)
(* ================================================================== *)

(** The descriptor a registration appends. *)
Definition definition_of (r : registration) : value :=
  match r with
  | RegisterNews => get_news_tool
  | RegisterWeather => get_weather_tool
  end.

(** The request the news tool sends to the tool server. *)
Definition news_tool_request (E : Env) : http_request :=
  HttpRequest (NEWS_SERVER_URL E) [] [] 10.

(** The request the weather tool sends to the tool server. *)
Definition weather_tool_request (E : Env) (latitude longitude : value) : http_request :=
  HttpRequest (WEATHER_SERVER_URL E) []
    [("latitude", latitude); ("longitude", longitude)] 10.

(** A network that hands the client the reply [rep] of the tool server;
    [err] is the text of the HTTP error of its status. *)
Definition served (rep : http_reply) (err : string)
  : nat -> http_request -> result response :=
  fun _ _ => Ok (Response (reply_status rep) (ref_dumps (reply_body rep))
                   (Ok (reply_body rep)) err).

(** [float()] as in [ref_float], with the overflow of CPython: an
    integer of magnitude 2^1024 or more has no float. *)
Definition ref_float_checked (v : value) : result float :=
  match v with
  | PInt z =>
      if 2 ^ 1024 <=? Z.abs z
      then Raise (Exn OverflowError "int too large to convert to float")
      else ref_float v
  | _ => ref_float v
  end.

Definition checked_lib : PyLib := {|
  json_dumps := ref_dumps;
  json_loads := ref_loads;
  py_float := ref_float_checked;
  py_int := ref_int;
  py_repr := ref_dumps;
  fault_text := ref_fault_text;
  member_fault := ref_member_fault;
  py_strip := ref_strip;
  py_split := ref_split_from "";
  py_lower := ref_lower;
  py_slice_to := ref_slice_to;
  str_chars := ref_chars;
  decode_utf8 := ref_decode;
  urlparse := ref_urlparse;
  parse_qs := ref_parse_qs_from "" "" false
|}.

(** A request to the model as the orchestrator makes them: the
    configured model, temperature 0.7, and a conversation that is one
    user prompt. *)
Definition orchestrator_chat (E : Env) (c : Chat) : Prop :=
  chat_model c = GIGACHAT_MODEL E
  /\ chat_temperature c = temperature_0_7
  /\ exists prompt, chat_messages c = [user_prompt prompt].

(** A model whose only reply is a summary. *)
Definition fluent_env : Env :=
  sample_env (fun _ _ => refused) (plain_model (PStr "Bitcoin is down.")) one_title.

(** What a computation added to the two logs: [cs] to the requests to
    the model, [hs] to the HTTP requests. *)
Definition logged (w w' : world) (cs : list Chat) (hs : list http_request) : Prop :=
  chat_log w' = (chat_log w ++ cs)%list /\ http_log w' = (http_log w ++ hs)%list.

(** A model whose replies ask for a tool without saying which function. *)
Definition vague_model : nat -> Chat -> result completion :=
  fun _ _ =>
    Ok (mkCompletion
          (Some [mkMessage (Some (PStr "thinking")) (Some [mkToolCall None]) "message"])
          "completion").

Definition vague_env : Env := sample_env (fun _ _ => refused) vague_model one_title.

(* ================================================================== *)
(** * src/news_server.py and src/trash/weather_server.py *)
(* ================================================================== *)

(** The two standalone servers.  Their handlers
    ([_handle_news_request], [_handle_weather_request]) and their
    [_send_json_response] are, line for line, those of
    [src/mcp_server.py]; what differs is [do_GET] and [do_POST], which
    do not route. *)

(** [200 if 'error' not in response_data else 400] *)
Definition plain_status {L : PyLib} (response_data : value) : result Z :=
  let? has_error := contains_op "error" response_data in
  Ok (if negb has_error then 200 else 400).

Module NewsServer.
Section Server.
Context {L : PyLib} (E : Env).

(** The path is logged and otherwise not looked at. *)
Definition do_GET (target : string) : M http_reply :=
  try_except
    (let* response_data := _handle_news_request E in
     let* status_code := lift (plain_status response_data) in
     ret (Reply status_code response_data))
    internal_error.

(** The body is read, decoded and logged, never parsed. *)
Definition do_POST (rq : post_request) : M http_reply :=
  try_except
    (let* body := lift (read_body rq) in
     let* response_data := _handle_news_request E in
     let* status_code := lift (plain_status response_data) in
     ret (Reply status_code response_data))
    internal_error.

End Server.
End NewsServer.

Module WeatherServer.
Section Server.
Context {L : PyLib} (E : Env).

Definition do_GET (target : string) : M http_reply :=
  try_except
    (let* parsed_path := lift (urlparse target) in
     let query_params := parse_qs (snd parsed_path) in
     let* latitude := lift (query_param query_params "latitude") in
     let* longitude := lift (query_param query_params "longitude") in
     let* response_data := _handle_weather_request E latitude longitude in
     let* status_code := lift (plain_status response_data) in
     ret (Reply status_code response_data))
    internal_error.

(** [request_data = json.loads(body) if body else {}] under the same
    [except json.JSONDecodeError] as in the combined server. *)
Definition do_POST (rq : post_request) : M http_reply :=
  try_except
    (let* body := lift (read_body rq) in
     match json_loads_guard body with
     | BadJson e => ret (Reply 400 (error_payload ("Некорректный JSON: " ++ exn_str e)))
     | Escapes e => throw e
     | Parsed request_data =>
         let* latitude := lift (get_method request_data "latitude" PNone) in
         let* longitude := lift (get_method request_data "longitude" PNone) in
         let* response_data := _handle_weather_request E latitude longitude in
         let* status_code := lift (plain_status response_data) in
         ret (Reply status_code response_data)
     end)
    internal_error.

End Server.
End WeatherServer.

(* ================================================================== *)
(** * src/dags/bitcoin_news_summary_dag.py: the other tasks *)
(* ================================================================== *)

(** An e-mail handed to [send_email]. *)
Record email : Type := Email {
  email_to : list string;
  email_subject : value;
  email_html : value
}.

(** What the e-mail tasks take from outside. *)
Record Mail : Type := mkMail {
  (* datetime.now().strftime(format), for the n-th call of now() *)
  strftime_now : nat -> string -> string;
  (* the exception of [d[:20]] on a dictionary (a TypeError up to
     CPython 3.11, a KeyError from 3.12 on) *)
  dict_slice_error : value -> exn;
  (* airflow.utils.email.send_email *)
  send_email : email -> result unit;
  RECIPIENT_EMAIL : string
}.

(** [s.replace(c, by)] for a one-character [c]. *)
Fixpoint replace_char (c : ascii) (by_ : string) (s : string) : string :=
  match s with
  | EmptyString => EmptyString
  | String a s' =>
      if Ascii.eqb a c then by_ ++ replace_char c by_ s'
      else String a (replace_char c by_ s')
  end.

(** [s.replace('<', '&lt;').replace('>', '&gt;')] *)
Definition escape_angles (s : string) : string :=
  replace_char ">" "&gt;" (replace_char "<" "&lt;" s).

Definition mail_indicators : list string :=
  ["ошибка при"; "error"; "не удалось создать"; "failed"; "Can't decode";
   "Authorization"; "400"; "401"].

Definition ERROR_SUBJECT : string := "Ошибка при подготовке саммари новостей".

(** The f-string of lines 274-283. *)
Definition text_head (date_str total_count summary : string) : string :=
  "Саммари новостей о Bitcoin" ++ nl ++ nl
  ++ "Дата: " ++ date_str ++ nl
  ++ "Всего новостей: " ++ total_count ++ nl ++ nl
  ++ "САММАРИ:" ++ nl
  ++ summary ++ nl ++ nl
  ++ "СПИСОК НОВОСТЕЙ:" ++ nl.

(** The f-string of lines 291-310. *)
Definition html_head (date_str total_count safe_summary : string) : string :=
  "<!DOCTYPE html>" ++ nl
  ++ "<html>" ++ nl
  ++ "<head>" ++ nl
  ++ "    <meta charset=" ++ dquote ++ "UTF-8" ++ dquote ++ ">" ++ nl
  ++ "    <meta name=" ++ dquote ++ "viewport" ++ dquote ++ " content=" ++ dquote
  ++ "width=device-width, initial-scale=1.0" ++ dquote ++ ">" ++ nl
  ++ "    <title>Саммари новостей о Bitcoin</title>" ++ nl
  ++ "</head>" ++ nl
  ++ "<body style=" ++ dquote
  ++ "font-family: Arial, sans-serif; line-height: 1.6; color: #333; max-width: 800px; margin: 0 auto; padding: 20px;"
  ++ dquote ++ ">" ++ nl
  ++ "    <h1 style=" ++ dquote
  ++ "color: #333; border-bottom: 2px solid #333; padding-bottom: 10px;"
  ++ dquote ++ ">Саммари новостей о Bitcoin</h1>" ++ nl
  ++ "    <p><strong>Дата:</strong> " ++ date_str ++ "</p>" ++ nl
  ++ "    <p><strong>Всего новостей:</strong> " ++ total_count ++ "</p>" ++ nl
  ++ "    " ++ nl
  ++ "    <div style=" ++ dquote
  ++ "background-color: #f9f9f9; padding: 15px; margin: 20px 0; border-left: 4px solid #333;"
  ++ dquote ++ ">" ++ nl
  ++ "        <h2 style=" ++ dquote ++ "margin-top: 0;" ++ dquote ++ ">Саммари:</h2>" ++ nl
  ++ "        <p style=" ++ dquote ++ "white-space: pre-wrap;" ++ dquote ++ ">"
  ++ safe_summary ++ "</p>" ++ nl
  ++ "    </div>" ++ nl
  ++ "    " ++ nl
  ++ "    <div style=" ++ dquote ++ "margin: 20px 0;" ++ dquote ++ ">" ++ nl
  ++ "        <h2>Список новостей:</h2>" ++ nl.

(** Line 315 *)
Definition html_item (i : Z) (safe_title : string) : string :=
  "        <p style=" ++ dquote ++ "padding: 5px 0; border-bottom: 1px solid #eee;"
  ++ dquote ++ ">" ++ str_int i ++ ". " ++ safe_title ++ "</p>" ++ nl.

(** Line 318 *)
Definition html_more (rest : string) : string :=
  "        <p style=" ++ dquote ++ "font-style: italic; color: #666;" ++ dquote
  ++ ">... и еще " ++ rest ++ " новостей</p>" ++ nl.

(** Lines 320-322 *)
Definition html_foot : string :=
  "    </div>" ++ nl ++ "</body>" ++ nl ++ "</html>".

Definition SPAM_ADVICE : string :=
  "Письмо отклонено как спам Mail.ru. "
  ++ "Попробуйте: 1) Проверить содержимое письма, 2) Добавить отправителя в белый список, "
  ++ "3) Использовать другой email сервис. "
  ++ "Детали: ".

Section OtherTasks.
Context {L : PyLib} (E : Env) (K : Mail).

(** Lines 65-75 *)
Definition get_news_task : M value :=
  try_except
    (let* news_data := get_news_titles E in
     let* has_error := lift (contains_op "error" news_data) in
     if has_error then
       let* detail := lift (getitem_str news_data "error") in
       throw (Exn Exception_ ("Ошибка при получении новостей: " ++ py_str detail))
     else
       let* _ := xcom_push "news_data" news_data in
       ret news_data)
    (fun e =>
       if caught_by e [Exception_] then
         Some (throw (Exn Exception_
                        ("Ошибка в задаче получения новостей: " ++ exn_str e)))
       else None).

(** The elements [enumerate(titles[:20], 1)] visits. *)
Definition first_twenty (titles : value) : result (list value) :=
  match titles with
  | PList l => Ok (firstn 20 l)
  | PStr s => Ok (map PStr (firstn 20 (str_chars s)))
  | PDict _ => Raise (dict_slice_error K titles)
  | _ => raise_fault NotSubscriptable titles
  end.

(** [total_count > 20] *)
Definition more_than_twenty (total_count : value) : result bool :=
  match total_count with
  | PInt z => Ok (20 <? z)
  | PBool _ => Ok false
  | PFloat f => Ok (PrimFloat.ltb 20%float f)
  | _ => Raise (Exn TypeError
                  ("'>' not supported between instances of '"
                   ++ type_name total_count ++ "' and 'int'"))
  end.

(** [total_count - 20], evaluated only once [total_count > 20] held. *)
Definition minus_twenty (total_count : value) : value :=
  match total_count with
  | PInt z => PInt (z - 20)
  | PFloat f => PFloat (PrimFloat.sub f 20%float)
  | _ => total_count
  end.

(** [f"{i}. {title}\n"] for each title, counting from [i]. *)
Fixpoint text_items (i : Z) (titles : list value) : string :=
  match titles with
  | [] => ""
  | title :: rest => str_int i ++ ". " ++ py_str title ++ nl ++ text_items (i + 1) rest
  end.

(** Lines 312-315: [title.replace] needs a string. *)
Fixpoint html_items (i : Z) (titles : list value) : result string :=
  match titles with
  | [] => Ok ""
  | title :: rest =>
      match title with
      | PStr s =>
          let? tail := html_items (i + 1) rest in
          Ok (html_item i (escape_angles s) ++ tail)
      | _ => raise_fault (NoAttribute "replace") title
      end
  end.

(** Lines 258-266: the two checks on the pulled summary; the value is
    the summary as a string. *)
Definition check_pulled_summary (summary : value) : result string :=
  if negb (truthy summary) then
    Raise (Exn Exception_ "Саммари не было создано - получен пустой ответ")
  else
    match summary with
    | PStr s =>
        if String.eqb (py_strip s) "" then
          Raise (Exn Exception_ "Саммари не было создано - получен пустой ответ")
        else if existsb (fun indicator => is_substring indicator (py_lower s))
                  mail_indicators
        then Raise (Exn Exception_ ("Саммари содержит ошибку: " ++ py_slice_to 200 s))
        else Ok s
    | _ => raise_fault (NoAttribute "strip") summary
    end.

(** Lines 254-334, the body of the [try]: the subject, the text and
    the HTML. *)
Definition compose_email : result (string * string * string) :=
  let summary := xcom_pull E "summary" "summarize_news" in
  let news_data := xcom_pull E "news_data" "get_news" in
  let? summary := check_pulled_summary summary in
  let? titles :=
    (if truthy news_data then get_method news_data "titles" (PList [])
     else Ok (PList [])) in
  let? total_count :=
    (if truthy news_data then get_method news_data "total_count" (PInt 0)
     else Ok (PInt 0)) in
  let date_str := strftime_now K 0 "%Y-%m-%d %H:%M:%S" in
  let text_content := text_head date_str (py_str total_count) summary in
  let? listed := first_twenty titles in
  let text_content := text_content ++ text_items 1 listed in
  let? more := more_than_twenty total_count in
  let text_content :=
    if more then
      text_content ++ nl ++ "... и еще " ++ py_str (minus_twenty total_count)
      ++ " новостей" ++ nl
    else text_content in
  let html_content := html_head date_str (py_str total_count) (escape_angles summary) in
  let? listed := first_twenty titles in
  let? items := html_items 1 listed in
  let html_content := html_content ++ items in
  let? more := more_than_twenty total_count in
  let html_content :=
    if more then html_content ++ html_more (py_str (minus_twenty total_count))
    else html_content in
  let html_content := html_content ++ html_foot in
  let subject :=
    "Саммари новостей о Bitcoin - " ++ strftime_now K 1 "%Y-%m-%d %H:%M" in
  Ok (subject, text_content, html_content).

(** The three pushes and the dictionary returned, on either path. *)
Definition push_email (subject text_content html_content : string) : M value :=
  let* _ := xcom_push "email_subject" (PStr subject) in
  let* _ := xcom_push "email_text" (PStr text_content) in
  let* _ := xcom_push "email_html" (PStr html_content) in
  ret (PDict [("subject", PStr subject);
              ("text_content", PStr text_content);
              ("html_content", PStr html_content)]).

Definition prepare_email_content : M value :=
  try_except
    (let* parts := lift compose_email in
     let '(subject, text_content, html_content) := parts in
     push_email subject text_content html_content)
    (fun e =>
       if caught_by e [Exception_] then
         let error_msg := "Ошибка при подготовке email: " ++ exn_str e in
         Some (push_email ERROR_SUBJECT error_msg
                 ("<html><body><p>" ++ error_msg ++ "</p></body></html>"))
       else None).

(** [send_summary_email]: the value or the exception, and the e-mails
    handed to [send_email], oldest first. *)
Definition send_summary_email : result value * list email :=
  let subject := xcom_pull E "email_subject" "prepare_email" in
  let html_content := xcom_pull E "email_html" "prepare_email" in
  let attempt : result value * list email :=
    if negb (truthy subject) || negb (truthy html_content) then
      (Raise (Exn Exception_ "Не удалось получить данные для email"), [])
    else
      let mail := Email [RECIPIENT_EMAIL K] subject html_content in
      match send_email K mail with
      | Ok _ => (Ok (PStr ("Email успешно отправлен на " ++ RECIPIENT_EMAIL K)), [mail])
      | Raise e => (Raise e, [mail])
      end in
  match attempt with
  | (Ok v, sent_mail) => (Ok v, sent_mail)
  | (Raise e, sent_mail) =>
      if caught_by e [Exception_] then
        let error_msg := exn_str e in
        if is_substring "spam message rejected" (py_lower error_msg)
           || is_substring "550" error_msg
        then (Raise (Exn Exception_ (SPAM_ADVICE ++ error_msg)), sent_mail)
        else (Raise (Exn Exception_ ("Ошибка при отправке email: " ++ error_msg)),
              sent_mail)
      else (Raise e, sent_mail)
  end.

End OtherTasks.

(** The value last pushed under [key], [None] when there is none: what
    a later task pulls. *)
Definition pushed (key : string) (w : world) : value :=
  fold_left (fun acc kv => if String.eqb (fst kv) key then snd kv else acc)
    (xcom w) PNone.

(** A clock, a mail transport and a recipient for the examples. *)
Definition sample_mail (transport : email -> result unit) : Mail :=
  mkMail (fun n _ => match n with O => "2025-11-19 10:00:00" | _ => "2025-11-19 10:00" end)
    (fun _ => Exn TypeError "unhashable type: 'slice'")
    transport "reader@example.com".

(** An environment whose XCom holds a summary and the news it sums up. *)
Definition summarised_env (summary : value) : Env :=
  mkEnv (fun _ _ => refused) (fun _ => None) silent_model true "QWJjZGVm" "GigaChat-Pro"
    "http://host.docker.internal:8082/news"
    "http://host.docker.internal:8082/weather"
    (fun key task =>
       if String.eqb key "summary" && String.eqb task "summarize_news" then summary
       else if String.eqb key "news_data" && String.eqb task "get_news" then one_title
       else PNone).

(** An environment whose XCom holds what [prepare_email_content] left
    in the world [w]. *)
Definition prepared_env (w : world) : Env :=
  mkEnv (fun _ _ => refused) (fun _ => None) silent_model true "QWJjZGVm" "GigaChat-Pro"
    "http://host.docker.internal:8082/news"
    "http://host.docker.internal:8082/weather"
    (fun key task =>
       if String.eqb task "prepare_email" then pushed key w else PNone).

(** News without a single title, as [get_news_task] can push them. *)
Definition no_titles : dict := [("titles", PList []); ("total_count", PInt 0)].

Definition quiet_env : Env :=
  sample_env (fun _ _ => refused) silent_model (PDict no_titles).

(* ================================================================== *)
(** * Properties *)
(* ================================================================== *)

Section Facts.
Context {L : PyLib}.

Lemma bind_ok {A B} (m : M A) (k : A -> M B) w a w' :
  m w = (Ok a, w') -> bind m k w = k a w'.
Proof. intros H. unfold bind. now rewrite H. Qed.

Lemma bind_raise {A B} (m : M A) (k : A -> M B) w e w' :
  m w = (Raise e, w') -> bind m k w = (Raise e, w').
Proof. intros H. unfold bind. now rewrite H. Qed.

Lemma caught_by_Exception (e : exn) : caught_by e [Exception_] = true.
Proof. destruct e as [c s]; destruct c; reflexivity. Qed.

End Facts.

(** ** The weather handler validates before it calls upstream (C2) *)

(** C2.  When both coordinates are present and [float()] accepts them,
    a latitude outside [-90, 90] or a longitude outside [-180, 180]
    makes [_handle_weather_request] return an error payload, with the
    latitude message when the latitude is out of range and the longitude
    message otherwise, and the world is left as it was: no request is
    sent upstream. *)
Theorem weather_out_of_range_rejected {L : PyLib} (E : Env)
  (latitude longitude : value) (lat lon : float) (w : world) :
  is_none latitude = false ->
  is_none longitude = false ->
  py_float latitude = Ok lat ->
  py_float longitude = Ok lon ->
  lat_in_range lat && lon_in_range lon = false ->
  _handle_weather_request E latitude longitude w =
    (Ok (error_payload
           (if negb (lat_in_range lat)
            then "Широта должна быть в диапазоне от -90 до 90"
            else "Долгота должна быть в диапазоне от -180 до 180")), w)
  /\ http_log (snd (_handle_weather_request E latitude longitude w)) = http_log w.
Proof.
  intros Hlat Hlon Hflat Hflon Hout.
  assert (Hrun : _handle_weather_request E latitude longitude w =
    (Ok (error_payload
           (if negb (lat_in_range lat)
            then "Широта должна быть в диапазоне от -90 до 90"
            else "Долгота должна быть в диапазоне от -180 до 180")), w)).
  { unfold _handle_weather_request, parse_coordinates.
    rewrite Hlat, Hlon, Hflat, Hflon. cbn [orb rbind].
    unfold bind, lift, ret.
    destruct (lat_in_range lat); cbn [negb].
    - cbn [andb] in Hout. rewrite Hout. reflexivity.
    - reflexivity. }
  split; [exact Hrun | now rewrite Hrun].
Qed.

Lemma weather_out_of_range_rejected_witness :
  _handle_weather_request (L := ref_lib) offline_env (PStr "200") (PStr "37") empty_world =
    (Ok (error_payload "Широта должна быть в диапазоне от -90 до 90"), empty_world).
Proof.
  exact (proj1 (weather_out_of_range_rejected (L := ref_lib) offline_env
                  (PStr "200") (PStr "37") 200%float 37%float empty_world
                  eq_refl eq_refl eq_refl eq_refl eq_refl)).
Defined.

(** ** Dispatch of a name that is not the tool's (C3) *)

(** C3.  A tool call whose name is not the name a dispatcher serves is
    answered with the error payload made of the "unknown function"
    message (the source's wording is Russian) followed by the name; the
    dispatcher returns normally and leaves the world as it was, so no
    handler ran and no HTTP request went to the tool server.  This holds
    for [execute_news_tool] and for [execute_weather_tool]. *)
Theorem unknown_tool_is_an_error {L : PyLib} (E : Env) (d : dict) (w : world) :
  let name := match dict_lookup "name" d with Some n => n | None => PStr "" end in
  (eq_str name "news" = false ->
   execute_news_tool E (PDict d) w =
     (Ok (error_payload ("Неизвестная функция: " ++ py_str name)), w))
  /\ (eq_str name "weather" = false ->
      execute_weather_tool E (PDict d) w =
        (Ok (error_payload ("Неизвестная функция: " ++ py_str name)), w)).
Proof.
  intros name. split; intros Hname.
  - unfold execute_news_tool, bind, lift, get_method. fold name.
    rewrite Hname. reflexivity.
  - unfold execute_weather_tool, bind, lift, get_method. fold name.
    rewrite Hname. reflexivity.
Qed.

Lemma unknown_tool_is_an_error_witness :
  execute_news_tool (L := ref_lib) offline_env
    (PDict [("name", PStr "stocks"); ("arguments", PStr "{}")]) empty_world =
    (Ok (error_payload "Неизвестная функция: stocks"), empty_world)
  /\ execute_weather_tool (L := ref_lib) offline_env
       (PDict [("name", PStr "stocks"); ("arguments", PStr "{}")]) empty_world =
       (Ok (error_payload "Неизвестная функция: stocks"), empty_world).
Proof.
  destruct (unknown_tool_is_an_error (L := ref_lib) offline_env
              [("name", PStr "stocks"); ("arguments", PStr "{}")] empty_world)
    as [Hnews Hweather].
  split; [apply Hnews | apply Hweather]; reflexivity.
Defined.

(** ** The news tool does not look at its arguments (C10) *)

(** C10.  Two calls of [execute_news_tool] that both name [news] and
    whose arguments decode (a string that [json.loads] accepts, or a
    value that is not a string, or no arguments at all) behave alike in
    every world: both are [get_news_titles], so they send the same
    request and, the upstream answering alike, return the same result.
    The decoded arguments do not reach [get_news_titles]. *)
Theorem news_tool_ignores_arguments {L : PyLib} (E : Env)
  (d1 d2 : dict) (decoded1 decoded2 : value) (w : world) :
  dict_lookup "name" d1 = Some (PStr "news") ->
  dict_lookup "name" d2 = Some (PStr "news") ->
  decode_arguments (call_arguments d1) = Parsed decoded1 ->
  decode_arguments (call_arguments d2) = Parsed decoded2 ->
  execute_news_tool E (PDict d1) w = execute_news_tool E (PDict d2) w
  /\ execute_news_tool E (PDict d1) w = get_news_titles E w.
Proof.
  intros N1 N2 H1 H2.
  assert (Hrun : forall d v, dict_lookup "name" d = Some (PStr "news") ->
            decode_arguments (call_arguments d) = Parsed v ->
            execute_news_tool E (PDict d) w = get_news_titles E w).
  { intros d v Hn Ha. unfold execute_news_tool, bind, lift, get_method.
    rewrite Hn. cbn [eq_str String.eqb Ascii.eqb Bool.eqb negb].
    fold (call_arguments d). rewrite Ha. reflexivity. }
  rewrite (Hrun _ _ N1 H1), (Hrun _ _ N2 H2). split; reflexivity.
Qed.

Lemma news_tool_ignores_arguments_witness :
  execute_news_tool (L := ref_lib) scenario_env (news_call (PStr "{}")) empty_world =
    execute_news_tool (L := ref_lib) scenario_env
      (PDict [("arguments", PDict [("city", PStr "Moscow"); ("limit", PInt 3)]);
              ("id", PInt 7); ("name", PStr "news")]) empty_world.
Proof.
  exact (proj1 (news_tool_ignores_arguments (L := ref_lib) scenario_env
                  [("name", PStr "news"); ("arguments", PStr "{}")]
                  [("arguments", PDict [("city", PStr "Moscow"); ("limit", PInt 3)]);
                   ("id", PInt 7); ("name", PStr "news")]
                  (PDict []) (PDict [("city", PStr "Moscow"); ("limit", PInt 3)])
                  empty_world eq_refl eq_refl eq_refl eq_refl)).
Defined.

(** ** A body that is not JSON never reaches a route (C9) *)




(** ** Titles of the news route (C8) *)

Section NewsFacts.
Context {L : PyLib}.

Lemma dict_mem_lookup (key : string) (d : dict) :
  dict_mem key d = match dict_lookup key d with Some _ => true | None => false end.
Proof.
  induction d as [| [k v] d IH]; cbn; [reflexivity |].
  destruct (String.eqb k key); [reflexivity | exact IH].
Qed.

Lemma collect_titles_objects (articles acc : list value) :
  forallb is_object articles = true ->
  collect_titles articles acc = Ok (acc ++ titles_of articles)%list.
Proof.
  revert acc. induction articles as [| a rest IH]; intros acc Hobj.
  - cbn. now rewrite app_nil_r.
  - cbn in Hobj. apply andb_prop in Hobj as [Ha Hrest].
    destruct a; try discriminate. cbn.
    rewrite dict_mem_lookup.
    destruct (dict_lookup "title" d) as [t |]; cbn.
    + rewrite (IH _ Hrest), <- app_assoc. reflexivity.
    + exact (IH _ Hrest).
Qed.

Lemma extract_titles_objects (body : dict) (articles : list value) :
  dict_lookup "results" body = Some (PList articles) ->
  forallb is_object articles = true ->
  extract_titles (PDict body) = Ok (titles_payload (titles_of articles)).
Proof.
  intros Hres Hobj. unfold extract_titles. cbn.
  rewrite dict_mem_lookup, Hres. cbn.
  rewrite (collect_titles_objects _ _ Hobj). reflexivity.
Qed.

Lemma news_route_known (path : string) :
  news_route path = true ->
  existsb (String.eqb path)
    ["/"; "/health"; "/news"; "/get_news"; "/weather"; "/get_weather"] = true.
Proof.
  unfold news_route. intros H. apply orb_prop in H as [H | H];
    apply String.eqb_eq in H; subst; reflexivity.
Qed.

End NewsFacts.

(** C8.  When the upstream answers with status 200 and a body that is
    an object whose [results] is a list of article objects, a GET on a
    news route is answered with status 200 and the payload
    [{titles, total_count}]: the titles are the [title] fields of the
    articles that have one, in order, the others being skipped, and
    [total_count] is their number.  Exactly one request went upstream. *)
Theorem news_titles_extracted {L : PyLib} (E : Env) (target path query : string)
  (r : response) (body : dict) (articles : list value) (w : world) :
  urlparse target = Ok (path, query) ->
  news_route path = true ->
  requests_get E (List.length (http_log w)) news_request = Ok r ->
  status_code r = 200 ->
  json_ r = Ok (PDict body) ->
  dict_lookup "results" body = Some (PList articles) ->
  forallb is_object articles = true ->
  do_GET E target w =
    (Ok (Reply 200
           (PDict [("titles", PList (titles_of articles));
                   ("total_count",
                    PInt (Z.of_nat (List.length (titles_of articles))))])),
     sent news_request w).
Proof.
  intros Hurl Hroute Hget Hstatus Hjson Hres Hobj.
  unfold do_GET, try_except, bind, lift. rewrite Hurl. cbn [fst snd].
  rewrite Hroute.
  unfold _handle_news_request, try_except, bind, http_get, lift.
  fold news_request. rewrite Hget, Hstatus. cbn [Z.eqb Pos.eqb negb].
  rewrite Hjson. cbn [get_method].
  rewrite (extract_titles_objects _ _ Hres Hobj).
  unfold status_of, titles_payload. cbn [contains_op dict_mem rbind].
  cbn [String.eqb Ascii.eqb Bool.eqb negb].
  rewrite (news_route_known _ Hroute). reflexivity.
Qed.

Lemma news_titles_extracted_witness :
  do_GET (L := ref_lib) (sample_env (answers three_articles) silent_model PNone)
    "/news" empty_world =
    (Ok (Reply 200 (PDict [("titles", PList [PStr "A"; PStr "B"]);
                           ("total_count", PInt 2)])),
     sent news_request empty_world).
Proof.
  exact (news_titles_extracted (L := ref_lib)
           (sample_env (answers three_articles) silent_model PNone)
           "/news" "/news" ""
           (Response 200 (ref_dumps three_articles) (Ok three_articles) "")
           [("results", PList [PDict [("title", PStr "A")];
                               PDict [("title", PStr "B")];
                               PDict [("other", PStr "x")]])]
           [PDict [("title", PStr "A")]; PDict [("title", PStr "B")];
            PDict [("other", PStr "x")]]
           empty_world eq_refl eq_refl eq_refl eq_refl eq_refl eq_refl eq_refl).
Defined.

(** ** Status of a failed news request (C4) *)

Section NewsFailure.
Context {L : PyLib} (E : Env).

Lemma upstream_failure_total (timeout_msg : string) (e : exn) :
  exists msg, upstream_failure timeout_msg e = Some (ret (error_payload msg)).
Proof.
  unfold upstream_failure.
  destruct (caught_by e [Timeout]); [eauto |].
  destruct (caught_by e [ConnectionError]); [eauto |].
  destruct (caught_by e [RequestException]); [eauto |].
  rewrite caught_by_Exception. eauto.
Qed.

(** A failed upstream call makes the handler return an error dictionary
    that has no [titles]. *)
Lemma news_failure_payload (w : world) :
  news_upstream_fails E (List.length (http_log w)) ->
  exists d, _handle_news_request E w = (Ok (PDict d), sent news_request w)
            /\ dict_mem "error" d = true /\ dict_mem "titles" d = false.
Proof.
  intros Hfail.
  unfold _handle_news_request, try_except, bind, http_get, lift.
  fold news_request. fold (sent news_request w).
  destruct Hfail as [e Hget | r Hget Hst | r e Hget Hst Hjson
                    | r nd e Hget Hst Hjson Hshape | r nd e Hget Hst Hjson Hext];
    rewrite Hget.
  - destruct (upstream_failure_total "Таймаут при запросе к API новостей" e)
      as [msg ->].
    eexists; split; [reflexivity | split; reflexivity].
  - apply Z.eqb_neq in Hst. rewrite Hst. cbn [negb].
    eexists; split; [reflexivity | split; reflexivity].
  - rewrite Hst, Hjson. cbn [Z.eqb Pos.eqb negb].
    destruct (upstream_failure_total "Таймаут при запросе к API новостей" e)
      as [msg ->].
    eexists; split; [reflexivity | split; reflexivity].
  - rewrite Hst, Hjson, Hshape. cbn [Z.eqb Pos.eqb negb].
    destruct (upstream_failure_total "Таймаут при запросе к API новостей" e)
      as [msg ->].
    eexists; split; [reflexivity | split; reflexivity].
  - rewrite Hst, Hjson. cbn [Z.eqb Pos.eqb negb].
    destruct (get_method nd "totalResults" (PInt 0)) as [v | e'] eqn:Hshape.
    + rewrite Hext.
      destruct (caught_by e [KeyError; AttributeError; TypeError]).
      * eexists; split; [reflexivity | split; reflexivity].
      * destruct (upstream_failure_total "Таймаут при запросе к API новостей" e)
          as [msg ->].
        eexists; split; [reflexivity | split; reflexivity].
    + destruct (upstream_failure_total "Таймаут при запросе к API новостей" e')
        as [msg ->].
      eexists; split; [reflexivity | split; reflexivity].
Qed.

End NewsFailure.

(** C4, as the code has it.  When the upstream call of a news route
    fails (the request raises, the status is not 200, the body does not
    parse, is not an object, or an exception is raised while the titles
    are extracted) a GET is answered with status 400 and an error
    dictionary without [titles].  Status 500 is not used for any of
    these: every such failure is caught inside the handler. *)
Theorem news_failure_answers_400 {L : PyLib} (E : Env)
  (target path query : string) (w : world) :
  urlparse target = Ok (path, query) ->
  news_route path = true ->
  news_upstream_fails E (List.length (http_log w)) ->
  exists d,
    do_GET E target w = (Ok (Reply 400 (PDict d)), sent news_request w)
    /\ dict_mem "error" d = true
    /\ dict_mem "titles" d = false.
Proof.
  intros Hurl Hroute Hfail.
  destruct (news_failure_payload E w Hfail) as (d & Hrun & Herr & Htitles).
  exists d. split; [| split; assumption].
  unfold do_GET, try_except, bind, lift. rewrite Hurl. cbn [fst snd].
  rewrite Hroute, Hrun.
  unfold status_of. cbn [contains_op rbind]. rewrite Herr. cbn [negb].
  rewrite (news_route_known _ Hroute). reflexivity.
Qed.

Lemma news_failure_answers_400_witness :
  exists d,
    do_GET (L := ref_lib) (sample_env (answers stray_article) silent_model PNone)
      "/news" empty_world = (Ok (Reply 400 (PDict d)), sent news_request empty_world)
    /\ dict_mem "error" d = true
    /\ dict_mem "titles" d = false.
Proof.
  apply (news_failure_answers_400 (L := ref_lib)
           (sample_env (answers stray_article) silent_model PNone)
           "/news" "/news" "" empty_world eq_refl eq_refl).
  apply (extraction_fails (L := ref_lib) _ _
           (Response 200 (ref_dumps stray_article) (Ok stray_article) "")
           stray_article
           (Exn TypeError "argument of type 'int' is not iterable"));
    reflexivity.
Defined.

(** C4, as stated, fails: the upstream answers 200 with a [results]
    list that holds a number, the extraction of the titles raises a
    [TypeError], and the reply has status 400, not 500. *)
Lemma extraction_failure_is_not_500 :
  extract_titles (L := ref_lib) stray_article =
    Raise (Exn TypeError "argument of type 'int' is not iterable")
  /\ do_GET (L := ref_lib) (sample_env (answers stray_article) silent_model PNone)
       "/news" empty_world =
       (Ok (Reply 400
              (error_raw
                 "Неожиданный формат ответа от API: argument of type 'int' is not iterable"
                 stray_article)),
        sent news_request empty_world)
  /\ reply_status
       (match fst (do_GET (L := ref_lib)
                     (sample_env (answers stray_article) silent_model PNone)
                     "/news" empty_world) with
        | Ok reply => reply
        | Raise _ => Reply 0 PNone
        end) <> 500.
Proof.
  split; [reflexivity | split; [reflexivity | discriminate]].
Qed.

(** ** Extraction of the weather fields (C7) *)

Section WeatherFacts.
Context {L : PyLib} (E : Env).

(** A key that is absent or bound to an empty value reads as falsy,
    whatever falsy default [get] is given. *)
Lemma absent_or_empty_falsy (key : string) (body : dict) (default : value) :
  truthy default = false ->
  absent_or_empty key body = true ->
  truthy (match dict_lookup key body with Some x => x | None => default end) = false.
Proof.
  unfold absent_or_empty. intros Hd Hk.
  destruct (dict_lookup key body) as [v |]; [| exact Hd].
  now apply negb_true_iff in Hk.
Qed.

Lemma select_fact_primary (body fact : dict) :
  primary_shape body = Some fact ->
  select_fact (PDict body) = Ok (PDict fact).
Proof.
  unfold primary_shape, select_fact. cbn [get_method rbind].
  destruct (dict_lookup "fact" body) as [[| | | | | | [| kv d]] |]; try discriminate.
  intros [= <-]. reflexivity.
Qed.

Lemma select_fact_secondary (body day : dict) :
  absent_or_empty "fact" body = true ->
  secondary_shape body = Some day ->
  select_fact (PDict body) = Ok (PDict day).
Proof.
  intros Hfact. unfold secondary_shape, select_fact. cbn [get_method rbind].
  rewrite (absent_or_empty_falsy "fact" body (PDict []) eq_refl Hfact). cbn [negb].
  destruct (dict_lookup "forecasts" body) as [[| | | | | [| [| | | | | | first] l] |] |];
    try discriminate.
  cbn [truthy getitem_0 get_method rbind].
  destruct (dict_lookup "parts" first) as [[| | | | | | parts] |]; try discriminate.
  cbn [get_method rbind].
  destruct (dict_lookup "day" parts) as [[| | | | | | day'] |]; try discriminate.
  intros [= <-]. reflexivity.
Qed.

Lemma select_fact_nothing (body : dict) :
  absent_or_empty "fact" body = true ->
  absent_or_empty "forecasts" body = true ->
  select_fact (PDict body) = Ok (PDict []).
Proof.
  intros Hfact Hforecasts. unfold select_fact. cbn [get_method rbind].
  rewrite (absent_or_empty_falsy "fact" body (PDict []) eq_refl Hfact). cbn [negb].
  rewrite (absent_or_empty_falsy "forecasts" body PNone eq_refl Hforecasts).
  reflexivity.
Qed.

Lemma select_fact_expected (body shape : dict) :
  expected_shape body = Some shape ->
  select_fact (PDict body) = Ok (PDict shape).
Proof.
  unfold expected_shape.
  destruct (primary_shape body) as [fact |] eqn:Hprimary.
  - intros [= <-]. exact (select_fact_primary _ _ Hprimary).
  - destruct (absent_or_empty "fact" body) eqn:Hfact; [| discriminate].
    destruct (secondary_shape body) as [day |] eqn:Hsecondary.
    + intros [= <-]. exact (select_fact_secondary _ _ Hfact Hsecondary).
    + destruct (absent_or_empty "forecasts" body) eqn:Hforecasts; [| discriminate].
      intros [= <-]. exact (select_fact_nothing _ Hfact Hforecasts).
Qed.

Lemma extract_weather_expected (body shape : dict) :
  expected_shape body = Some shape ->
  extract_weather (PDict body) =
    Ok (if all_null shape
        then error_raw "Не удалось извлечь данные о погоде из ответа API" (PDict body)
        else weather_fields shape).
Proof.
  intros Hshape. unfold extract_weather.
  rewrite (select_fact_expected _ _ Hshape). cbn [rbind get_method].
  fold (field "temp" shape) (field "condition" shape)
       (field "wind_speed" shape) (field "humidity" shape).
  fold (all_null shape). destruct (all_null shape); reflexivity.
Qed.

(** A request that passes every check of lines 214-245 is handed to
    the upstream call with the stripped key. *)
Lemma weather_validated (latitude longitude : value) (lat lon : float)
  (api_key : string) (w : world) :
  is_none latitude = false ->
  is_none longitude = false ->
  py_float latitude = Ok lat ->
  py_float longitude = Ok lon ->
  lat_in_range lat = true ->
  lon_in_range lon = true ->
  os_getenv E "YANDEX_WEATHER_API_KEY" = Some api_key ->
  py_strip api_key <> "" ->
  api_key <> "" ->
  _handle_weather_request E latitude longitude w =
    weather_upstream E (py_strip api_key) lat lon w.
Proof.
  intros Hlat Hlon Hflat Hflon Hrlat Hrlon Hkey Hstrip Hne.
  unfold _handle_weather_request, parse_coordinates, bind, lift.
  rewrite Hlat, Hlon, Hflat, Hflon. cbn [orb rbind].
  rewrite Hrlat, Hrlon, Hkey. cbn [negb].
  destruct (String.eqb_spec api_key "") as [-> | _]; [contradiction |].
  destruct (String.eqb_spec (py_strip api_key) "") as [Heq | _]; [contradiction |].
  reflexivity.
Qed.

End WeatherFacts.

(** C7.  For a request that passes validation (coordinates present,
    numeric and in range, API key set and not blank) and an upstream
    that answers 200 with a body that is an object, the handler takes
    the four fields from the [fact] object, or, when [fact] is absent
    or empty, from [forecasts[0].parts.day] (from nothing when there is
    no forecast either); when all four are null it returns the error
    payload with the upstream body attached as [raw_response], else
    the payload of the four fields. *)
Theorem weather_fields_extracted {L : PyLib} (E : Env)
  (latitude longitude : value) (lat lon : float) (api_key : string)
  (r : response) (body shape : dict) (w : world) :
  is_none latitude = false ->
  is_none longitude = false ->
  py_float latitude = Ok lat ->
  py_float longitude = Ok lon ->
  lat_in_range lat = true ->
  lon_in_range lon = true ->
  os_getenv E "YANDEX_WEATHER_API_KEY" = Some api_key ->
  py_strip api_key <> "" ->
  api_key <> "" ->
  requests_get E (List.length (http_log w))
    (weather_request (py_strip api_key) lat lon) = Ok r ->
  status_code r = 200 ->
  json_ r = Ok (PDict body) ->
  expected_shape body = Some shape ->
  _handle_weather_request E latitude longitude w =
    (Ok (if all_null shape
         then PDict [("error", PStr "Не удалось извлечь данные о погоде из ответа API");
                     ("raw_response", PDict body)]
         else PDict [("temperature", field "temp" shape);
                     ("condition", field "condition" shape);
                     ("wind_speed", field "wind_speed" shape);
                     ("humidity", field "humidity" shape)]),
     sent (weather_request (py_strip api_key) lat lon) w).
Proof.
  intros Hlat Hlon Hflat Hflon Hrlat Hrlon Hkey Hstrip Hne Hget Hst Hjson Hshape.
  rewrite (weather_validated E _ _ _ _ _ w Hlat Hlon Hflat Hflon Hrlat Hrlon
             Hkey Hstrip Hne).
  unfold weather_upstream, try_except, bind, http_get, lift.
  fold (weather_request (py_strip api_key) lat lon). rewrite Hget, Hst.
  cbn [Z.eqb Pos.eqb negb]. rewrite Hjson.
  rewrite (extract_weather_expected _ _ Hshape).
  unfold error_raw, weather_fields, sent. destruct (all_null shape); reflexivity.
Qed.

Lemma weather_fields_extracted_witness :
  _handle_weather_request (L := ref_lib)
    (sample_env (answers (PDict moscow_forecast)) silent_model PNone)
    (PStr "55") (PStr "37") empty_world =
    (Ok (PDict [("temperature", PInt 12); ("condition", PStr "cloudy");
                ("wind_speed", PNone); ("humidity", PNone)]),
     sent (weather_request "k-123" 55%float 37%float) empty_world).
Proof.
  apply (weather_fields_extracted (L := ref_lib)
           (sample_env (answers (PDict moscow_forecast)) silent_model PNone)
           (PStr "55") (PStr "37") 55%float 37%float "k-123"
           (Response 200 (ref_dumps (PDict moscow_forecast))
              (Ok (PDict moscow_forecast)) "")
           moscow_forecast
           [("temp", PInt 12); ("condition", PStr "cloudy")] empty_world);
    try reflexivity; discriminate.
Defined.

(** ** Registration (C5) *)

Section RegistryFacts.
Context {L : PyLib}.

(** On descriptors the scan is the search for one of that name. *)
Lemma already_registered_descriptors (name : string) (l : list value) :
  forallb is_descriptor l = true ->
  already_registered name l = Ok (existsb (describes name) l).
Proof.
  induction l as [| tool rest IH]; intros Hwf; [reflexivity |].
  cbn [forallb] in Hwf. apply andb_prop in Hwf as [Htool Hrest].
  cbn [already_registered existsb]. unfold describes.
  destruct tool as [| | | | | | d]; try discriminate.
  cbn [get_method]. cbn [is_descriptor] in Htool.
  destruct (dict_lookup "function" d) as [[| | | | | | f] |]; try discriminate;
    cbn [rbind get_method].
  - destruct (eq_str _ name); [reflexivity | exact (IH Hrest)].
  - cbn [dict_lookup eq_str]. exact (IH Hrest).
Qed.

Lemma register_reachable (r : registration) (l : list value) :
  reachable l ->
  exists l1, register r (Some l) = Ok l1 /\ reachable l1
             /\ register r (Some l1) = Ok l1
             /\ descriptors_named (tool_name r) l1 = 1%nat.
Proof.
  unfold reachable.
  intros [-> | [-> | [-> | [-> | ->]]]]; destruct r;
    (eexists; split; [reflexivity | split; [| split; reflexivity]]); tauto.
Qed.

Lemma describes_news (name : string) :
  describes name NEWS_TOOL_DEFINITION = String.eqb "news" name.
Proof. reflexivity. Qed.

Lemma describes_weather (name : string) :
  describes name WEATHER_TOOL_DEFINITION = String.eqb "weather" name.
Proof. reflexivity. Qed.

Lemma reachable_at_most_one (name : string) (l : list value) :
  reachable l -> (descriptors_named name l <= 1)%nat.
Proof.
  unfold reachable, descriptors_named.
  intros [-> | [-> | [-> | [-> | ->]]]]; cbn [filter];
    rewrite ?describes_news, ?describes_weather;
    destruct (String.eqb "news" name) eqn:Hn;
    destruct (String.eqb "weather" name) eqn:Hw;
    cbn; try lia;
    apply String.eqb_eq in Hn; apply String.eqb_eq in Hw; congruence.
Qed.

Lemma register_all_reachable (rs : list registration) (l : list value) :
  reachable l -> exists l', register_all rs l = Ok l' /\ reachable l'.
Proof.
  revert l. induction rs as [| r rest IH]; intros l Hl.
  - exists l. split; [reflexivity | exact Hl].
  - destruct (register_reachable r l Hl) as (l1 & Hreg & Hl1 & _).
    cbn [register_all]. rewrite Hreg. cbn [rbind]. exact (IH l1 Hl1).
Qed.

End RegistryFacts.

(** C5.  Registration is idempotent.  (1) On a list of descriptors
    that already holds one named [news] (resp. [weather]),
    [register_news_tool] (resp. [register_weather_tool]) returns the
    list unchanged.  (2) Every chain of registrations started on the
    empty list yields a list with at most one descriptor for each name.
    (3) On such a list, registering a tool and registering it again
    yields the same list as registering it once, and that list holds
    exactly one descriptor of that name. *)
Theorem registration_is_idempotent {L : PyLib} :
  (forall l : list value,
      forallb is_descriptor l = true ->
      (existsb (describes "news") l = true -> register_news_tool (Some l) = Ok l)
      /\ (existsb (describes "weather") l = true ->
          register_weather_tool (Some l) = Ok l))
  /\ (forall rs : list registration,
         exists l,
           register_all rs [] = Ok l
           /\ (forall name, descriptors_named name l <= 1)%nat
           /\ (forall r, exists l1,
                  register r (Some l) = Ok l1
                  /\ register r (Some l1) = Ok l1
                  /\ descriptors_named (tool_name r) l1 = 1%nat)).
Proof.
  split.
  - intros l Hwf. split; intros Hin;
      unfold register_news_tool, register_weather_tool, register_tool;
      rewrite (already_registered_descriptors _ _ Hwf), Hin; reflexivity.
  - intros rs.
    destruct (register_all_reachable rs [] (or_introl eq_refl)) as (l & Hrun & Hl).
    exists l. split; [exact Hrun | split].
    + intros name. exact (reachable_at_most_one name l Hl).
    + intros r. destruct (register_reachable r l Hl) as (l1 & H1 & _ & H2 & H3).
      exists l1. auto.
Qed.

Lemma registration_is_idempotent_witness :
  register_news_tool (L := ref_lib)
    (Some [WEATHER_TOOL_DEFINITION; NEWS_TOOL_DEFINITION]) =
    Ok [WEATHER_TOOL_DEFINITION; NEWS_TOOL_DEFINITION].
Proof.
  apply (proj1 (registration_is_idempotent (L := ref_lib))
           [WEATHER_TOOL_DEFINITION; NEWS_TOOL_DEFINITION]); reflexivity.
Defined.

(** ** What the orchestrator leaves untouched *)

Section Frames.
Context {L : PyLib} (E : Env) {B : Type} (f : world -> B).

Lemma preserves_ret {A} (a : A) : preserves f (ret a).
Proof. intros w. reflexivity. Qed.

Lemma preserves_throw {A} (e : exn) : preserves f (@throw A e).
Proof. intros w. reflexivity. Qed.

Lemma preserves_lift {A} (r : result A) : preserves f (lift r).
Proof. intros w. reflexivity. Qed.

Lemma preserves_bind {A C} (m : M A) (k : A -> M C) :
  preserves f m -> (forall a, preserves f (k a)) -> preserves f (bind m k).
Proof.
  intros Hm Hk w. unfold bind. specialize (Hm w).
  destruct (m w) as [[a | e] w1]; cbn [snd] in *.
  - now rewrite (Hk a w1).
  - exact Hm.
Qed.

Lemma preserves_try_except {A} (body : M A) (handler : exn -> option (M A)) :
  preserves f body ->
  (forall e h, handler e = Some h -> preserves f h) ->
  preserves f (try_except body handler).
Proof.
  intros Hb Hh w. unfold try_except. specialize (Hb w).
  destruct (body w) as [[a | e] w1]; cbn [snd] in *; [exact Hb |].
  destruct (handler e) as [h |] eqn:He; cbn [snd]; [| exact Hb].
  now rewrite (Hh e h He w1).
Qed.

(** The part [f] ignores the log of HTTP requests. *)
Hypothesis f_http : forall h c x h', f (World h c x) = f (World h' c x).

Lemma preserves_http_get (rq : http_request) : preserves f (http_get E rq).
Proof. intros [h c x]. cbn. apply f_http. Qed.

Lemma preserves_get_news_titles : preserves f (get_news_titles E).
Proof.
  unfold get_news_titles. apply preserves_try_except.
  - apply preserves_bind; [apply preserves_http_get | intros r].
    apply preserves_bind; [apply preserves_lift | intros _; apply preserves_lift].
  - intros e h. destruct (caught_by e [RequestException]); [| discriminate].
    intros [= <-]. apply preserves_ret.
Qed.

Lemma preserves_execute_news_tool (tool_call : value) :
  preserves f (execute_news_tool E tool_call).
Proof.
  unfold execute_news_tool.
  apply preserves_bind; [apply preserves_lift | intros name].
  destruct (negb (eq_str name "news")); [apply preserves_ret |].
  apply preserves_bind; [apply preserves_lift | intros arguments].
  destruct (decode_arguments arguments).
  - apply preserves_get_news_titles.
  - apply preserves_ret.
  - apply preserves_throw.
Qed.

Lemma preserves_resolve_tool_calls (message : message_obj)
  (tool_calls : list tool_call_obj) (messages : list Messages) :
  preserves f (resolve_tool_calls E message tool_calls messages).
Proof.
  revert messages. induction tool_calls as [| tc rest IH]; intros messages.
  - apply preserves_ret.
  - cbn [resolve_tool_calls]. destruct (tc_function tc) as [function |].
    + apply preserves_bind; [apply preserves_execute_news_tool | intros r].
      apply preserves_bind; [apply preserves_lift | intros assistant].
      apply preserves_bind; [apply preserves_lift | intros tool; apply IH].
    + apply IH.
Qed.

End Frames.

Section DagFacts.
Context {L : PyLib} (E : Env).

Lemma preserves_xcom_chat_send (c : Chat) : preserves xcom (chat_send E c).
Proof. intros [h ch x]. reflexivity. Qed.

Lemma preserves_xcom_chat_exchange (prompt : string) :
  preserves xcom (chat_exchange E prompt).
Proof.
  unfold chat_exchange.
  apply preserves_bind; [apply preserves_lift | intros tools].
  apply preserves_bind; [apply preserves_lift | intros user].
  apply preserves_bind; [apply preserves_xcom_chat_send | intros response].
  destruct (first_message response) as [message |]; [| apply preserves_ret].
  apply preserves_bind; [| intros m; apply preserves_ret].
  destruct (m_tool_calls message) as [[| tc rest] |]; try apply preserves_ret.
  apply preserves_bind; [now apply preserves_resolve_tool_calls | intros messages].
  apply preserves_bind; [apply preserves_xcom_chat_send | intros r; apply preserves_ret].
Qed.

Lemma preserves_xcom_reach_summary : preserves xcom (reach_summary E).
Proof.
  unfold reach_summary.
  apply preserves_bind.
  { destruct (negb (truthy _)); [apply preserves_ret |].
    apply preserves_bind; [apply preserves_lift | intros b; apply preserves_ret]. }
  intros unusable. destruct unusable; [apply preserves_throw |].
  apply preserves_bind; [apply preserves_lift | intros titles].
  apply preserves_bind; [apply preserves_lift | intros total_count].
  destruct (negb (truthy titles)); [apply preserves_ret |].
  apply preserves_bind; [apply preserves_lift | intros items].
  destruct (negb (import_gigachat E)); [apply preserves_throw |].
  destruct (String.eqb (GIGACHAT_CREDENTIALS E) ""); [apply preserves_throw |].
  destruct (String.eqb _ ""); [apply preserves_throw |].
  apply preserves_bind; [apply preserves_xcom_chat_exchange | intros s].
  apply preserves_ret.
Qed.

Lemma check_summary_blank (summary : value) :
  blank summary = true ->
  check_summary summary = Raise (Exn Exception_ EMPTY_SUMMARY).
Proof.
  unfold blank, check_summary. destruct summary; try discriminate; [reflexivity |].
  cbn [truthy]. intros H.
  destruct (String.eqb s ""); cbn [negb]; [reflexivity |].
  cbn [orb] in H. now rewrite H.
Qed.

End DagFacts.

(** ** An empty final text (C6) *)

(** C6.  When the run reaches line 206 with a final text that is
    absent ([None]), empty or only whitespace,
    [summarize_news_with_gigachat] raises the empty-result exception
    (wrapped by the outer handler) instead of returning, and the XCom
    store is what it was before the run: no [summary] is pushed, so
    nothing is handed to the tasks that build and send the e-mail. *)
Theorem empty_summary_is_an_error {L : PyLib} (E : Env) (w w' : world)
  (summary : value) :
  reach_summary E w = (Ok (Extracted summary), w') ->
  blank summary = true ->
  summarize_news_with_gigachat E w =
    (Raise (Exn Exception_ ("Ошибка при создании саммари: " ++ EMPTY_SUMMARY)), w')
  /\ xcom w' = xcom w.
Proof.
  intros Hreach Hblank. split.
  - unfold summarize_news_with_gigachat, try_except, summarize_body, bind.
    rewrite Hreach. unfold deliver, bind, lift.
    rewrite (check_summary_blank _ Hblank). reflexivity.
  - pose proof (preserves_xcom_reach_summary E w) as Hx.
    rewrite Hreach in Hx. exact Hx.
Qed.

Lemma empty_summary_is_an_error_witness :
  summarize_news_with_gigachat (L := ref_lib) mute_env empty_world =
    (Raise (Exn Exception_ ("Ошибка при создании саммари: " ++ EMPTY_SUMMARY)),
     chatted (chat_of mute_env
                [user_prompt (prompt_of "1. A")]) empty_world).
Proof.
  exact (proj1 (empty_summary_is_an_error (L := ref_lib) mute_env empty_world
                  (chatted (chat_of mute_env
                              [user_prompt (prompt_of "1. A")])
                     empty_world)
                  (PStr "") eq_refl eq_refl)).
Defined.

(** ** One pass of tool resolution (C1) *)

Section ToolPass.
Context {L : PyLib} (E : Env).

(** A call that carries a function is dispatched, and the loop then
    stops at the tool message: the role it asks for does not exist. *)
Lemma resolve_stops_at_tool_message (message : message_obj) (function : function_obj)
  (rest : list tool_call_obj) (messages : list Messages) (w w1 : world)
  (tool_result : value) :
  execute_news_tool E (tool_call_dict function) w = (Ok tool_result, w1) ->
  resolve_tool_calls E message (wrap function :: rest) messages w =
    (Raise no_tool_role, w1).
Proof.
  intros Hrun. cbn [resolve_tool_calls wrap tc_function].
  unfold bind. rewrite Hrun. reflexivity.
Qed.

End ToolPass.

(** C1, as the code has it.  The first reply carries tool calls and the
    first of them names a function (the tool [news] or any other) whose
    dispatch returns a result.  The orchestrator then fails while it
    builds the tool message, on [MessagesRole.TOOL]: the exchange raises
    that [AttributeError] in the world the dispatch left, the model has
    received the first request and no other, and nothing is pushed.
    Nothing is appended to a conversation that is sent, and there is no
    second reply to take the answer from. *)
Theorem tool_call_aborts_the_exchange {L : PyLib} (E : Env) (prompt : string)
  (w w1 : world) (reply1 : completion) (message : message_obj)
  (function : function_obj) (rest : list tool_call_obj) (tool_result : value) :
  client_chat E (List.length (chat_log w)) (chat_of E [user_prompt prompt])
    = Ok reply1 ->
  first_message reply1 = Some message ->
  m_tool_calls message = Some (wrap function :: rest) ->
  execute_news_tool E (tool_call_dict function)
    (chatted (chat_of E [user_prompt prompt]) w) = (Ok tool_result, w1) ->
  chat_exchange E prompt w = (Raise no_tool_role, w1)
  /\ chat_log w1 = (chat_log w ++ [chat_of E [user_prompt prompt]])%list
  /\ xcom w1 = xcom w.
Proof.
  intros Hfirst Hmsg Hcalls Hrun.
  split; [| split].
  - unfold chat_exchange, bind, lift.
    cbn [register_news_tool register_tool already_registered rbind app].
    cbn [MessagesRole role_member String.eqb Ascii.eqb Bool.eqb].
    unfold chat_send at 1, new_Chat at 1. fold (user_prompt prompt).
    fold (chat_of E [user_prompt prompt]).
    rewrite Hfirst. fold (chatted (chat_of E [user_prompt prompt]) w).
    rewrite Hmsg, Hcalls.
    rewrite (resolve_stops_at_tool_message E message function rest _ _ _ _ Hrun).
    reflexivity.
  - pose proof (preserves_execute_news_tool E chat_log
                  (fun _ _ _ _ => eq_refl) (tool_call_dict function)
                  (chatted (chat_of E [user_prompt prompt]) w)) as Hc.
    rewrite Hrun in Hc. exact Hc.
  - pose proof (preserves_execute_news_tool E xcom
                  (fun _ _ _ _ => eq_refl) (tool_call_dict function)
                  (chatted (chat_of E [user_prompt prompt]) w)) as Hx.
    rewrite Hrun in Hx. exact Hx.
Qed.

Lemma tool_call_aborts_the_exchange_witness :
  chat_exchange (L := ref_lib) scenario_env "What about Bitcoin?" empty_world =
    (Raise (Exn AttributeError "type object 'MessagesRole' has no attribute 'TOOL'"),
     World [HttpRequest "http://host.docker.internal:8082/news" [] [] 10]
       [chat_of scenario_env [user_prompt "What about Bitcoin?"]]
       []).
Proof.
  exact (proj1 (tool_call_aborts_the_exchange (L := ref_lib) scenario_env
                  "What about Bitcoin?" empty_world
                  (World [HttpRequest "http://host.docker.internal:8082/news" [] [] 10]
                     [chat_of scenario_env [user_prompt "What about Bitcoin?"]] [])
                  (mkCompletion
                     (Some [mkMessage (Some (PStr ""))
                              (Some [mkToolCall (Some (mkFunction (Some "news")
                                                         (Some (PStr "{}"))))])
                              "message"])
                     "completion")
                  (mkMessage (Some (PStr ""))
                     (Some [mkToolCall (Some (mkFunction (Some "news")
                                                (Some (PStr "{}"))))])
                     "message")
                  (mkFunction (Some "news") (Some (PStr "{}"))) []
                  one_title eq_refl eq_refl eq_refl eq_refl)).
Defined.

(** The scenario end to end: the tool server is asked once, the model
    once, and the task fails; the answer [Bitcoin is down.] that the
    model holds ready for the second request is never asked for. *)
Example scenario_summary :
  summarize_news_with_gigachat (L := ref_lib) scenario_env empty_world =
    (Raise (Exn Exception_
              ("Ошибка при создании саммари: "
               ++ "type object 'MessagesRole' has no attribute 'TOOL'")),
     World [HttpRequest "http://host.docker.internal:8082/news" [] [] 10]
       [chat_of scenario_env [user_prompt (prompt_of "1. A")]]
       []).
Proof. reflexivity. Qed.

(** ** The scenarios, run *)

(** A latitude of 200 on the query string: status 400, nothing sent. *)
Example weather_latitude_200 :
  do_GET (L := ref_lib) (sample_env (answers (PDict moscow_fact)) silent_model PNone)
    "/weather?latitude=200&longitude=37" empty_world =
    (Ok (Reply 400 (error_payload "Широта должна быть в диапазоне от -90 до 90")),
     empty_world).
Proof. reflexivity. Qed.

(** The primary shape. *)
Example weather_from_fact :
  fst (do_GET (L := ref_lib) (sample_env (answers (PDict moscow_fact)) silent_model PNone)
         "/weather?latitude=55&longitude=37" empty_world) =
    Ok (Reply 200 (PDict [("temperature", PInt 15); ("condition", PStr "clear");
                          ("wind_speed", PInt 5); ("humidity", PInt 60)])).
Proof. reflexivity. Qed.

(** No usable field: the error carries the upstream body. *)
Example weather_nothing_extracted :
  fst (do_GET (L := ref_lib) (sample_env (answers (PDict no_weather)) silent_model PNone)
         "/get_weather?latitude=55&longitude=37" empty_world) =
    Ok (Reply 400 (error_raw "Не удалось извлечь данные о погоде из ответа API"
                     (PDict no_weather))).
Proof. reflexivity. Qed.

Example unknown_route :
  do_GET (L := ref_lib) offline_env "/stocks" empty_world =
    (Ok (Reply 404 (unknown_endpoint
                      ["/news"; "/get_news"; "/weather"; "/get_weather"; "/health"])),
     empty_world).
Proof. reflexivity. Qed.

(** An upstream that cannot be reached: status 400, no titles. *)
Example news_upstream_refused :
  fst (do_GET (L := ref_lib) offline_env "/news" empty_world) =
    Ok (Reply 400 (error_payload "Ошибка соединения с API: connection refused")).
Proof. reflexivity. Qed.

(** A reply without tool calls is the answer as it stands. *)
Example plain_answer :
  summarize_news_with_gigachat (L := ref_lib)
    (sample_env (fun _ _ => refused) (plain_model (PStr "Summary text")) one_title)
    empty_world =
    (Ok (PStr "Summary text"),
     World []
       [chat_of offline_env [user_prompt (prompt_of "1. A")]]
       [("summary", PStr "Summary text")]).
Proof. reflexivity. Qed.

(** Registering twice from nothing. *)
Example register_twice :
  (let? once := register_news_tool (L := ref_lib) None in
   register_news_tool (L := ref_lib) (Some once)) = Ok [NEWS_TOOL_DEFINITION].
Proof. reflexivity. Qed.

(* ================================================================== *)
(** * Further properties of the tool server *)
(* ================================================================== *)

Section ServerShape.
Context {L : PyLib} (E : Env).

Lemma extract_titles_payload (news_data p : value) :
  extract_titles news_data = Ok p -> exists titles, p = titles_payload titles.
Proof.
  unfold extract_titles.
  destruct (contains_op "results" news_data) as [has |]; [| discriminate].
  cbn [rbind]. destruct has.
  - destruct (getitem_str news_data "results") as [results |]; [| discriminate].
    cbn [rbind].
    destruct results; cbn [rbind]; try (intros [= <-]; now exists []).
    destruct (collect_titles l []) as [titles |]; [| discriminate].
    cbn [rbind]. intros [= <-]. now exists titles.
  - cbn [rbind]. intros [= <-]. now exists [].
Qed.

(** The news handler always returns a dictionary, after exactly one
    upstream request; without [error] it is a titles payload. *)
Lemma news_handler_shape (w : world) :
  exists d,
    _handle_news_request E w = (Ok (PDict d), sent news_request w)
    /\ (dict_mem "error" d = false ->
        exists titles, PDict d = titles_payload titles).
Proof.
  unfold _handle_news_request, try_except, bind, http_get, lift.
  fold news_request. fold (sent news_request w).
  destruct (requests_get E (List.length (http_log w)) news_request) as [r | e].
  - destruct (status_code r =? 200); cbn [negb].
    + destruct (json_ r) as [nd | e].
      * destruct (get_method nd "totalResults" (PInt 0)) as [v | e].
        -- destruct (extract_titles nd) as [p | e] eqn:Hext.
           ++ destruct (extract_titles_payload _ _ Hext) as [titles ->].
              eexists; split; [reflexivity |]. intros _. now exists titles.
           ++ destruct (caught_by e [KeyError; AttributeError; TypeError]).
              ** eexists; split; [reflexivity | discriminate].
              ** destruct (upstream_failure_total
                             "Таймаут при запросе к API новостей" e) as [msg ->].
                 eexists; split; [reflexivity | discriminate].
        -- destruct (upstream_failure_total
                       "Таймаут при запросе к API новостей" e) as [msg ->].
           eexists; split; [reflexivity | discriminate].
      * destruct (upstream_failure_total
                    "Таймаут при запросе к API новостей" e) as [msg ->].
        eexists; split; [reflexivity | discriminate].
    + eexists; split; [reflexivity | discriminate].
  - destruct (upstream_failure_total
                "Таймаут при запросе к API новостей" e) as [msg ->].
    eexists; split; [reflexivity | discriminate].
Qed.

Lemma extract_weather_payload (weather_data p : value) :
  extract_weather weather_data = Ok p ->
  p = error_raw "Не удалось извлечь данные о погоде из ответа API" weather_data
  \/ exists t c ws h,
       p = PDict [("temperature", t); ("condition", c);
                  ("wind_speed", ws); ("humidity", h)]
       /\ is_none t && is_none c && is_none ws && is_none h = false.
Proof.
  unfold extract_weather.
  destruct (select_fact weather_data) as [fact |]; [| discriminate]. cbn [rbind].
  destruct (get_method fact "temp" PNone) as [t |]; [| discriminate]. cbn [rbind].
  destruct (get_method fact "condition" PNone) as [c |]; [| discriminate]. cbn [rbind].
  destruct (get_method fact "wind_speed" PNone) as [ws |]; [| discriminate]. cbn [rbind].
  destruct (get_method fact "humidity" PNone) as [h |]; [| discriminate]. cbn [rbind].
  destruct (is_none t && is_none c && is_none ws && is_none h) eqn:Hnull;
    intros [= <-]; [now left | right].
  now exists t, c, ws, h.
Qed.

(** The upstream call of the weather handler: one request, a dictionary
    back; without [error] it has the four fields, not all null. *)
Lemma weather_upstream_shape (api_key : string) (lat lon : float) (w : world) :
  exists d,
    weather_upstream E api_key lat lon w =
      (Ok (PDict d), sent (weather_request api_key lat lon) w)
    /\ (dict_mem "error" d = false ->
        exists t c ws h,
          d = [("temperature", t); ("condition", c);
               ("wind_speed", ws); ("humidity", h)]
          /\ is_none t && is_none c && is_none ws && is_none h = false).
Proof.
  unfold weather_upstream, try_except, bind, http_get, lift.
  fold (weather_request api_key lat lon).
  fold (sent (weather_request api_key lat lon) w).
  destruct (requests_get E (List.length (http_log w))
              (weather_request api_key lat lon)) as [r | e].
  - destruct (status_code r =? 200); cbn [negb].
    + destruct (json_ r) as [wd | e].
      * destruct (extract_weather wd) as [p | e] eqn:Hext.
        -- destruct (extract_weather_payload _ _ Hext)
             as [-> | (t & c & ws & h & -> & Hnull)].
           ++ eexists; split; [reflexivity | discriminate].
           ++ eexists; split; [reflexivity |]. intros _. now exists t, c, ws, h.
        -- destruct (caught_by e [KeyError; AttributeError; IndexError]).
           ++ eexists; split; [reflexivity | discriminate].
           ++ destruct (upstream_failure_total
                          "Таймаут при запросе к API Яндекс.Погоды" e) as [msg ->].
              eexists; split; [reflexivity | discriminate].
      * destruct (upstream_failure_total
                    "Таймаут при запросе к API Яндекс.Погоды" e) as [msg ->].
        eexists; split; [reflexivity | discriminate].
    + destruct (status_code r =? 403); [| destruct (status_code r =? 401)];
        (eexists; split; [reflexivity | discriminate]).
  - destruct (upstream_failure_total
                "Таймаут при запросе к API Яндекс.Погоды" e) as [msg ->].
    eexists; split; [reflexivity | discriminate].
Qed.

(** The three ways [_handle_weather_request] ends: a conversion raised
    something other than [ValueError]/[TypeError]; a check failed; or
    every check passed and the upstream call was made. *)
Lemma weather_handler_cases (latitude longitude : value) (w : world) :
  (exists e, _handle_weather_request E latitude longitude w = (Raise e, w))
  \/ (exists msg,
         _handle_weather_request E latitude longitude w = (Ok (error_payload msg), w))
  \/ (exists lat lon api_key,
         is_none latitude = false /\ is_none longitude = false
         /\ py_float latitude = Ok lat /\ py_float longitude = Ok lon
         /\ lat_in_range lat = true /\ lon_in_range lon = true
         /\ os_getenv E "YANDEX_WEATHER_API_KEY" = Some api_key
         /\ api_key <> "" /\ py_strip api_key <> ""
         /\ _handle_weather_request E latitude longitude w =
              weather_upstream E (py_strip api_key) lat lon w).
Proof.
  unfold _handle_weather_request, parse_coordinates, bind, lift.
  destruct (is_none latitude) eqn:Hlat; cbn [orb];
    [right; left; eexists; reflexivity |].
  destruct (is_none longitude) eqn:Hlon; [right; left; eexists; reflexivity |].
  destruct (py_float latitude) as [lat | e] eqn:Hflat; cbn [rbind].
  2: { destruct (caught_by e [ValueError; TypeError]);
         [right; left | left]; eexists; reflexivity. }
  destruct (py_float longitude) as [lon | e] eqn:Hflon; cbn [rbind].
  2: { destruct (caught_by e [ValueError; TypeError]);
         [right; left | left]; eexists; reflexivity. }
  destruct (lat_in_range lat) eqn:Hrlat; cbn [negb];
    [| right; left; eexists; reflexivity].
  destruct (lon_in_range lon) eqn:Hrlon; cbn [negb];
    [| right; left; eexists; reflexivity].
  destruct (os_getenv E "YANDEX_WEATHER_API_KEY") as [api_key |] eqn:Hkey;
    [| right; left; eexists; reflexivity].
  destruct (String.eqb_spec api_key "") as [-> | Hne];
    [right; left; eexists; reflexivity |].
  destruct (String.eqb_spec (py_strip api_key) "") as [Heq | Hstrip];
    [right; left; eexists; reflexivity |].
  right; right. exists lat, lon, api_key. repeat split; auto.
Qed.

Lemma known_get_routes (path : string) :
  existsb (String.eqb path)
    ["/"; "/health"; "/news"; "/get_news"; "/weather"; "/get_weather"]
  = health_route path || news_route path || weather_route path.
Proof.
  unfold health_route, news_route, weather_route. cbn [existsb].
  destruct (String.eqb path "/"), (String.eqb path "/health"),
    (String.eqb path "/news"), (String.eqb path "/get_news"),
    (String.eqb path "/weather"), (String.eqb path "/get_weather"); reflexivity.
Qed.

Lemma known_post_routes (path : string) :
  existsb (String.eqb path) ["/news"; "/get_news"; "/weather"; "/get_weather"]
  = news_route path || weather_route path.
Proof.
  unfold news_route, weather_route. cbn [existsb].
  destruct (String.eqb path "/news"), (String.eqb path "/get_news"),
    (String.eqb path "/weather"), (String.eqb path "/get_weather"); reflexivity.
Qed.

End ServerShape.

Section ServerReplies.
Context {L : PyLib} (E : Env).

(** What [do_GET] makes of a dictionary a route produced. *)
Lemma status_of_dict (known : list string) (path : string) (d : dict) :
  status_of known path (PDict d) =
    Ok (if negb (existsb (String.eqb path) known) then 404
        else if dict_mem "error" d then 400 else 200).
Proof.
  unfold status_of. cbn [contains_op rbind].
  destruct (existsb (String.eqb path) known), (dict_mem "error" d); reflexivity.
Qed.

Lemma get_reply_shape (target : string) (w : world) :
  exists st d w',
    do_GET E target w = (Ok (Reply st (PDict d)), w')
    /\ (st = 200 \/ st = 400 \/ st = 404 \/ st = 500)
    /\ (st = 200 <-> dict_mem "error" d = false).
Proof.
  unfold do_GET, try_except, bind, lift, internal_error.
  destruct (urlparse target) as [[path query] | e]; cbn [fst snd].
  2: { do 3 eexists. split; [reflexivity |]. split; [tauto |].
       split; discriminate. }
  destruct (news_route path) eqn:Hnews.
  { destruct (news_handler_shape E w) as (d & -> & _).
    rewrite status_of_dict, known_get_routes, Hnews, orb_true_r. cbn [negb orb].
    destruct (dict_mem "error" d) eqn:Herr;
      (do 3 eexists; split; [reflexivity |]; split; [tauto |]);
      rewrite Herr; split; (discriminate || reflexivity). }
  destruct (weather_route path) eqn:Hweather.
  { destruct (query_param (parse_qs query) "latitude") as [latitude | e].
    2: { do 3 eexists. split; [reflexivity |]. split; [tauto |].
         split; discriminate. }
    destruct (query_param (parse_qs query) "longitude") as [longitude | e].
    2: { do 3 eexists. split; [reflexivity |]. split; [tauto |].
         split; discriminate. }
    destruct (weather_handler_cases E latitude longitude w)
      as [[e ->] | [[msg ->] | (lat & lon & key & _ & _ & _ & _ & _ & _ & _ & _ & _ & ->)]].
    - do 3 eexists. split; [reflexivity |]. split; [tauto |]. split; discriminate.
    - unfold error_payload. rewrite status_of_dict, known_get_routes, Hweather,
        orb_true_r. cbn [negb dict_mem String.eqb Ascii.eqb Bool.eqb].
      do 3 eexists. split; [reflexivity |]. split; [tauto |]. split; discriminate.
    - destruct (weather_upstream_shape E (py_strip key) lat lon w) as (d & -> & _).
      rewrite status_of_dict, known_get_routes, Hweather, orb_true_r. cbn [negb].
      destruct (dict_mem "error" d) eqn:Herr;
        (do 3 eexists; split; [reflexivity |]; split; [tauto |]);
        rewrite Herr; split; (discriminate || reflexivity). }
  destruct (health_route path) eqn:Hhealth.
  { unfold ret, health_payload.
    rewrite status_of_dict, known_get_routes, Hhealth. cbn [negb orb].
    do 3 eexists. split; [reflexivity |]. split; [tauto |].
    split; reflexivity. }
  unfold ret, unknown_endpoint.
  rewrite status_of_dict, known_get_routes, Hhealth, Hnews, Hweather.
  cbn [negb orb].
  do 3 eexists. split; [reflexivity |]. split; [tauto |]. split; discriminate.
Qed.

End ServerReplies.

(** ** Every GET is answered, and [error] tells how *)

(** Whatever the target and whatever the upstream does, [do_GET]
    answers: no exception leaves it.  The reply is a dictionary with
    status 200, 400, 404 or 500, and the status is 200 exactly when the
    dictionary has no [error] key. *)
Theorem get_reply_is_discriminated {L : PyLib} (E : Env) (target : string) (w : world) :
  exists st d w',
    do_GET E target w = (Ok (Reply st (PDict d)), w')
    /\ (st = 200 \/ st = 400 \/ st = 404 \/ st = 500)
    /\ (st = 200 <-> dict_mem "error" d = false).
Proof. exact (get_reply_shape E target w). Qed.

Section PostReplies.
Context {L : PyLib} (E : Env).

Lemma post_reply_shape (rq : post_request) (w : world) :
  exists st d w',
    do_POST E rq w = (Ok (Reply st (PDict d)), w')
    /\ (st = 200 \/ st = 400 \/ st = 404 \/ st = 500)
    /\ (st = 200 <-> dict_mem "error" d = false).
Proof.
  unfold do_POST, try_except, bind, lift, internal_error.
  destruct (read_body rq) as [body | e].
  2: { do 3 eexists. split; [reflexivity |]. split; [tauto |]. split; discriminate. }
  destruct (urlparse (post_target rq)) as [[path query] | e]; cbn [fst snd].
  2: { do 3 eexists. split; [reflexivity |]. split; [tauto |]. split; discriminate. }
  destruct (json_loads_guard body) as [request_data | e | e].
  2: { do 3 eexists. split; [reflexivity |]. split; [tauto |]. split; discriminate. }
  2: { do 3 eexists. split; [reflexivity |]. split; [tauto |]. split; discriminate. }
  destruct (news_route path) eqn:Hnews.
  { destruct (news_handler_shape E w) as (d & -> & _).
    rewrite status_of_dict, known_post_routes, Hnews. cbn [negb orb].
    destruct (dict_mem "error" d) eqn:Herr;
      (do 3 eexists; split; [reflexivity |]; split; [tauto |]);
      rewrite Herr; split; (discriminate || reflexivity). }
  destruct (weather_route path) eqn:Hweather.
  { destruct (get_method request_data "latitude" PNone) as [latitude | e].
    2: { do 3 eexists. split; [reflexivity |]. split; [tauto |].
         split; discriminate. }
    destruct (get_method request_data "longitude" PNone) as [longitude | e].
    2: { do 3 eexists. split; [reflexivity |]. split; [tauto |].
         split; discriminate. }
    destruct (weather_handler_cases E latitude longitude w)
      as [[e ->] | [[msg ->] | (lat & lon & key & _ & _ & _ & _ & _ & _ & _ & _ & _ & ->)]].
    - do 3 eexists. split; [reflexivity |]. split; [tauto |]. split; discriminate.
    - unfold error_payload. rewrite status_of_dict, known_post_routes, Hweather,
        orb_true_r. cbn [negb dict_mem String.eqb Ascii.eqb Bool.eqb].
      do 3 eexists. split; [reflexivity |]. split; [tauto |]. split; discriminate.
    - destruct (weather_upstream_shape E (py_strip key) lat lon w) as (d & -> & _).
      rewrite status_of_dict, known_post_routes, Hweather, orb_true_r. cbn [negb].
      destruct (dict_mem "error" d) eqn:Herr;
        (do 3 eexists; split; [reflexivity |]; split; [tauto |]);
        rewrite Herr; split; (discriminate || reflexivity). }
  unfold ret, unknown_endpoint.
  rewrite status_of_dict, known_post_routes, Hnews, Hweather. cbn [negb orb].
  do 3 eexists. split; [reflexivity |]. split; [tauto |]. split; discriminate.
Qed.

End PostReplies.

(** Whatever the request line, the headers, the bytes of the body and
    the upstream, [do_POST] answers: no exception leaves it.  The reply
    is a dictionary with status 200, 400, 404 or 500, and the status is
    200 exactly when the dictionary has no [error] key. *)
Theorem post_reply_is_discriminated {L : PyLib} (E : Env) (rq : post_request)
  (w : world) :
  exists st d w',
    do_POST E rq w = (Ok (Reply st (PDict d)), w')
    /\ (st = 200 \/ st = 400 \/ st = 404 \/ st = 500)
    /\ (st = 200 <-> dict_mem "error" d = false).
Proof. exact (post_reply_shape E rq w). Qed.

(** ** Routes *)





(** ** The news handler *)

(** A news request never raises and always costs exactly one upstream
    request, to the fixed URL with a timeout of 10 seconds.  What it
    returns is a dictionary; when it has no [error] key it is
    [{titles, total_count}] with [total_count] the length of [titles]. *)
Theorem news_handler_one_request {L : PyLib} (E : Env) (w : world) :
  exists d,
    _handle_news_request E w =
      (Ok (PDict d),
       World (http_log w ++ [HttpRequest NEWS_API_URL [] [] 10])
         (chat_log w) (xcom w))
    /\ (dict_mem "error" d = false ->
        exists titles,
          d = [("titles", PList titles);
               ("total_count", PInt (Z.of_nat (List.length titles)))]).
Proof.
  destruct (news_handler_shape E w) as (d & Hrun & Hok).
  exists d. split; [exact Hrun |].
  intros Herr. destruct (Hok Herr) as [titles [= ->]]. now exists titles.
Qed.

(** ** The weather handler *)

(** The weather handler sends at most one request upstream, and only
    when both coordinates are present and numeric, the latitude and the
    longitude are in range and the API key is set and not blank; the
    request then carries the stripped key in [X-Yandex-Weather-Key] and
    the parsed coordinates as [lat] and [lon]. *)
Theorem weather_upstream_is_guarded {L : PyLib} (E : Env)
  (latitude longitude : value) (w : world) :
  http_log (snd (_handle_weather_request E latitude longitude w)) = http_log w
  \/ exists lat lon api_key,
       is_none latitude = false /\ is_none longitude = false
       /\ py_float latitude = Ok lat /\ py_float longitude = Ok lon
       /\ lat_in_range lat = true /\ lon_in_range lon = true
       /\ os_getenv E "YANDEX_WEATHER_API_KEY" = Some api_key
       /\ py_strip api_key <> ""
       /\ http_log (snd (_handle_weather_request E latitude longitude w)) =
            (http_log w ++
             [HttpRequest YANDEX_WEATHER_API_URL
                [("X-Yandex-Weather-Key", py_strip api_key)]
                [("lat", PFloat lat); ("lon", PFloat lon)] 10])%list.
Proof.
  destruct (weather_handler_cases E latitude longitude w)
    as [[e ->] | [[msg ->] | (lat & lon & key & H1 & H2 & H3 & H4 & H5 & H6 & H7 & _ & H9 & ->)]].
  - now left.
  - now left.
  - right. exists lat, lon, key.
    destruct (weather_upstream_shape E (py_strip key) lat lon w) as (d & -> & _).
    repeat split; auto.
Qed.

(** A weather request that is answered without [error] carries the
    four fields [temperature], [condition], [wind_speed], [humidity],
    in this order and not all null, and cost exactly one upstream
    request. *)
Theorem weather_success_has_data {L : PyLib} (E : Env)
  (latitude longitude : value) (w w' : world) (d : dict) :
  _handle_weather_request E latitude longitude w = (Ok (PDict d), w') ->
  dict_mem "error" d = false ->
  (exists t c ws h,
      d = [("temperature", t); ("condition", c); ("wind_speed", ws); ("humidity", h)]
      /\ is_none t && is_none c && is_none ws && is_none h = false)
  /\ List.length (http_log w') = S (List.length (http_log w)).
Proof.
  intros Hrun Herr.
  destruct (weather_handler_cases E latitude longitude w)
    as [[e H] | [[msg H] | (lat & lon & key & _ & _ & _ & _ & _ & _ & _ & _ & _ & H)]];
    rewrite H in Hrun.
  - discriminate.
  - injection Hrun as <- <-. discriminate.
  - destruct (weather_upstream_shape E (py_strip key) lat lon w) as (d' & Hd & Hok).
    rewrite Hd in Hrun. injection Hrun as <- <-.
    split; [exact (Hok Herr) |].
    cbn [sent http_log]. rewrite length_app. cbn. lia.
Qed.

Lemma weather_success_has_data_witness :
  (exists t c ws h,
      [("temperature", PInt 15); ("condition", PStr "clear");
       ("wind_speed", PInt 5); ("humidity", PInt 60)] =
      [("temperature", t); ("condition", c); ("wind_speed", ws); ("humidity", h)]
      /\ is_none t && is_none c && is_none ws && is_none h = false)
  /\ List.length
       (http_log (sent (weather_request "k-123" 55%float 37%float) empty_world)) = 1%nat.
Proof.
  exact (weather_success_has_data (L := ref_lib)
           (sample_env (answers (PDict moscow_fact)) silent_model PNone)
           (PStr "55") (PStr "37") empty_world
           (sent (weather_request "k-123" 55%float 37%float) empty_world)
           [("temperature", PInt 15); ("condition", PStr "clear");
            ("wind_speed", PInt 5); ("humidity", PInt 60)]
           eq_refl eq_refl).
Defined.

(** The checks of the weather handler come in a fixed order, and the
    first one that fails answers, without any upstream request.
    (1) A missing coordinate is reported whatever the other one is.
    (2) With both present, a coordinate that [float()] rejects with a
    [ValueError] or a [TypeError] is reported as non-numeric before any
    range is looked at, so a latitude of 200 next to a longitude that is
    no number is reported as non-numeric.  (3) With coordinates in
    range, a key that is unset or empty, and a key that is blank once
    stripped, are reported by two different messages. *)
Theorem weather_checks_in_order {L : PyLib} (E : Env)
  (latitude longitude : value) (w : world) :
  (is_none latitude || is_none longitude = true ->
   _handle_weather_request E latitude longitude w =
     (Ok (error_payload "Необходимо указать latitude и longitude"), w))
  /\ (is_none latitude || is_none longitude = false ->
      forall e,
        caught_by e [ValueError; TypeError] = true ->
        py_float latitude = Raise e
        \/ (exists lat, py_float latitude = Ok lat /\ py_float longitude = Raise e) ->
        _handle_weather_request E latitude longitude w =
          (Ok (error_payload "Координаты должны быть числами"), w))
  /\ (is_none latitude || is_none longitude = false ->
      forall lat lon,
        py_float latitude = Ok lat -> py_float longitude = Ok lon ->
        lat_in_range lat = true -> lon_in_range lon = true ->
        (os_getenv E "YANDEX_WEATHER_API_KEY" = None
         \/ os_getenv E "YANDEX_WEATHER_API_KEY" = Some "" ->
         _handle_weather_request E latitude longitude w =
           (Ok (error_payload
                  "API ключ не настроен. Установите переменную окружения YANDEX_WEATHER_API_KEY"),
            w))
        /\ (forall api_key,
               os_getenv E "YANDEX_WEATHER_API_KEY" = Some api_key ->
               api_key <> "" -> py_strip api_key = "" ->
               _handle_weather_request E latitude longitude w =
                 (Ok (error_payload
                        "API ключ пустой. Проверьте переменную окружения YANDEX_WEATHER_API_KEY в .env файле"),
                  w))).
Proof.
  split; [| split].
  - intros Hmissing. unfold _handle_weather_request. now rewrite Hmissing.
  - intros Hpresent e Hcaught Hfail.
    unfold _handle_weather_request, parse_coordinates, bind, lift.
    rewrite Hpresent.
    destruct Hfail as [-> | (lat & -> & ->)]; cbn [rbind]; now rewrite Hcaught.
  - intros Hpresent lat lon Hflat Hflon Hrlat Hrlon.
    unfold _handle_weather_request, parse_coordinates, bind, lift.
    rewrite Hpresent, Hflat, Hflon. cbn [rbind]. rewrite Hrlat, Hrlon. cbn [negb].
    split.
    + intros [-> | ->]; reflexivity.
    + intros api_key -> Hne Hblank.
      destruct (String.eqb_spec api_key "") as [Heq | _]; [contradiction |].
      rewrite Hblank. reflexivity.
Qed.

Lemma weather_checks_in_order_witness :
  _handle_weather_request (L := ref_lib) offline_env (PStr "200") (PStr "east")
    empty_world =
    (Ok (error_payload "Координаты должны быть числами"), empty_world).
Proof.
  apply (proj1 (proj2 (weather_checks_in_order (L := ref_lib) offline_env
                         (PStr "200") (PStr "east") empty_world))
           eq_refl
           (Exn ValueError "could not convert string to float: east")
           eq_refl).
  right. exists 200%float. split; reflexivity.
Defined.



(** The weather handler raises in one case only: both coordinates are
    present and [float()] raises, on the latitude or else on the
    longitude, an exception that is neither a [ValueError] nor a
    [TypeError] (CPython raises [OverflowError] on an integer too large
    for a float).  That exception leaves the handler as it is, and
    nothing was sent upstream. *)
Theorem weather_handler_raises_on_conversion_only {L : PyLib} (E : Env)
  (latitude longitude : value) (e : exn) (w w' : world) :
  _handle_weather_request E latitude longitude w = (Raise e, w')
  <-> (w' = w
       /\ is_none latitude || is_none longitude = false
       /\ caught_by e [ValueError; TypeError] = false
       /\ (py_float latitude = Raise e
           \/ exists lat, py_float latitude = Ok lat
                          /\ py_float longitude = Raise e)).
Proof.
  split.
  - intros Hrun.
    destruct (weather_handler_cases E latitude longitude w)
      as [[e0 H] | [[msg H] | (lat & lon & key & _ & _ & _ & _ & _ & _ & _ & _ & _ & H)]].
    + clear H. revert Hrun.
      unfold _handle_weather_request, parse_coordinates, bind, lift.
      destruct (is_none latitude || is_none longitude); [discriminate |].
      destruct (py_float latitude) as [lat | e1]; cbn [rbind].
      * destruct (py_float longitude) as [lon | e1]; cbn [rbind].
        -- destruct (negb (lat_in_range lat)); [discriminate |].
           destruct (negb (lon_in_range lon)); [discriminate |].
           destruct (os_getenv E "YANDEX_WEATHER_API_KEY") as [k |]; [| discriminate].
           destruct (String.eqb k ""); [discriminate |].
           destruct (String.eqb (py_strip k) ""); [discriminate |].
           destruct (weather_upstream_shape E (py_strip k) lat lon w) as (d & -> & _).
           discriminate.
        -- destruct (caught_by e1 [ValueError; TypeError]) eqn:Hc; [discriminate |].
           intros [= -> ->]. repeat split; eauto.
      * destruct (caught_by e1 [ValueError; TypeError]) eqn:Hc; [discriminate |].
        intros [= -> ->]. repeat split; eauto.
    + rewrite H in Hrun. discriminate.
    + rewrite H in Hrun.
      destruct (weather_upstream_shape E (py_strip key) lat lon w) as (d & Hd & _).
      rewrite Hd in Hrun. discriminate.
  - intros (-> & Hpresent & Huncaught & Hfail).
    unfold _handle_weather_request, parse_coordinates, bind, lift.
    rewrite Hpresent.
    destruct Hfail as [-> | (lat & -> & ->)]; cbn [rbind]; now rewrite Huncaught.
Qed.

Lemma weather_handler_raises_on_conversion_only_witness :
  _handle_weather_request (L := checked_lib) offline_env
    (PInt (10 ^ 400)) (PInt 37) empty_world =
    (Raise (Exn OverflowError "int too large to convert to float"), empty_world).
Proof.
  apply (proj2 (weather_handler_raises_on_conversion_only (L := checked_lib)
                  offline_env (PInt (10 ^ 400)) (PInt 37)
                  (Exn OverflowError "int too large to convert to float")
                  empty_world empty_world)).
  repeat split. left. reflexivity.
Defined.

(* ================================================================== *)
(** * Further properties of the tools *)
(* ================================================================== *)

(** ** The news tool against the tool server *)

(** The news tool put in front of the tool server.  Whatever reply the
    server gives to a GET, when the tool receives that reply (its status
    and its JSON), the tool returns a dictionary after exactly one
    request: the server's payload itself when the status is 200, and
    otherwise a fresh error payload made of the text of the HTTP error,
    in which the server's own [error], [details] and [raw_response] are
    lost.  So the tool's result has an [error] key exactly when the
    server's reply had one. *)
Theorem news_tool_reflects_server {L : PyLib} (Es Ec : Env) (target : string)
  (ws ws' wc : world) (rep : http_reply) (r : response) :
  do_GET Es target ws = (Ok rep, ws') ->
  requests_get Ec (List.length (http_log wc)) (news_tool_request Ec) = Ok r ->
  status_code r = reply_status rep ->
  json_ r = Ok (reply_body rep) ->
  exists d,
    get_news_titles Ec wc = (Ok (PDict d), sent (news_tool_request Ec) wc)
    /\ (reply_status rep = 200 -> PDict d = reply_body rep)
    /\ (reply_status rep <> 200 ->
        d = [("error", PStr ("Ошибка при запросе новостей: " ++ status_error r))])
    /\ (dict_mem "error" d = true <-> reply_status rep <> 200).
Proof.
  intros Hserver Hget Hstatus Hjson.
  destruct (get_reply_shape Es target ws) as (st & ds & w1 & Hshape & Hst & Hdisc).
  rewrite Hshape in Hserver. injection Hserver as <- <-.
  cbn [reply_status reply_body] in *.
  unfold get_news_titles, try_except, bind, http_get, lift.
  fold (news_tool_request Ec). rewrite Hget.
  fold (sent (news_tool_request Ec) wc).
  unfold raise_for_status. rewrite Hstatus.
  destruct Hst as [-> | [-> | [-> | ->]]]; cbn [Z.leb Z.ltb Z.compare Pos.compare
    Pos.compare_cont andb].
  - rewrite Hjson. exists ds. split; [reflexivity |].
    split; [reflexivity |]. split; [intros H; now contradiction H |].
    destruct Hdisc as [Hdisc _]. rewrite (Hdisc eq_refl).
    split; [discriminate | intros H; now contradiction H].
  - eexists. split; [reflexivity |]. split; [discriminate |].
    split; [reflexivity |]. split; [discriminate | reflexivity].
  - eexists. split; [reflexivity |]. split; [discriminate |].
    split; [reflexivity |]. split; [discriminate | reflexivity].
  - eexists. split; [reflexivity |]. split; [discriminate |].
    split; [reflexivity |]. split; [discriminate | reflexivity].
Qed.

Lemma news_tool_reflects_server_witness :
  exists d,
    get_news_titles
      (sample_env
         (served (Reply 400
                    (error_raw
                       "Неожиданный формат ответа от API: argument of type 'int' is not iterable"
                       stray_article))
            "400 Client Error: Bad Request")
         silent_model PNone)
      empty_world =
      (Ok (PDict d),
       sent (HttpRequest "http://host.docker.internal:8082/news" [] [] 10) empty_world)
    /\ d = [("error",
             PStr "Ошибка при запросе новостей: 400 Client Error: Bad Request")].
Proof.
  destruct (news_tool_reflects_server (L := ref_lib)
              (sample_env (answers stray_article) silent_model PNone)
              (sample_env
                 (served (Reply 400
                            (error_raw
                               "Неожиданный формат ответа от API: argument of type 'int' is not iterable"
                               stray_article))
                    "400 Client Error: Bad Request")
                 silent_model PNone)
              "/news" empty_world (sent news_request empty_world) empty_world
              (Reply 400
                 (error_raw
                    "Неожиданный формат ответа от API: argument of type 'int' is not iterable"
                    stray_article))
              (Response 400
                 (ref_dumps
                    (error_raw
                       "Неожиданный формат ответа от API: argument of type 'int' is not iterable"
                       stray_article))
                 (Ok (error_raw
                        "Неожиданный формат ответа от API: argument of type 'int' is not iterable"
                        stray_article))
                 "400 Client Error: Bad Request")
              eq_refl eq_refl eq_refl eq_refl)
    as (d & Hrun & _ & Hd & _).
  exists d. split; [exact Hrun | apply Hd; discriminate].
Defined.

(** ** Dispatch *)

(** Arguments given as a string that [json.loads] rejects with a
    [JSONDecodeError] make both dispatchers return an error payload
    that carries the decoder's message; they return normally and send
    nothing. *)
Theorem undecodable_arguments_are_an_error {L : PyLib} (E : Env) (d : dict)
  (s : string) (e : exn) (w : world) :
  dict_lookup "arguments" d = Some (PStr s) ->
  json_loads s = Raise e ->
  caught_by e [JSONDecodeError] = true ->
  (dict_lookup "name" d = Some (PStr "news") ->
   execute_news_tool E (PDict d) w =
     (Ok (error_payload ("Ошибка парсинга аргументов: " ++ exn_str e)), w))
  /\ (dict_lookup "name" d = Some (PStr "weather") ->
      execute_weather_tool E (PDict d) w =
        (Ok (error_payload ("Ошибка парсинга аргументов: " ++ exn_str e)), w)).
Proof.
  intros Hargs Hloads Hcaught. split; intros Hname.
  - unfold execute_news_tool, bind, lift, get_method, decode_arguments.
    rewrite Hname, Hargs, Hloads, Hcaught. reflexivity.
  - unfold execute_weather_tool, bind, lift, get_method, decode_arguments.
    rewrite Hname, Hargs, Hloads, Hcaught. reflexivity.
Qed.

Lemma undecodable_arguments_are_an_error_witness :
  execute_weather_tool (L := ref_lib) offline_env
    (PDict [("name", PStr "weather"); ("arguments", PStr "{latitude: 55")])
    empty_world =
    (Ok (error_payload
           "Ошибка парсинга аргументов: Expecting value: line 1 column 1 (char 0)"),
     empty_world).
Proof.
  apply (proj2 (undecodable_arguments_are_an_error (L := ref_lib) offline_env
                  [("name", PStr "weather"); ("arguments", PStr "{latitude: 55")]
                  "{latitude: 55"
                  (Exn JSONDecodeError "Expecting value: line 1 column 1 (char 0)")
                  empty_world eq_refl eq_refl eq_refl)).
  reflexivity.
Defined.

(** The weather dispatcher, given arguments that decode to an object.
    When [latitude] or [longitude] is missing or null it returns an
    error payload and sends nothing.  Otherwise it sends exactly one
    request to the tool server whose parameters are the two values as
    the model gave them: the dispatcher checks neither that they are
    numbers nor their range. *)
Theorem weather_tool_passes_coordinates {L : PyLib} (E : Env) (d args : dict)
  (w : world) :
  dict_lookup "name" d = Some (PStr "weather") ->
  decode_arguments (call_arguments d) = Parsed (PDict args) ->
  (is_none (field "latitude" args) || is_none (field "longitude" args) = true ->
   execute_weather_tool E (PDict d) w =
     (Ok (error_payload "Не указаны координаты latitude и/или longitude"), w))
  /\ (is_none (field "latitude" args) || is_none (field "longitude" args) = false ->
      execute_weather_tool E (PDict d) w =
        get_weather E (field "latitude" args) (field "longitude" args) w
      /\ http_log (snd (execute_weather_tool E (PDict d) w)) =
           (http_log w ++
            [HttpRequest (WEATHER_SERVER_URL E) []
               [("latitude", field "latitude" args);
                ("longitude", field "longitude" args)] 10])%list).
Proof.
  intros Hname Hargs.
  assert (Hrun : execute_weather_tool E (PDict d) w =
            (if is_none (field "latitude" args) || is_none (field "longitude" args)
             then ret (error_payload "Не указаны координаты latitude и/или longitude")
             else get_weather E (field "latitude" args) (field "longitude" args)) w).
  { unfold execute_weather_tool, bind, lift, get_method. rewrite Hname.
    cbn [eq_str String.eqb Ascii.eqb Bool.eqb negb].
    fold (call_arguments d). rewrite Hargs. reflexivity. }
  split; intros Hcoords; rewrite Hrun, Hcoords; [reflexivity |].
  split; [reflexivity |].
  unfold get_weather, try_except, bind, http_get, lift.
  destruct (requests_get E _ _) as [r | e].
  - destruct (raise_for_status r) as [[] | e].
    + destruct (json_ r) as [v | e]; [reflexivity |].
      destruct (caught_by e [RequestException]); reflexivity.
    + destruct (caught_by e [RequestException]); reflexivity.
  - destruct (caught_by e [RequestException]); reflexivity.
Qed.

Lemma weather_tool_passes_coordinates_witness :
  http_log
    (snd (execute_weather_tool (L := ref_lib) offline_env
            (PDict [("name", PStr "weather");
                    ("arguments", PDict [("latitude", PInt 200);
                                         ("longitude", PStr "east")])])
            empty_world)) =
    [HttpRequest "http://host.docker.internal:8082/weather" []
       [("latitude", PInt 200); ("longitude", PStr "east")] 10].
Proof.
  exact (proj2 (proj2 (weather_tool_passes_coordinates (L := ref_lib) offline_env
                         [("name", PStr "weather");
                          ("arguments", PDict [("latitude", PInt 200);
                                               ("longitude", PStr "east")])]
                         [("latitude", PInt 200); ("longitude", PStr "east")]
                         empty_world eq_refl eq_refl)
                  eq_refl)).
Defined.

(** Arguments that decode to something that is no object (a list, a
    number, [null]) make the weather dispatcher raise an
    [AttributeError], with nothing sent; the news dispatcher, which
    never reads its arguments, runs as usual on the same call. *)
Theorem weather_tool_raises_on_non_object {L : PyLib} (E : Env) (d : dict)
  (arguments : value) (w : world) :
  decode_arguments (call_arguments d) = Parsed arguments ->
  is_object arguments = false ->
  (dict_lookup "name" d = Some (PStr "weather") ->
   execute_weather_tool E (PDict d) w =
     (Raise (Exn AttributeError (fault_text (NoAttribute "get") arguments)), w))
  /\ (dict_lookup "name" d = Some (PStr "news") ->
      execute_news_tool E (PDict d) w = get_news_titles E w).
Proof.
  intros Hargs Hobj. split; intros Hname.
  - unfold execute_weather_tool, bind, lift, get_method. rewrite Hname.
    cbn [eq_str String.eqb Ascii.eqb Bool.eqb negb].
    fold (call_arguments d). rewrite Hargs.
    destruct arguments; try discriminate; reflexivity.
  - unfold execute_news_tool, bind, lift, get_method. rewrite Hname.
    cbn [eq_str String.eqb Ascii.eqb Bool.eqb negb].
    fold (call_arguments d). rewrite Hargs. reflexivity.
Qed.

Lemma weather_tool_raises_on_non_object_witness :
  execute_weather_tool (L := ref_lib) offline_env
    (PDict [("name", PStr "weather"); ("arguments", PStr "null")]) empty_world =
    (Raise (Exn AttributeError "'NoneType' object has no attribute 'get'"),
     empty_world).
Proof.
  apply (proj1 (weather_tool_raises_on_non_object (L := ref_lib) offline_env
                  [("name", PStr "weather"); ("arguments", PStr "null")]
                  PNone empty_world eq_refl eq_refl)).
  reflexivity.
Defined.

(** ** Registration on any list *)

Section RegistrationFacts.
Context {L : PyLib}.

Lemma already_registered_app (name : string) (l : list value) (tool : value) :
  already_registered name l = Ok false ->
  already_registered name (l ++ [tool]) = already_registered name [tool].
Proof.
  induction l as [| t rest IH]; intros Hscan; [reflexivity |].
  cbn [already_registered app] in *.
  destruct (get_method t "function" (PDict [])) as [function |]; [| discriminate].
  cbn [rbind] in *.
  destruct (get_method function "name" PNone) as [n |]; [| discriminate].
  cbn [rbind] in *.
  destruct (eq_str n name); [discriminate | exact (IH Hscan)].
Qed.

Lemma already_registered_raises (name : string) (pre post : list value)
  (tool : value) :
  forallb is_descriptor pre = true ->
  existsb (describes name) pre = false ->
  is_descriptor tool = false ->
  exists e, already_registered name (pre ++ tool :: post) = Raise e
            /\ exn_cls e = AttributeError.
Proof.
  induction pre as [| t rest IH]; intros Hwf Hnone Hbad.
  - cbn [app already_registered]. unfold is_descriptor in Hbad.
    destruct tool as [| | | | | | d]; try (eexists; split; reflexivity).
    cbn [get_method].
    destruct (dict_lookup "function" d) as [[| | | | | | f] |];
      try discriminate; eexists; split; reflexivity.
  - cbn [forallb] in Hwf. apply andb_prop in Hwf as [Ht Hrest].
    cbn [existsb] in Hnone. apply orb_false_elim in Hnone as [Hd Hnone].
    cbn [app already_registered]. unfold describes in Hd.
    destruct (get_method t "function" (PDict [])) as [function |] eqn:Hf.
    + cbn [rbind] in *.
      destruct (get_method function "name" PNone) as [n |] eqn:Hn.
      * cbn [rbind]. rewrite Hd. exact (IH Hrest Hnone Hbad).
      * destruct t as [| | | | | | d]; try discriminate.
        cbn [is_descriptor get_method] in Ht, Hf.
        destruct (dict_lookup "function" d) as [[| | | | | | f] |];
          try discriminate; injection Hf as <-; discriminate.
    + destruct t as [| | | | | | d]; discriminate.
Qed.

End RegistrationFacts.

(** On any list on which it returns, a registration keeps every tool
    where it was and appends at most one descriptor, its own, at the
    end; afterwards the name is found by the scan, and registering
    again changes nothing. *)
Theorem registration_appends_at_most_one {L : PyLib} (r : registration)
  (l l' : list value) :
  register r (Some l) = Ok l' ->
  (l' = l \/ l' = (l ++ [definition_of r])%list)
  /\ already_registered (tool_name r) l' = Ok true
  /\ register r (Some l') = Ok l'.
Proof.
  assert (Hgen : forall name def,
             already_registered name [def] = Ok true ->
             register_tool name def (Some l) = Ok l' ->
             (l' = l \/ l' = (l ++ [def])%list)
             /\ already_registered name l' = Ok true
             /\ register_tool name def (Some l') = Ok l').
  { intros name def Hdef. unfold register_tool.
    destruct (already_registered name l) as [[] |] eqn:Hscan; cbn [rbind];
      try discriminate; intros [= <-].
    - rewrite Hscan. cbn [rbind]. auto.
    - rewrite (already_registered_app _ _ _ Hscan), Hdef. cbn [rbind]. auto. }
  destruct r; apply Hgen; reflexivity.
Qed.

Lemma registration_appends_at_most_one_witness :
  already_registered (L := ref_lib) "weather"
    [PDict [("type", PStr "function")]; NEWS_TOOL_DEFINITION; WEATHER_TOOL_DEFINITION]
  = Ok true.
Proof.
  exact (proj1 (proj2 (registration_appends_at_most_one (L := ref_lib)
                         RegisterWeather
                         [PDict [("type", PStr "function")]; NEWS_TOOL_DEFINITION]
                         [PDict [("type", PStr "function")]; NEWS_TOOL_DEFINITION;
                          WEATHER_TOOL_DEFINITION]
                         eq_refl))).
Defined.

(** A list in which something that is no descriptor (a value that is
    no dictionary, or whose [function] is no dictionary) comes before
    any descriptor of the name makes the registration raise an
    [AttributeError]: the scan reaches it and calls [get] on it. *)
Theorem registration_raises_on_malformed_list {L : PyLib} (r : registration)
  (pre post : list value) (tool : value) :
  forallb is_descriptor pre = true ->
  existsb (describes (tool_name r)) pre = false ->
  is_descriptor tool = false ->
  exists e, register r (Some (pre ++ tool :: post)%list) = Raise e
            /\ exn_cls e = AttributeError.
Proof.
  intros Hwf Hnone Hbad.
  destruct (already_registered_raises (tool_name r) pre post tool Hwf Hnone Hbad)
    as (e & Hscan & Hcls).
  exists e. split; [| exact Hcls].
  destruct r; unfold register, register_news_tool, register_weather_tool,
    register_tool; cbn [tool_name] in Hscan; rewrite Hscan; reflexivity.
Qed.

Lemma registration_raises_on_malformed_list_witness :
  exists e, register_news_tool (L := ref_lib)
              (Some [WEATHER_TOOL_DEFINITION; PStr "news"; NEWS_TOOL_DEFINITION])
            = Raise e
            /\ exn_cls e = AttributeError.
Proof.
  exact (registration_raises_on_malformed_list (L := ref_lib) RegisterNews
           [WEATHER_TOOL_DEFINITION] [NEWS_TOOL_DEFINITION] (PStr "news")
           eq_refl eq_refl eq_refl).
Defined.

(* ================================================================== *)
(** * Further properties of the orchestrator *)
(* ================================================================== *)

(** ** The filter on the final text *)

Section FilterFacts.
Context {L : PyLib}.

Lemma is_prefix_app (p q s : string) :
  is_prefix (p ++ q) s = true -> is_prefix p s = true.
Proof.
  revert s. induction p as [| a p IH]; intros s; [reflexivity |].
  cbn. destruct s as [| b s]; [discriminate |].
  destruct (Ascii.eqb a b); [apply IH | discriminate].
Qed.

Lemma is_substring_app (p q s : string) :
  is_substring (p ++ q) s = true -> is_substring p s = true.
Proof.
  induction s as [| b s IH]; cbn [is_substring].
  - destruct (is_prefix (p ++ q) "") eqn:Hpre; [| discriminate].
    intros _. now rewrite (is_prefix_app _ _ _ Hpre).
  - destruct (is_prefix (p ++ q) (String b s)) eqn:Hpre.
    + intros _. now rewrite (is_prefix_app _ _ _ Hpre).
    + intros H. rewrite (IH H). now destruct (is_prefix p (String b s)).
Qed.

End FilterFacts.

(** On a text that is not blank, [check_summary] rejects exactly when
    the lowercased text contains "ошибка при" or "error", or when the
    text contains "400" or "401" and the lowercased text contains one of
    the ten indicators.  So the indicators "failed", "не удалось",
    "403", "500", "Can't decode" and "Authorization" never reject a
    text on their own, and the rejection carries the first 200
    characters of the text. *)
Theorem summary_filter_fires_on {L : PyLib} (s : string) :
  s <> "" ->
  py_strip s <> "" ->
  check_summary (PStr s) =
    if is_substring "ошибка при" (py_lower s)
       || is_substring "error" (py_lower s)
       || ((is_substring "400" s || is_substring "401" s)
           && existsb (fun indicator => is_substring indicator (py_lower s))
                error_indicators)
    then Raise (Exn Exception_ ("Ошибка при создании саммари: " ++ py_slice_to 200 s))
    else Ok tt.
Proof.
  intros Hne Hstrip. unfold check_summary. cbn [truthy].
  destruct (String.eqb_spec s "") as [Heq | _]; [contradiction |]. cbn [negb].
  destruct (String.eqb_spec (py_strip s) "") as [Heq | _]; [contradiction |].
  assert (Hru : is_substring "ошибка при" (py_lower s) = true ->
                is_substring "ошибка" (py_lower s) = true).
  { exact (is_substring_app "ошибка" " при" (py_lower s)). }
  unfold error_indicators. cbn [existsb].
  destruct (is_substring "ошибка при" (py_lower s)) eqn:Hb1.
  - rewrite (Hru eq_refl). reflexivity.
  - destruct (is_substring "error" (py_lower s)) eqn:Hb2.
    + cbn [orb]. now rewrite orb_true_r.
    + cbn [orb].
      destruct (is_substring "400" s || is_substring "401" s) eqn:Hc.
      * cbn [andb].
        destruct (is_substring "ошибка" (py_lower s)
                  || (false
                      || (is_substring "не удалось" (py_lower s)
                          || (is_substring "failed" (py_lower s)
                              || (is_substring "Can't decode" (py_lower s)
                                  || (is_substring "Authorization" (py_lower s)
                                      || (is_substring "400" (py_lower s)
                                          || (is_substring "401" (py_lower s)
                                              || (is_substring "403" (py_lower s)
                                                  || (is_substring "500" (py_lower s)
                                                      || false))))))))));
          reflexivity.
      * cbn [andb].
        match goal with |- (if ?b then _ else _) = _ => destruct b end; reflexivity.
Qed.

Lemma summary_filter_fires_on_witness :
  check_summary (L := ref_lib) (PStr "The upgrade failed on block 500.") = Ok tt.
Proof.
  exact (summary_filter_fires_on (L := ref_lib) "The upgrade failed on block 500."
           ltac:(discriminate) ltac:(discriminate)).
Defined.

(** ** What a run of the orchestrator leaves behind *)

Section RunFacts.
Context {L : PyLib} (E : Env).

Lemma check_summary_ok (summary : value) :
  check_summary summary = Ok tt ->
  exists s, summary = PStr s /\ blank summary = false.
Proof.
  unfold check_summary, blank.
  destruct (truthy summary) eqn:Ht; cbn [negb]; [| discriminate].
  destruct summary; try discriminate.
  cbn [truthy] in Ht.
  destruct (String.eqb s "") eqn:Hs; [discriminate |].
  destruct (String.eqb (py_strip s) ""); [discriminate |].
  intros _. now exists s.
Qed.

(** An exchange with the model that ends without raising yields the
    extracted text, never an early return. *)
Lemma reach_summary_returned (w w1 : world) (s : value) :
  reach_summary E w = (Ok (Returned s), w1) ->
  s = PStr "Новостей не найдено." /\ w1 = w.
Proof.
  unfold reach_summary, bind, lift, ret, throw.
  destruct (negb (truthy (xcom_pull E "news_data" "get_news"))).
  - discriminate.
  - destruct (contains_op "titles" (xcom_pull E "news_data" "get_news"))
      as [has |]; [| discriminate].
    destruct (negb has); [discriminate |].
    destruct (get_method _ "titles" (PList [])) as [titles |]; [| discriminate].
    destruct (get_method _ "total_count" (PInt 0)) as [tc |]; [| discriminate].
    destruct (negb (truthy titles)); [intros [= <- <-]; now split |].
    destruct (py_iter titles) as [items |]; [| discriminate].
    destruct (negb (import_gigachat E)); [discriminate |].
    destruct (String.eqb (GIGACHAT_CREDENTIALS E) ""); [discriminate |].
    destruct (String.eqb _ ""); [discriminate |].
    destruct (chat_exchange E _ w) as [[summary | e] w2]; discriminate.
Qed.

Lemma deliver_cases (summary : value) (w : world) :
  (check_summary summary = Ok tt
   /\ deliver summary w =
        (Ok summary, World (http_log w) (chat_log w) (xcom w ++ [("summary", summary)])))
  \/ (exists e, check_summary summary = Raise e /\ deliver summary w = (Raise e, w)).
Proof.
  unfold deliver, bind, lift, xcom_push, ret.
  destruct (check_summary summary) as [[] | e]; [left | right]; eauto.
Qed.

(** The body of the function, by cases. *)
Lemma summarize_body_cases (w : world) :
  (summarize_body E w = (Ok (PStr "Новостей не найдено."), w))
  \/ (exists summary w1,
         reach_summary E w = (Ok (Extracted summary), w1)
         /\ check_summary summary = Ok tt
         /\ summarize_body E w =
              (Ok summary,
               World (http_log w1) (chat_log w1) (xcom w1 ++ [("summary", summary)])))
  \/ (exists e w1, summarize_body E w = (Raise e, w1) /\ xcom w1 = xcom w).
Proof.
  unfold summarize_body, bind.
  pose proof (preserves_xcom_reach_summary E w) as Hx.
  destruct (reach_summary E w) as [[[s | summary] | e] w1] eqn:Hreach; cbn [snd] in Hx.
  - destruct (reach_summary_returned _ _ _ Hreach) as [-> ->]. left. reflexivity.
  - destruct (deliver_cases summary w1) as [[Hok ->] | (e & Hbad & ->)].
    + right; left. exists summary, w1. repeat split; auto.
    + right; right. exists e, w1. split; [reflexivity | exact Hx].
  - right; right. exists e, w1. split; [reflexivity | exact Hx].
Qed.

Lemma chat_send_log (c : Chat) (w : world) :
  http_log (snd (chat_send E c w)) = http_log w
  /\ chat_log (snd (chat_send E c w)) = (chat_log w ++ [c])%list.
Proof. split; reflexivity. Qed.

End RunFacts.

(** When [summarize_news_with_gigachat] returns, it returns either the
    fixed text for "no news", having touched nothing (no request to
    the model, nothing pushed to XCom), or a text that is a string, is
    not blank and passes the filter, and then exactly one entry,
    [summary] with that text, was added to XCom. *)
Theorem returned_summary_is_checked {L : PyLib} (E : Env) (w w' : world) (v : value) :
  summarize_news_with_gigachat E w = (Ok v, w') ->
  (v = PStr "Новостей не найдено." /\ w' = w)
  \/ (exists s, v = PStr s
                /\ blank v = false
                /\ check_summary v = Ok tt
                /\ xcom w' = (xcom w ++ [("summary", v)])%list).
Proof.
  unfold summarize_news_with_gigachat, try_except.
  destruct (summarize_body_cases E w)
    as [-> | [(summary & w1 & Hreach & Hok & ->) | (e & w1 & -> & _)]].
  - intros [= <- <-]. now left.
  - intros [= <- <-]. right.
    destruct (check_summary_ok _ Hok) as (s & -> & Hblank).
    exists s. repeat split; auto.
    cbn [xcom]. pose proof (preserves_xcom_reach_summary E w) as Hx.
    rewrite Hreach in Hx. cbn [snd] in Hx. now rewrite Hx.
  - destruct (caught_by e [ImportError]); [discriminate |].
    rewrite caught_by_Exception. discriminate.
Qed.

Lemma returned_summary_is_checked_witness :
  (PStr "Bitcoin is down." = PStr "Новостей не найдено."
   /\ World [] [chat_of fluent_env [user_prompt (prompt_of "1. A")]]
        [("summary", PStr "Bitcoin is down.")] = empty_world)
  \/ (exists s, PStr "Bitcoin is down." = PStr s
                /\ blank (L := ref_lib) (PStr "Bitcoin is down.") = false
                /\ check_summary (L := ref_lib) (PStr "Bitcoin is down.") = Ok tt
                /\ [("summary", PStr "Bitcoin is down.")] =
                     ([] ++ [("summary", PStr "Bitcoin is down.")])%list).
Proof.
  exact (returned_summary_is_checked (L := ref_lib) fluent_env empty_world _ _
           eq_refl).
Defined.

(** When [summarize_news_with_gigachat] raises, the exception is a
    plain [Exception] whose message is that of the original one behind
    one of two prefixes (the import one for an [ImportError], the
    summary one for everything else), and XCom is as it was: a failed
    run pushes nothing. *)
Theorem failed_summary_pushes_nothing {L : PyLib} (E : Env) (w w' : world) (e : exn) :
  summarize_news_with_gigachat E w = (Raise e, w') ->
  exn_cls e = Exception_
  /\ xcom w' = xcom w
  /\ exists msg,
       exn_str e = "Ошибка импорта: " ++ msg
       \/ exn_str e = "Ошибка при создании саммари: " ++ msg.
Proof.
  unfold summarize_news_with_gigachat, try_except.
  destruct (summarize_body_cases E w)
    as [-> | [(summary & w1 & _ & _ & ->) | (e0 & w1 & -> & Hx)]];
    try discriminate.
  destruct (caught_by e0 [ImportError]).
  - intros [= <- <-].
    split; [reflexivity | split; [exact Hx |]].
    exists (exn_str e0). left. reflexivity.
  - rewrite caught_by_Exception. intros [= <- <-].
    split; [reflexivity | split; [exact Hx |]].
    exists (exn_str e0). right. reflexivity.
Qed.

Lemma failed_summary_pushes_nothing_witness :
  Exception_ = Exception_
  /\ xcom (chatted (chat_of mute_env [user_prompt (prompt_of "1. A")]) empty_world)
     = xcom empty_world
  /\ exists msg,
       "Ошибка при создании саммари: " ++ EMPTY_SUMMARY = "Ошибка импорта: " ++ msg
       \/ "Ошибка при создании саммари: " ++ EMPTY_SUMMARY
          = "Ошибка при создании саммари: " ++ msg.
Proof.
  exact (failed_summary_pushes_nothing (L := ref_lib) mute_env empty_world
           (chatted (chat_of mute_env [user_prompt (prompt_of "1. A")]) empty_world)
           (Exn Exception_ ("Ошибка при создании саммари: " ++ EMPTY_SUMMARY))
           eq_refl).
Defined.

(** ** Round trips *)

Section RoundTrips.
Context {L : PyLib} (E : Env).

Lemma logged_refl (w : world) : logged w w [] [].
Proof. split; now rewrite app_nil_r. Qed.

Lemma get_news_titles_logged (w : world) :
  logged w (snd (get_news_titles E w)) [] [news_tool_request E].
Proof.
  unfold get_news_titles, try_except, bind, http_get, lift, logged.
  fold (news_tool_request E).
  destruct (requests_get E _ _) as [r | e].
  - destruct (raise_for_status r) as [[] | e].
    + destruct (json_ r) as [v | e]; [now rewrite app_nil_r |].
      destruct (caught_by e [RequestException]); now rewrite app_nil_r.
    + destruct (caught_by e [RequestException]); now rewrite app_nil_r.
  - destruct (caught_by e [RequestException]); now rewrite app_nil_r.
Qed.

Lemma execute_news_tool_logged (tool_call : value) (w : world) :
  exists hs,
    logged w (snd (execute_news_tool E tool_call w)) [] hs
    /\ Forall (eq (news_tool_request E)) hs /\ (List.length hs <= 1)%nat.
Proof.
  unfold execute_news_tool, bind, lift.
  destruct (get_method tool_call "name" (PStr "")) as [name | e].
  2: { exists []. split; [apply logged_refl | split; [constructor | cbn; lia]]. }
  destruct (negb (eq_str name "news")).
  { exists []. split; [apply logged_refl | split; [constructor | cbn; lia]]. }
  destruct (get_method tool_call "arguments" (PDict [])) as [arguments | e].
  2: { exists []. split; [apply logged_refl | split; [constructor | cbn; lia]]. }
  destruct (decode_arguments arguments).
  - exists [news_tool_request E].
    split; [apply get_news_titles_logged | split; [repeat constructor | cbn; lia]].
  - exists []. split; [apply logged_refl | split; [constructor | cbn; lia]].
  - exists []. split; [apply logged_refl | split; [constructor | cbn; lia]].
Qed.

Lemma logged_trans (w w1 w2 : world) (cs1 cs2 : list Chat)
  (hs1 hs2 : list http_request) :
  logged w w1 cs1 hs1 -> logged w1 w2 cs2 hs2 ->
  logged w w2 (cs1 ++ cs2) (hs1 ++ hs2).
Proof.
  intros [Hc1 Hh1] [Hc2 Hh2]. split.
  - now rewrite Hc2, Hc1, app_assoc.
  - now rewrite Hh2, Hh1, app_assoc.
Qed.

(** A pass of tool resolution either finds no function, and then
    returns the conversation and leaves the world as they were, or
    raises, after at most one request to the tool server. *)
Lemma resolve_tool_calls_cases (message : message_obj)
  (tool_calls : list tool_call_obj) (messages : list Messages) (w : world) :
  resolve_tool_calls E message tool_calls messages w = (Ok messages, w)
  \/ exists e w1 hs,
       resolve_tool_calls E message tool_calls messages w = (Raise e, w1)
       /\ logged w w1 [] hs
       /\ Forall (eq (news_tool_request E)) hs
       /\ (List.length hs <= 1)%nat.
Proof.
  induction tool_calls as [| tc rest IH]; [left; reflexivity |].
  cbn [resolve_tool_calls]. destruct (tc_function tc) as [function |]; [| exact IH].
  right. unfold bind.
  destruct (execute_news_tool_logged (tool_call_dict function) w)
    as (hs & Hlog & Hall & Hlen).
  destruct (execute_news_tool E (tool_call_dict function) w)
    as [[tool_result | e] w1]; cbn [snd] in Hlog.
  - exists no_tool_role, w1, hs. repeat split; assumption || apply Hlog.
  - exists e, w1, hs. repeat split; assumption || apply Hlog.
Qed.

Lemma chat_send_logged (c : Chat) (w : world) :
  logged w (snd (chat_send E c w)) [c] [].
Proof. split; cbn; [reflexivity | now rewrite app_nil_r]. Qed.

Lemma orchestrator_chat_of (prompt : string) :
  orchestrator_chat E (chat_of E [user_prompt prompt]).
Proof. split; [reflexivity | split; [reflexivity | now exists prompt]]. Qed.

Lemma chat_exchange_logged (prompt : string) (w : world) :
  exists cs hs,
    logged w (snd (chat_exchange E prompt w)) cs hs
    /\ (1 <= List.length cs <= 2)%nat
    /\ Forall (orchestrator_chat E) cs
    /\ (List.length hs <= 1)%nat
    /\ Forall (eq (news_tool_request E)) hs.
Proof.
  unfold chat_exchange, bind, lift, ret.
  cbn [register_news_tool register_tool already_registered rbind app].
  cbn [MessagesRole role_member String.eqb Ascii.eqb Bool.eqb].
  unfold new_Chat. fold (user_prompt prompt).
  fold (chat_of E [user_prompt prompt]).
  set (c1 := chat_of E [user_prompt prompt]).
  pose proof (orchestrator_chat_of prompt) as Hc1. fold c1 in Hc1.
  pose proof (Forall_cons c1 Hc1 (Forall_nil _)) as Hone.
  pose proof (Forall_cons c1 Hc1 Hone) as Htwo.
  pose proof (chat_send_logged c1 w) as Hs1.
  assert (Hstop : forall w1, logged w w1 [c1] [] ->
            exists cs hs,
              logged w w1 cs hs
              /\ (1 <= List.length cs <= 2)%nat
              /\ Forall (orchestrator_chat E) cs
              /\ (List.length hs <= 1)%nat
              /\ Forall (eq (news_tool_request E)) hs).
  { intros w1 Hlog. exists [c1], []. split; [exact Hlog |].
    split; [cbn; lia | split; [exact Hone | split; [cbn; lia | constructor]]]. }
  destruct (chat_send E c1 w) as [[response | e] w1]; cbn [snd] in Hs1;
    [| exact (Hstop w1 Hs1)].
  destruct (first_message response) as [message |]; [| exact (Hstop w1 Hs1)].
  destruct (m_tool_calls message) as [[| tc rest] |]; try exact (Hstop w1 Hs1).
  destruct (resolve_tool_calls_cases message (tc :: rest) [user_prompt prompt] w1)
    as [-> | (e & w2 & hs & -> & Hr & Hall & Hlen)].
  - change (mkChat [user_prompt prompt] (GIGACHAT_MODEL E) temperature_0_7) with c1.
    pose proof (chat_send_logged c1 w1) as Hs2.
    pose proof (logged_trans _ _ _ _ _ _ _ Hs1 Hs2) as Hall3.
    cbn [app] in Hall3.
    destruct (chat_send E c1 w1) as [[response2 | e] w3]; cbn [snd] in *;
      exists [c1; c1], []; (split; [exact Hall3 |]);
      (split; [cbn; lia | split; [exact Htwo | split; [cbn; lia | constructor]]]).
  - cbn [snd]. exists [c1], hs.
    split; [exact (logged_trans _ _ _ _ _ _ _ Hs1 Hr) |].
    split; [cbn; lia | split; [exact Hone | split; assumption]].
Qed.

Lemma reach_summary_logged (w : world) :
  exists cs hs,
    logged w (snd (reach_summary E w)) cs hs
    /\ (List.length cs <= 2)%nat
    /\ Forall (orchestrator_chat E) cs
    /\ (List.length hs <= 1)%nat
    /\ Forall (eq (news_tool_request E)) hs.
Proof.
  assert (Hnone : exists cs hs,
             logged w w cs hs /\ (List.length cs <= 2)%nat
             /\ Forall (orchestrator_chat E) cs
             /\ (List.length hs <= 1)%nat
             /\ Forall (eq (news_tool_request E)) hs).
  { exists [], []. split; [apply logged_refl |].
    split; [cbn; lia | split; [constructor | split; [cbn; lia | constructor]]]. }
  unfold reach_summary, bind, lift, ret, throw.
  destruct (negb (truthy (xcom_pull E "news_data" "get_news"))); [exact Hnone |].
  destruct (contains_op "titles" (xcom_pull E "news_data" "get_news"))
    as [has |]; [| exact Hnone].
  destruct (negb has); [exact Hnone |].
  destruct (get_method _ "titles" (PList [])) as [titles |]; [| exact Hnone].
  destruct (get_method _ "total_count" (PInt 0)) as [tc |]; [| exact Hnone].
  destruct (negb (truthy titles)); [exact Hnone |].
  destruct (py_iter titles) as [items |]; [| exact Hnone].
  destruct (negb (import_gigachat E)); [exact Hnone |].
  destruct (String.eqb (GIGACHAT_CREDENTIALS E) ""); [exact Hnone |].
  destruct (String.eqb _ ""); [exact Hnone |].
  destruct (chat_exchange_logged (prompt_of (String.concat nl (numbered 0 items))) w)
    as (cs & hs & Hlog & Hlen & Hcs & Hhl & Hhs).
  destruct (chat_exchange E _ w) as [[summary | e] w1]; cbn [snd] in *;
    exists cs, hs;
    (split; [exact Hlog | split; [lia | split; [| split]]]; assumption).
Qed.

End RoundTrips.

(** In any run, returned or raised, [summarize_news_with_gigachat]
    sends at most two requests to the model, each for the configured
    model at temperature 0.7 and each carrying one user prompt and
    nothing else (no assistant message and no tool result ever reaches
    the model); it causes at most one HTTP request, the GET of the news
    tool on the tool server. *)
Theorem at_most_two_round_trips {L : PyLib} (E : Env) (w : world) :
  exists cs hs,
    chat_log (snd (summarize_news_with_gigachat E w)) = (chat_log w ++ cs)%list
    /\ http_log (snd (summarize_news_with_gigachat E w)) = (http_log w ++ hs)%list
    /\ (List.length cs <= 2)%nat
    /\ Forall (fun c => chat_model c = GIGACHAT_MODEL E
                        /\ chat_temperature c = temperature_0_7
                        /\ exists prompt, chat_messages c = [user_prompt prompt]) cs
    /\ (List.length hs <= 1)%nat
    /\ Forall (fun h => h = HttpRequest (NEWS_SERVER_URL E) [] [] 10) hs.
Proof.
  destruct (reach_summary_logged E w)
    as (cs & hs & [Hc Hh] & Hlen & Hcs & Hhl & Hhs).
  exists cs, hs.
  assert (Hsame : chat_log (snd (summarize_news_with_gigachat E w))
                  = chat_log (snd (reach_summary E w))
                  /\ http_log (snd (summarize_news_with_gigachat E w))
                     = http_log (snd (reach_summary E w))).
  { unfold summarize_news_with_gigachat, try_except, summarize_body, bind.
    destruct (reach_summary E w) as [[[s | summary] | e] w1]; cbn [snd].
    - split; reflexivity.
    - unfold deliver, bind, lift, xcom_push, ret.
      destruct (check_summary summary) as [[] | e]; [split; reflexivity |].
      destruct (caught_by e [ImportError]); [split; reflexivity |].
      rewrite caught_by_Exception. split; reflexivity.
    - destruct (caught_by e [ImportError]); [split; reflexivity |].
      rewrite caught_by_Exception. split; reflexivity. }
  destruct Hsame as [-> ->].
  split; [exact Hc | split; [exact Hh | split; [exact Hlen | split; [| split]]]].
  - exact Hcs.
  - exact Hhl.
  - eapply Forall_impl; [| exact Hhs]. intros h <-. reflexivity.
Qed.

(** ** Tool calls the orchestrator cannot serve *)

(** The orchestrator dispatches every tool call to the news tool.  A
    call for a function of another name (the weather tool included) is
    therefore not run: the dispatch answers with the unknown-function
    error and makes no HTTP request.  The loop then fails on the tool
    message as it does for the news tool, so the error never reaches
    the conversation, and the world is as it was. *)
Theorem foreign_tool_call_is_not_run {L : PyLib} (E : Env) (message : message_obj)
  (function : function_obj) (name : string) (rest : list tool_call_obj)
  (messages : list Messages) (w : world) :
  fn_name function = Some name ->
  name <> "news" ->
  execute_news_tool E (tool_call_dict function) w =
    (Ok (error_payload ("Неизвестная функция: " ++ name)), w)
  /\ resolve_tool_calls E message (wrap function :: rest) messages w =
       (Raise no_tool_role, w).
Proof.
  intros Hname Hne.
  assert (Hrun : execute_news_tool E (tool_call_dict function) w =
                   (Ok (error_payload ("Неизвестная функция: " ++ name)), w)).
  { unfold execute_news_tool, bind, lift, tool_call_dict.
    rewrite Hname. cbn [get_method dict_lookup String.eqb Ascii.eqb Bool.eqb eq_str].
    destruct (String.eqb_spec name "news") as [Heq | _]; [contradiction |].
    reflexivity. }
  split; [exact Hrun |].
  exact (resolve_stops_at_tool_message E message function rest messages w w _ Hrun).
Qed.

Lemma foreign_tool_call_is_not_run_witness :
  execute_news_tool (L := ref_lib) scenario_env
    (tool_call_dict (mkFunction (Some "weather") (Some (PStr "{}")))) empty_world =
    (Ok (error_payload "Неизвестная функция: weather"), empty_world)
  /\ resolve_tool_calls (L := ref_lib) scenario_env
       (mkMessage (Some (PStr "")) None "message")
       [wrap (mkFunction (Some "weather") (Some (PStr "{}")))] [] empty_world =
       (Raise (Exn AttributeError "type object 'MessagesRole' has no attribute 'TOOL'"),
        empty_world).
Proof.
  exact (foreign_tool_call_is_not_run (L := ref_lib) scenario_env
           (mkMessage (Some (PStr "")) None "message")
           (mkFunction (Some "weather") (Some (PStr "{}"))) "weather" [] [] empty_world
           eq_refl ltac:(discriminate)).
Defined.

Section VagueCalls.
Context {L : PyLib} (E : Env).

Lemma resolve_without_functions (message : message_obj)
  (tool_calls : list tool_call_obj) (messages : list Messages) (w : world) :
  Forall (fun tc => tc_function tc = None) tool_calls ->
  resolve_tool_calls E message tool_calls messages w = (Ok messages, w).
Proof.
  induction 1 as [| tc rest Htc _ IH]; [reflexivity |].
  cbn [resolve_tool_calls]. rewrite Htc. exact IH.
Qed.

End VagueCalls.

(** When the first reply lists tool calls none of which has a
    [function], nothing is dispatched and nothing is appended, and the
    request sent to the model the second time is the first one again:
    the same conversation, model and temperature. *)
Theorem functionless_calls_repeat_the_request {L : PyLib} (E : Env) (prompt : string)
  (reply1 : completion) (message : message_obj) (tool_calls : list tool_call_obj)
  (w : world) :
  client_chat E (List.length (chat_log w)) (chat_of E [user_prompt prompt]) = Ok reply1 ->
  first_message reply1 = Some message ->
  m_tool_calls message = Some tool_calls ->
  tool_calls <> [] ->
  Forall (fun tc => tc_function tc = None) tool_calls ->
  chat_log (snd (chat_exchange E prompt w)) =
    (chat_log w ++ [chat_of E [user_prompt prompt]; chat_of E [user_prompt prompt]])%list
  /\ http_log (snd (chat_exchange E prompt w)) = http_log w.
Proof.
  intros Hfirst Hmsg Hcalls Hne Hnone.
  assert (Hrun : exists r,
             chat_exchange E prompt w =
               (r, World (http_log w)
                     (chat_log w ++ [chat_of E [user_prompt prompt];
                                     chat_of E [user_prompt prompt]])
                     (xcom w))).
  { unfold chat_exchange, bind, lift, ret.
    cbn [register_news_tool register_tool already_registered rbind app].
    cbn [MessagesRole role_member String.eqb Ascii.eqb Bool.eqb].
    unfold chat_send at 1, new_Chat.
    fold (user_prompt prompt). fold (chat_of E [user_prompt prompt]).
    rewrite Hfirst, Hmsg, Hcalls.
    destruct tool_calls as [| tc rest]; [contradiction |].
    rewrite (resolve_without_functions E message _ _ _ Hnone).
    unfold chat_send. fold (chat_of E [user_prompt prompt]). cbn [chat_log http_log xcom].
    rewrite <- app_assoc. cbn [app].
    match goal with
    | |- context [client_chat E ?n ?c] => destruct (client_chat E n c) as [reply2 | e]
    end; eexists; reflexivity. }
  destruct Hrun as [r ->]. split; reflexivity.
Qed.

Lemma functionless_calls_repeat_the_request_witness :
  chat_log (snd (chat_exchange (L := ref_lib) vague_env "What about Bitcoin?"
                   empty_world)) =
    [chat_of vague_env [user_prompt "What about Bitcoin?"];
     chat_of vague_env [user_prompt "What about Bitcoin?"]].
Proof.
  exact (proj1 (functionless_calls_repeat_the_request (L := ref_lib) vague_env
                  "What about Bitcoin?"
                  (mkCompletion
                     (Some [mkMessage (Some (PStr "thinking"))
                              (Some [mkToolCall None]) "message"])
                     "completion")
                  (mkMessage (Some (PStr "thinking")) (Some [mkToolCall None]) "message")
                  [mkToolCall None] empty_world
                  eq_refl eq_refl eq_refl ltac:(discriminate)
                  (Forall_cons (mkToolCall None) eq_refl (Forall_nil _)))).
Defined.

(* ================================================================== *)
(** * The other tasks of the DAG *)
(* ================================================================== *)

(** ** get_news_task *)

Section NewsTaskFacts.
Context {L : PyLib} (E : Env).

Lemma get_news_titles_world (w : world) :
  snd (get_news_titles E w) = sent (news_tool_request E) w.
Proof.
  unfold get_news_titles, try_except, bind, http_get, lift.
  fold (news_tool_request E). fold (sent (news_tool_request E) w).
  destruct (requests_get E _ _) as [r | e].
  - destruct (raise_for_status r) as [[] | e].
    + destruct (json_ r) as [v | e]; [reflexivity |].
      destruct (caught_by e [RequestException]); reflexivity.
    + destruct (caught_by e [RequestException]); reflexivity.
  - destruct (caught_by e [RequestException]); reflexivity.
Qed.

End NewsTaskFacts.

(** [get_news_task] sends exactly one request, the GET of the news
    tool.  When it returns, the value has no [error] in it and is the
    one entry added to XCom, under [news_data].  When it raises, the
    exception is a plain [Exception] whose message starts with the
    task's prefix, and XCom is as it was: an error payload is never
    passed on to the summary task. *)
Theorem news_task_pushes_only_clean_data {L : PyLib} (E : Env) (w : world) :
  http_log (snd (get_news_task E w)) =
    (http_log w ++ [HttpRequest (NEWS_SERVER_URL E) [] [] 10])%list
  /\ match fst (get_news_task E w) with
     | Ok v =>
         contains_op "error" v = Ok false
         /\ xcom (snd (get_news_task E w)) = (xcom w ++ [("news_data", v)])%list
     | Raise e =>
         exn_cls e = Exception_
         /\ xcom (snd (get_news_task E w)) = xcom w
         /\ exists msg, exn_str e = "Ошибка в задаче получения новостей: " ++ msg
     end.
Proof.
  unfold get_news_task, try_except, bind, lift, xcom_push, ret, throw.
  pose proof (get_news_titles_world E w) as Hw.
  destruct (get_news_titles E w) as [[news_data | e] w1]; cbn [snd] in Hw; subst w1.
  - destruct (contains_op "error" news_data) as [[] | e] eqn:Herr.
    + destruct (getitem_str news_data "error") as [detail | e];
        rewrite caught_by_Exception; cbn [fst snd sent http_log xcom exn_cls exn_str];
        (split; [reflexivity |]); (split; [reflexivity |]);
        (split; [reflexivity |]); eexists; reflexivity.
    + cbn [fst snd sent http_log xcom].
      split; [reflexivity | split; [exact Herr | reflexivity]].
    + rewrite caught_by_Exception. cbn [fst snd sent http_log xcom exn_cls exn_str].
      split; [reflexivity |]. split; [reflexivity |].
      split; [reflexivity |]. eexists; reflexivity.
  - rewrite caught_by_Exception. cbn [fst snd sent http_log xcom exn_cls exn_str].
    split; [reflexivity |]. split; [reflexivity |].
    split; [reflexivity |]. eexists; reflexivity.
Qed.

(** ** The standalone servers *)

Section StandaloneFacts.
Context {L : PyLib} (E : Env).

Lemma plain_status_dict (d : dict) :
  plain_status (PDict d) = Ok (if dict_mem "error" d then 400 else 200).
Proof.
  unfold plain_status. cbn [contains_op rbind].
  destruct (dict_mem "error" d); reflexivity.
Qed.

End StandaloneFacts.

(** The combined server serves the news routes as the standalone news
    server serves every path: on [/news] and [/get_news] a GET is
    answered alike by both, and so is a POST whose body, if it can be
    read at all, is empty or parses (a body that cannot be read gets
    the same 500 from both).  The standalone server does not parse the
    body at all. *)
Theorem combined_server_serves_news_alike {L : PyLib} (E : Env)
  (target path query : string) (w : world) :
  urlparse target = Ok (path, query) ->
  news_route path = true ->
  do_GET E target w = NewsServer.do_GET E target w
  /\ (forall rq : post_request,
         post_target rq = target ->
         (forall body, read_body rq = Ok body ->
                       exists request_data, json_loads_guard body = Parsed request_data) ->
         do_POST E rq w = NewsServer.do_POST E rq w).
Proof.
  intros Hurl Hnews. split.
  - unfold do_GET, NewsServer.do_GET, try_except, bind, lift.
    rewrite Hurl. cbn [fst snd]. rewrite Hnews.
    destruct (news_handler_shape E w) as (d & -> & _).
    rewrite status_of_dict, plain_status_dict, known_get_routes, Hnews.
    rewrite orb_true_r. reflexivity.
  - intros rq Htarget Hparses.
    unfold do_POST, NewsServer.do_POST, try_except, bind, lift.
    destruct (read_body rq) as [body | e]; [| reflexivity].
    destruct (Hparses body eq_refl) as [request_data Hjson].
    rewrite Htarget, Hurl, Hjson. cbn [fst snd]. rewrite Hnews.
    destruct (news_handler_shape E w) as (d & -> & _).
    rewrite status_of_dict, plain_status_dict, known_post_routes, Hnews.
    reflexivity.
Qed.

Lemma combined_server_serves_news_alike_witness :
  do_GET (L := ref_lib) (sample_env (answers three_articles) silent_model PNone)
    "/news" empty_world =
    NewsServer.do_GET (L := ref_lib)
      (sample_env (answers three_articles) silent_model PNone) "/news" empty_world.
Proof.
  exact (proj1 (combined_server_serves_news_alike (L := ref_lib)
                  (sample_env (answers three_articles) silent_model PNone)
                  "/news" "/news" "" empty_world eq_refl eq_refl)).
Defined.

(** The combined server serves the weather routes as the standalone
    weather server does: on [/weather] and [/get_weather] a GET with the
    same query, and a POST with the same body, are answered alike by
    both. *)
Theorem combined_server_serves_weather_alike {L : PyLib} (E : Env)
  (target path query : string) (w : world) :
  urlparse target = Ok (path, query) ->
  news_route path = false ->
  weather_route path = true ->
  do_GET E target w = WeatherServer.do_GET E target w
  /\ (forall rq : post_request,
         post_target rq = target ->
         do_POST E rq w = WeatherServer.do_POST E rq w).
Proof.
  intros Hurl Hnews Hweather.
  assert (Hstatus : forall known response_data,
             existsb (String.eqb path) known = true ->
             status_of known path response_data = plain_status response_data).
  { intros known response_data Hknown. unfold status_of, plain_status.
    rewrite Hknown. reflexivity. }
  split.
  - unfold do_GET, WeatherServer.do_GET, try_except, bind, lift.
    rewrite Hurl. cbn [fst snd]. rewrite Hnews, Hweather.
    destruct (query_param (parse_qs query) "latitude") as [latitude | e];
      [| reflexivity].
    destruct (query_param (parse_qs query) "longitude") as [longitude | e];
      [| reflexivity].
    destruct (_handle_weather_request E latitude longitude w)
      as [[response_data | e] w1]; [| reflexivity].
    rewrite Hstatus; [reflexivity |].
    rewrite known_get_routes, Hweather. now rewrite orb_true_r.
  - intros rq Htarget.
    unfold do_POST, WeatherServer.do_POST, try_except, bind, lift.
    destruct (read_body rq) as [body | e]; [| reflexivity].
    rewrite Htarget, Hurl. cbn [fst snd].
    destruct (json_loads_guard body) as [request_data | e | e]; try reflexivity.
    rewrite Hnews, Hweather.
    destruct (get_method request_data "latitude" PNone) as [latitude | e];
      [| reflexivity].
    destruct (get_method request_data "longitude" PNone) as [longitude | e];
      [| reflexivity].
    destruct (_handle_weather_request E latitude longitude w)
      as [[response_data | e] w1]; [| reflexivity].
    rewrite Hstatus; [reflexivity |].
    rewrite known_post_routes, Hweather. now rewrite orb_true_r.
Qed.

Lemma combined_server_serves_weather_alike_witness :
  do_GET (L := ref_lib) (sample_env (answers (PDict moscow_fact)) silent_model PNone)
    "/weather?latitude=55&longitude=37" empty_world =
    WeatherServer.do_GET (L := ref_lib)
      (sample_env (answers (PDict moscow_fact)) silent_model PNone)
      "/weather?latitude=55&longitude=37" empty_world.
Proof.
  exact (proj1 (combined_server_serves_weather_alike (L := ref_lib)
                  (sample_env (answers (PDict moscow_fact)) silent_model PNone)
                  "/weather?latitude=55&longitude=37" "/weather"
                  "latitude=55&longitude=37" empty_world eq_refl eq_refl eq_refl)).
Defined.

(** ** prepare_email_content and send_summary_email *)

Section MailFacts.
Context {L : PyLib} (E : Env) (K : Mail).

Lemma compose_email_nonempty (subject text_content html_content : string) :
  compose_email E K = Ok (subject, text_content, html_content) ->
  subject <> "" /\ html_content <> "".
Proof.
  unfold compose_email.
  destruct (check_pulled_summary _) as [summary |]; [| discriminate]. cbn [rbind].
  destruct (if truthy _ then get_method _ "titles" (PList []) else Ok (PList []))
    as [titles |]; [| discriminate]. cbn [rbind].
  destruct (if truthy _ then get_method _ "total_count" (PInt 0) else Ok (PInt 0))
    as [total_count |]; [| discriminate]. cbn [rbind].
  destruct (first_twenty K titles) as [listed |]; [| discriminate]. cbn [rbind].
  destruct (more_than_twenty total_count) as [more |]; [| discriminate]. cbn [rbind].
  destruct (html_items 1 listed) as [items |]; [| discriminate]. cbn [rbind].
  intros [= <- _ <-]. split; [cbn; discriminate |].
  destruct more; unfold html_head; cbn; discriminate.
Qed.

(** [prepare_email_content] on either path: it returns, and three
    entries are added to XCom. *)
Lemma prepare_email_shape (w : world) :
  exists subject text_content html_content,
    prepare_email_content E K w =
      (Ok (PDict [("subject", PStr subject);
                  ("text_content", PStr text_content);
                  ("html_content", PStr html_content)]),
       World (http_log w) (chat_log w)
         (xcom w ++ [("email_subject", PStr subject);
                     ("email_text", PStr text_content);
                     ("email_html", PStr html_content)]))
    /\ subject <> "" /\ html_content <> ""
    /\ match compose_email E K with
       | Ok parts => parts = (subject, text_content, html_content)
       | Raise e =>
           subject = ERROR_SUBJECT
           /\ text_content = "Ошибка при подготовке email: " ++ exn_str e
           /\ html_content = "<html><body><p>" ++ text_content ++ "</p></body></html>"
       end.
Proof.
  unfold prepare_email_content, try_except, bind, lift, push_email, bind,
    xcom_push, ret.
  destruct (compose_email E K) as [[[subject text_content] html_content] | e] eqn:Hc.
  - exists subject, text_content, html_content.
    cbn [xcom http_log chat_log]. rewrite <- !app_assoc. cbn [app].
    destruct (compose_email_nonempty _ _ _ Hc) as [Hs Hh].
    repeat split; auto.
  - rewrite caught_by_Exception.
    cbn [xcom http_log chat_log]. rewrite <- !app_assoc. cbn [app].
    do 3 eexists. split; [reflexivity |].
    split; [discriminate |]. split; [cbn; discriminate |].
    repeat split; reflexivity.
Qed.

Lemma pushed_after (w : world) (pushes : list (string * value)) (key : string) :
  pushed key (World (http_log w) (chat_log w) (xcom w ++ pushes)) =
    fold_left (fun acc kv => if String.eqb (fst kv) key then snd kv else acc)
      pushes (pushed key w).
Proof. unfold pushed. cbn [xcom]. apply fold_left_app. Qed.

End MailFacts.

(** [prepare_email_content] never raises, whatever XCom holds.  It
    always adds exactly three entries to XCom, [email_subject],
    [email_text] and [email_html], in this order, all strings, with a
    subject and an HTML body that are not empty.  When anything goes
    wrong while the e-mail is composed (no summary, a summary that the
    check rejects, news of an unexpected form) the three entries are
    those of an error e-mail: the fixed error subject and the message
    of the exception. *)
Theorem prepare_email_never_raises {L : PyLib} (E : Env) (K : Mail) (w : world) :
  exists subject text_content html_content,
    prepare_email_content E K w =
      (Ok (PDict [("subject", PStr subject);
                  ("text_content", PStr text_content);
                  ("html_content", PStr html_content)]),
       World (http_log w) (chat_log w)
         (xcom w ++ [("email_subject", PStr subject);
                     ("email_text", PStr text_content);
                     ("email_html", PStr html_content)]))
    /\ subject <> "" /\ html_content <> ""
    /\ (forall e, compose_email E K = Raise e ->
                  subject = ERROR_SUBJECT
                  /\ text_content = "Ошибка при подготовке email: " ++ exn_str e
                  /\ html_content =
                       "<html><body><p>Ошибка при подготовке email: "
                       ++ exn_str e ++ "</p></body></html>").
Proof.
  destruct (prepare_email_shape E K w)
    as (subject & text_content & html_content & Hrun & Hs & Hh & Hparts).
  exists subject, text_content, html_content.
  split; [exact Hrun | split; [exact Hs | split; [exact Hh |]]].
  intros e He. rewrite He in Hparts. destruct Hparts as (-> & -> & ->).
  split; [reflexivity | split; [reflexivity |]].
  cbn. reflexivity.
Qed.

(** [send_summary_email] hands at most one e-mail to [send_email],
    and none when the subject or the HTML body it pulls is missing or
    empty; the e-mail goes to the configured recipient and carries the
    pulled subject and HTML (the text version is pulled and not sent).
    The task returns only when [send_email] returned; every failure is
    raised as a plain [Exception] whose message is the original one
    behind the spam advice or behind the generic prefix. *)
Theorem summary_email_is_sent_at_most_once {L : PyLib} (E : Env) (K : Mail) :
  let subject := xcom_pull E "email_subject" "prepare_email" in
  let html_content := xcom_pull E "email_html" "prepare_email" in
  let mail := Email [RECIPIENT_EMAIL K] subject html_content in
  snd (send_summary_email E K) =
    (if truthy subject && truthy html_content then [mail] else [])
  /\ match fst (send_summary_email E K) with
     | Ok v =>
         v = PStr ("Email успешно отправлен на " ++ RECIPIENT_EMAIL K)
         /\ truthy subject && truthy html_content = true
         /\ send_email K mail = Ok tt
     | Raise e =>
         exn_cls e = Exception_
         /\ exists msg,
              exn_str e = SPAM_ADVICE ++ msg
              \/ exn_str e = "Ошибка при отправке email: " ++ msg
     end.
Proof.
  intros subject html_content mail. unfold send_summary_email.
  fold subject. fold html_content. fold mail.
  destruct (truthy subject); cbn [negb orb andb].
  - destruct (truthy html_content); cbn [negb].
    + destruct (send_email K mail) as [[] | e].
      * cbn [fst snd]. repeat split; reflexivity.
      * rewrite caught_by_Exception.
        destruct (is_substring "spam message rejected" (py_lower (exn_str e))
                  || is_substring "550" (exn_str e));
          cbn [fst snd exn_cls exn_str];
          (split; [reflexivity |]); (split; [reflexivity |]);
          exists (exn_str e); [left | right]; reflexivity.
    + rewrite caught_by_Exception. cbn [exn_str].
      destruct (is_substring "spam message rejected" (py_lower _) || is_substring "550" _);
        cbn [fst snd exn_cls exn_str];
        (split; [reflexivity |]); (split; [reflexivity |]);
        eexists; [left | right]; reflexivity.
  - rewrite caught_by_Exception. cbn [exn_str].
    destruct (is_substring "spam message rejected" (py_lower _) || is_substring "550" _);
      cbn [fst snd exn_cls exn_str];
      (split; [reflexivity |]); (split; [reflexivity |]);
      eexists; [left | right]; reflexivity.
Qed.

(** Whatever [prepare_email_content] found in XCom, the send task that
    pulls what it pushed hands exactly one e-mail to [send_email].  When
    composing the e-mail failed, that e-mail is the error e-mail: a
    missing or rejected summary is not kept from the recipient, it is
    mailed as an error. *)
Theorem prepared_email_is_always_sent {L : PyLib} (E E' : Env) (K : Mail) (w : world) :
  (forall key,
      xcom_pull E' key "prepare_email" = pushed key (snd (prepare_email_content E K w))) ->
  exists subject html_content,
    snd (send_summary_email E' K) =
      [Email [RECIPIENT_EMAIL K] (PStr subject) (PStr html_content)]
    /\ subject <> ""
    /\ (forall e, compose_email E K = Raise e ->
                  subject = ERROR_SUBJECT
                  /\ html_content =
                       "<html><body><p>Ошибка при подготовке email: "
                       ++ exn_str e ++ "</p></body></html>").
Proof.
  intros Hpull.
  destruct (prepare_email_shape E K w)
    as (subject & text_content & html_content & Hrun & Hs & Hh & Hparts).
  exists subject, html_content.
  rewrite Hrun in Hpull. cbn [snd] in Hpull.
  assert (Hsub : xcom_pull E' "email_subject" "prepare_email" = PStr subject).
  { rewrite Hpull, pushed_after. reflexivity. }
  assert (Hhtml : xcom_pull E' "email_html" "prepare_email" = PStr html_content).
  { rewrite Hpull, pushed_after. reflexivity. }
  split; [| split; [exact Hs |]].
  - unfold send_summary_email. rewrite Hsub, Hhtml. cbn [truthy].
    destruct (String.eqb_spec subject "") as [Heq | _]; [contradiction |].
    destruct (String.eqb_spec html_content "") as [Heq | _]; [contradiction |].
    cbn [negb orb].
    destruct (send_email K _) as [[] | e]; [reflexivity |].
    rewrite caught_by_Exception.
    destruct (is_substring "spam message rejected" (py_lower (exn_str e))
              || is_substring "550" (exn_str e)); reflexivity.
  - intros e He. rewrite He in Hparts. destruct Hparts as (-> & -> & ->).
    split; [reflexivity |]. cbn. reflexivity.
Qed.

Lemma prepared_email_is_always_sent_witness :
  exists subject html_content,
    snd (send_summary_email (L := ref_lib)
           (prepared_env
              (snd (prepare_email_content (L := ref_lib) (summarised_env PNone)
                      (sample_mail (fun _ => Ok tt)) empty_world)))
           (sample_mail (fun _ => Ok tt))) =
      [Email ["reader@example.com"] (PStr subject) (PStr html_content)]
    /\ subject = ERROR_SUBJECT.
Proof.
  destruct (prepared_email_is_always_sent (L := ref_lib) (summarised_env PNone)
              (prepared_env
                 (snd (prepare_email_content (L := ref_lib) (summarised_env PNone)
                         (sample_mail (fun _ => Ok tt)) empty_world)))
              (sample_mail (fun _ => Ok tt)) empty_world
              (fun key => eq_refl))
    as (subject & html_content & Hsent & _ & Herr).
  exists subject, html_content. split; [exact Hsent |].
  exact (proj1 (Herr (Exn Exception_ "Саммари не было создано - получен пустой ответ")
                  eq_refl)).
Defined.

(** A summary that [summarize_news_with_gigachat] accepts is checked
    again by [prepare_email_content] against a list of its own, with no
    second condition: when the lowercased text contains one of its
    eight indicators ("failed" or "не удалось создать", which the first
    check lets through) the e-mail is not composed and the error
    e-mail is pushed instead. *)
Theorem accepted_summary_can_fail_downstream {L : PyLib} (E : Env) (K : Mail)
  (s : string) (w : world) :
  xcom_pull E "summary" "summarize_news" = PStr s ->
  check_summary (PStr s) = Ok tt ->
  existsb (fun indicator => is_substring indicator (py_lower s)) mail_indicators = true ->
  compose_email E K =
    Raise (Exn Exception_ ("Саммари содержит ошибку: " ++ py_slice_to 200 s))
  /\ pushed "email_subject" (snd (prepare_email_content E K w)) = PStr ERROR_SUBJECT.
Proof.
  intros Hpull Hok Hind.
  destruct (check_summary_ok _ Hok) as (s' & [= <-] & Hblank).
  assert (Hc : compose_email E K =
            Raise (Exn Exception_ ("Саммари содержит ошибку: " ++ py_slice_to 200 s))).
  { unfold compose_email, check_pulled_summary. rewrite Hpull.
    unfold blank in Hblank. apply orb_false_elim in Hblank as [Hne Hstrip].
    cbn [truthy]. rewrite Hne, Hstrip, Hind. reflexivity. }
  split; [exact Hc |].
  destruct (prepare_email_shape E K w)
    as (subject & text_content & html_content & Hrun & _ & _ & Hparts).
  rewrite Hc in Hparts. destruct Hparts as (-> & _ & _).
  rewrite Hrun. cbn [snd]. rewrite pushed_after. reflexivity.
Qed.

Lemma accepted_summary_can_fail_downstream_witness :
  check_summary (L := ref_lib) (PStr "The upgrade failed on block 500.") = Ok tt
  /\ pushed "email_subject"
       (snd (prepare_email_content (L := ref_lib)
               (summarised_env (PStr "The upgrade failed on block 500."))
               (sample_mail (fun _ => Ok tt)) empty_world)) = PStr ERROR_SUBJECT.
Proof.
  split; [reflexivity |].
  exact (proj2 (accepted_summary_can_fail_downstream (L := ref_lib)
                  (summarised_env (PStr "The upgrade failed on block 500."))
                  (sample_mail (fun _ => Ok tt))
                  "The upgrade failed on block 500." empty_world
                  eq_refl eq_refl eq_refl)).
Defined.

(** A run on news without titles.  [summarize_news_with_gigachat]
    returns the text for "no news" without contacting the model and
    without pushing a summary; a [prepare_email_content] that then
    pulls the summary finds none, and what it composes is the error
    e-mail for an empty summary: the "no news" text never reaches the
    recipient. *)
Theorem no_news_run_mails_an_error {L : PyLib} (E : Env) (d : dict) (w : world) :
  xcom_pull E "news_data" "get_news" = PDict d ->
  dict_mem "titles" d = true ->
  truthy (field "titles" d) = false ->
  summarize_news_with_gigachat E w = (Ok (PStr "Новостей не найдено."), w)
  /\ forall (E' : Env) (K : Mail),
       xcom_pull E' "summary" "summarize_news" = pushed "summary" w ->
       pushed "summary" w = PNone ->
       compose_email E' K =
         Raise (Exn Exception_ "Саммари не было создано - получен пустой ответ").
Proof.
  intros Hpull Hmem Htitles. split.
  - unfold summarize_news_with_gigachat, try_except, summarize_body, bind,
      reach_summary, bind, lift, ret.
    rewrite Hpull.
    assert (Hd : truthy (PDict d) = true) by (destruct d; [discriminate | reflexivity]).
    rewrite Hd. cbn [negb contains_op get_method]. rewrite Hmem. cbn [negb].
    rewrite dict_mem_lookup in Hmem. unfold field in Htitles.
    destruct (dict_lookup "titles" d) as [titles |]; [| discriminate].
    rewrite Htitles. reflexivity.
  - intros E' K Hsummary Hnone.
    unfold compose_email, check_pulled_summary. rewrite Hsummary, Hnone. reflexivity.
Qed.

Lemma no_news_run_mails_an_error_witness :
  summarize_news_with_gigachat (L := ref_lib) quiet_env empty_world =
    (Ok (PStr "Новостей не найдено."), empty_world)
  /\ compose_email (L := ref_lib) (summarised_env PNone) (sample_mail (fun _ => Ok tt)) =
       Raise (Exn Exception_ "Саммари не было создано - получен пустой ответ").
Proof.
  destruct (no_news_run_mails_an_error (L := ref_lib) quiet_env no_titles empty_world
              eq_refl eq_refl eq_refl) as [Hrun Hmail].
  split; [exact Hrun |].
  exact (Hmail (summarised_env PNone) (sample_mail (fun _ => Ok tt)) eq_refl eq_refl).
Defined.

(** ** Escaping *)

Section EscapeFacts.

Lemma is_substring_char (c : ascii) (s : string) :
  is_substring (String c "") s =
    match s with
    | EmptyString => false
    | String a s' => Ascii.eqb c a || is_substring (String c "") s'
    end.
Proof.
  destruct s as [| a s']; [reflexivity |].
  cbn [is_substring is_prefix]. destruct (Ascii.eqb c a); [| reflexivity].
  destruct s'; reflexivity.
Qed.

Lemma is_substring_char_app (c : ascii) (s t : string) :
  is_substring (String c "") (s ++ t) =
    is_substring (String c "") s || is_substring (String c "") t.
Proof.
  induction s as [| a s IH]; [now rewrite is_substring_char with (s := "") |].
  cbn [String.append]. rewrite (is_substring_char c (String a (s ++ t))).
  rewrite (is_substring_char c (String a s)), IH. now rewrite orb_assoc.
Qed.

(** Replacing [c] by a text without [c] leaves no [c]; a character
    that occurs neither in the text replaced nor in the replacement
    does not appear. *)
Lemma replace_char_removes (c : ascii) (by_ s : string) :
  is_substring (String c "") by_ = false ->
  is_substring (String c "") (replace_char c by_ s) = false.
Proof.
  intros Hby. induction s as [| a s IH]; [reflexivity |].
  cbn [replace_char]. destruct (Ascii.eqb a c) eqn:Hac.
  - now rewrite is_substring_char_app, Hby, IH.
  - rewrite is_substring_char, IH, orb_false_r.
    rewrite Ascii.eqb_sym. exact Hac.
Qed.

Lemma replace_char_keeps_out (c x : ascii) (by_ s : string) :
  is_substring (String x "") by_ = false ->
  is_substring (String x "") s = false ->
  is_substring (String x "") (replace_char c by_ s) = false.
Proof.
  intros Hby. induction s as [| a s IH]; [reflexivity |].
  rewrite is_substring_char. intros Hs. apply orb_false_elim in Hs as [Hxa Hs].
  cbn [replace_char]. destruct (Ascii.eqb a c).
  - now rewrite is_substring_char_app, Hby, (IH Hs).
  - now rewrite is_substring_char, Hxa, (IH Hs).
Qed.

Lemma replace_char_absent (c : ascii) (by_ s : string) :
  is_substring (String c "") s = false -> replace_char c by_ s = s.
Proof.
  induction s as [| a s IH]; [reflexivity |].
  rewrite is_substring_char. intros Hs. apply orb_false_elim in Hs as [Hca Hs].
  cbn [replace_char]. rewrite Ascii.eqb_sym, Hca, (IH Hs). reflexivity.
Qed.

End EscapeFacts.

(** The escaping applied to the summary and to every title before
    they enter the HTML: the result holds no [<] and no [>], whatever
    the text was, and a text without angle brackets is left as it is
    (an ampersand is not touched). *)
Theorem escaped_text_has_no_angle_brackets (s : string) :
  is_substring "<" (escape_angles s) = false
  /\ is_substring ">" (escape_angles s) = false
  /\ (is_substring "<" s = false -> is_substring ">" s = false ->
      escape_angles s = s).
Proof.
  unfold escape_angles. split; [| split].
  - apply replace_char_keeps_out; [reflexivity |].
    apply replace_char_removes. reflexivity.
  - apply replace_char_removes. reflexivity.
  - intros Hlt Hgt.
    rewrite (replace_char_absent "<" "&lt;" s Hlt).
    exact (replace_char_absent ">" "&gt;" s Hgt).
Qed.

Lemma escaped_text_has_no_angle_brackets_witness :
  escape_angles "Bitcoin & co" = "Bitcoin & co".
Proof.
  apply (proj2 (proj2 (escaped_text_has_no_angle_brackets "Bitcoin & co")));
    reflexivity.
Defined.
